(** * xHelper: the glue-level contracts of the ADB front end

    A shallow embedding of the parts of the xHelper sources that the
    specification's testable properties speak about:

    - [xHelper alpha 1.0.1.py]: the plugin loader, the ADB and fastboot
      command runners, the mass-installation worker and its start / stop /
      finished handlers, the battery line of the monitor tab;
    - [unknown ver.py]: the settings file and the battery line of the
      device-information dock;
    - [plugins/hardware_key_emulator.py]: the keycode validator;
    - [broken_plugins/rom_usage_progress.py]: the colour of the ROM bar;
    - [plugins/battery_monitor_extended.py]: the [dumpsys battery] parser.

    The first part of the file holds the definitions, the second part the
    lemmas and theorems. *)

From Stdlib Require Import String Ascii ZArith NArith List Bool Lia.
From Stdlib Require Import DecimalString Decimal QArith.
From Stdlib Require DecimalFacts DecimalPos.
Import ListNotations.

Local Open Scope string_scope.
Local Open Scope Z_scope.

(* ===================================================================== *)
(** * Part I: definitions                                                 *)
(* ===================================================================== *)

(** ** Python text

    A Python [str] is kept as the Rocq [string] of its UTF-8 encoding, so
    that the Cyrillic literals of the sources can be written as they are.
    Concatenation, [join], [in] and splitting at an ASCII separator act on
    the encoding exactly as they act on the text.  The operations that
    depend on character classes ([strip], [split()], [splitlines], [int])
    look at the encoded forms of the characters concerned. *)

Module PyStr.

Definition code (a : ascii) : N := N_of_ascii a.

Definition in_range (lo hi : N) (a : ascii) : bool :=
  ((lo <=? code a) && (code a <=? hi))%N.

Definition is_byte (n : N) (a : ascii) : bool := (code a =? n)%N.

Fixpoint rev_onto (acc s : string) : string :=
  match s with
  | EmptyString => acc
  | String a r => rev_onto (String a acc) r
  end.

(** [s[::-1]] on the encoding; only used internally, on whole strings. *)
Definition rev (s : string) : string := rev_onto EmptyString s.

Definition is_empty (s : string) : bool :=
  match s with EmptyString => true | _ => false end.

(** Truth value of a string: [bool(s)]. *)
Definition truthy (s : string) : bool := negb (is_empty s).

(** *** Character classes *)

(** [str.isspace] on the ASCII range: TAB, LF, VT, FF, CR, the four
    separators FS, GS, RS, US, and the space. *)
Definition space1 (a : ascii) : bool :=
  in_range 9 13 a || in_range 28 32 a.

(** U+0085 and U+00A0, encoded [C2 85] and [C2 A0]. *)
Definition space2 (a b : ascii) : bool :=
  is_byte 194 a && (is_byte 133 b || is_byte 160 b).

(** U+1680, U+2000..U+200A, U+2028, U+2029, U+202F, U+205F, U+3000. *)
Definition space3 (a b c : ascii) : bool :=
  (is_byte 225 a && is_byte 154 b && is_byte 128 c)
  || (is_byte 226 a && is_byte 128 b
      && (in_range 128 138 c || is_byte 168 c || is_byte 169 c || is_byte 175 c))
  || (is_byte 226 a && is_byte 129 b && is_byte 159 c)
  || (is_byte 227 a && is_byte 128 b && is_byte 128 c).

(** The white space that [int()] skips around a literal: the non-ASCII
    spaces are first turned into blanks, the ASCII ones must satisfy C's
    [isspace], which leaves FS, GS, RS and US out. *)
Definition int_space1 (a : ascii) : bool :=
  in_range 9 13 a || is_byte 32 a.

Definition is_digit (a : ascii) : bool := in_range 48 57 a.

Definition digit_value (a : ascii) : Z := Z.of_N (code a) - 48.

(** *** strip *)

Section Strip.
(** The one-byte class differs between [str.strip] and [int]. *)
Variable sp1 : ascii -> bool.

Fixpoint lstrip_with (s : string) : string :=
  match s with
  | EmptyString => s
  | String a r1 =>
      if sp1 a then lstrip_with r1 else
      match r1 with
      | EmptyString => s
      | String b r2 =>
          if space2 a b then lstrip_with r2 else
          match r2 with
          | EmptyString => s
          | String c r3 => if space3 a b c then lstrip_with r3 else s
          end
      end
  end.

(** The same scan on the reversed encoding: the bytes of a character
    arrive last byte first. *)
Fixpoint lstrip_rev_with (s : string) : string :=
  match s with
  | EmptyString => s
  | String c r1 =>
      if sp1 c then lstrip_rev_with r1 else
      match r1 with
      | EmptyString => s
      | String b r2 =>
          if space2 b c then lstrip_rev_with r2 else
          match r2 with
          | EmptyString => s
          | String a r3 => if space3 a b c then lstrip_rev_with r3 else s
          end
      end
  end.

Definition strip_with (s : string) : string :=
  rev (lstrip_rev_with (rev (lstrip_with s))).
End Strip.

(** [s.strip()] *)
Definition strip (s : string) : string := strip_with space1 s.

(** *** in, split, splitlines, join *)

(** [s.startswith(p)] *)
Fixpoint startswith (s p : string) {struct p} : bool :=
  match p with
  | EmptyString => true
  | String a p' =>
      match s with
      | EmptyString => false
      | String b s' => Ascii.eqb a b && startswith s' p'
      end
  end.

(** [needle in hay] *)
Fixpoint contains (needle hay : string) : bool :=
  startswith hay needle ||
  match hay with
  | EmptyString => false
  | String _ r => contains needle r
  end.

(** [s.endswith(suffix)] *)
Definition endswith (s suffix : string) : bool :=
  startswith (rev s) (rev suffix).

(** [s.split(sep)] for a one-character ASCII separator: never empty. *)
Fixpoint split_from (sep : ascii) (cur s : string) : list string :=
  match s with
  | EmptyString => [rev cur]
  | String a r =>
      if Ascii.eqb a sep then rev cur :: split_from sep EmptyString r
      else split_from sep (String a cur) r
  end.

Definition split (sep : ascii) (s : string) : list string :=
  split_from sep EmptyString s.

(** [s.split(sep, 1)]: the text before the first separator and the text
    after it, or the whole text alone when there is no separator. *)
Fixpoint split_once_from (sep : ascii) (cur s : string) : string * option string :=
  match s with
  | EmptyString => (rev cur, None)
  | String a r =>
      if Ascii.eqb a sep then (rev cur, Some r)
      else split_once_from sep (String a cur) r
  end.

Definition split_once (sep : ascii) (s : string) : string * option string :=
  split_once_from sep EmptyString s.

Definition emit (cur : string) : list string :=
  if is_empty cur then [] else [rev cur].

(** [s.split()]: the maximal runs of non-white-space characters. *)
Fixpoint split_ws_from (cur s : string) : list string :=
  match s with
  | EmptyString => emit cur
  | String a r1 =>
      if space1 a then emit cur ++ split_ws_from EmptyString r1 else
      match r1 with
      | EmptyString => split_ws_from (String a cur) r1
      | String b r2 =>
          if space2 a b then emit cur ++ split_ws_from EmptyString r2 else
          match r2 with
          | EmptyString => split_ws_from (String a cur) r1
          | String c r3 =>
              if space3 a b c then emit cur ++ split_ws_from EmptyString r3
              else split_ws_from (String a cur) r1
          end
      end
  end.

Definition split_ws (s : string) : list string := split_ws_from EmptyString s.

(** Line boundaries of [str.splitlines]: LF, VT, FF, CR (and CR LF as
    one), FS, GS, RS, U+0085, U+2028 and U+2029. *)
Definition linebreak1 (a : ascii) : bool :=
  in_range 10 12 a || in_range 28 30 a.

Definition linebreak2 (a b : ascii) : bool := is_byte 194 a && is_byte 133 b.

Definition linebreak3 (a b c : ascii) : bool :=
  is_byte 226 a && is_byte 128 b && (is_byte 168 c || is_byte 169 c).

Fixpoint splitlines_from (cur s : string) : list string :=
  match s with
  | EmptyString => emit cur
  | String a r1 =>
      if is_byte 13 a then
        match r1 with
        | EmptyString => [rev cur]
        | String b r2 =>
            if is_byte 10 b then rev cur :: splitlines_from EmptyString r2
            else rev cur :: splitlines_from EmptyString r1
        end
      else if linebreak1 a then rev cur :: splitlines_from EmptyString r1
      else
        match r1 with
        | EmptyString => splitlines_from (String a cur) r1
        | String b r2 =>
            if linebreak2 a b then rev cur :: splitlines_from EmptyString r2 else
            match r2 with
            | EmptyString => splitlines_from (String a cur) r1
            | String c r3 =>
                if linebreak3 a b c then rev cur :: splitlines_from EmptyString r3
                else splitlines_from (String a cur) r1
            end
        end
  end.

(** [s.splitlines()] *)
Definition splitlines (s : string) : list string :=
  splitlines_from EmptyString s.

(** [sep.join(l)] *)
Definition join (sep : string) (l : list string) : string := String.concat sep l.

(** [s.lower()] on the letters A..Z.  The keys looked up in this
    development are ["level"], ["voltage"], ["temperature"] and
    ["status"]; no character outside A..Z lower-cases to one of their
    letters, so the lookups agree with Python's on every text. *)
Definition lower_char (a : ascii) : ascii :=
  if in_range 65 90 a then ascii_of_N (code a + 32) else a.

Fixpoint lower (s : string) : string :=
  match s with
  | EmptyString => EmptyString
  | String a r => String (lower_char a) (lower r)
  end.

(** *** Numbers *)

(** [str(n)] for an [int]. *)
Definition str_int (n : Z) : string := NilZero.string_of_int (Z.to_int n).

(** The digits of an [int()] literal after the sign: decimal digits, with
    single underscores allowed between two digits.  [seen] tells whether
    the previous character was a digit; [count] is the number of digits
    read so far. *)
Fixpoint int_digits (acc : Z) (count : nat) (seen : bool) (s : string)
  : option (Z * nat) :=
  match s with
  | EmptyString => if seen then Some (acc, count) else None
  | String a r =>
      if is_digit a then int_digits (10 * acc + digit_value a) (S count) true r
      else if is_byte 95 a then
        if seen then int_digits acc count false r else None
      else None
  end.

(** CPython refuses literals of more than 4300 digits. *)
Definition int_max_str_digits : nat := 4300.

Definition int_unsigned (s : string) : option Z :=
  match int_digits 0 0%nat false s with
  | Some (v, n) => if (n <=? int_max_str_digits)%nat then Some v else None
  | None => None
  end.

(** [int(s)] for a [str]: [Some n], or [None] for [ValueError].  Python
    also reads the decimal digits of other scripts; those literals are
    outside this model, which answers [None] for them. *)
Definition py_int (s : string) : option Z :=
  match strip_with int_space1 s with
  | String a r =>
      if is_byte 45 a then option_map Z.opp (int_unsigned r)
      else if is_byte 43 a then int_unsigned r
      else int_unsigned (String a r)
  | EmptyString => None
  end.

(** [re.fullmatch(r"\d{1,3}", s)] as a truth value: one to three
    characters, all of them decimal digits (ASCII digits in this model). *)
Definition fullmatch_digits_1_3 (s : string) : bool :=
  match s with
  | String a EmptyString => is_digit a
  | String a (String b EmptyString) => is_digit a && is_digit b
  | String a (String b (String c EmptyString)) =>
      is_digit a && is_digit b && is_digit c
  | _ => false
  end.

(** [str(n)] raises [ValueError] for an [int] of more than 4300 digits,
    as [int(s)] does. *)
Definition int_str_ok (n : Z) : bool :=
  (String.length (str_int (Z.abs n)) <=? int_max_str_digits)%nat.

(** *** UTF-8

    Which byte strings are the encoding of a text, by the rules of
    CPython's codec: no overlong form, no surrogate, nothing above
    U+10FFFF.  Only these stand for a Python [str] that can be written to
    a file opened with [encoding="utf-8"] and read from one. *)

Definition is_cont (a : ascii) : bool := in_range 128 191 a.

(** The second byte after a lead byte [E0..EF]. *)
Definition second_of_three (a b : ascii) : bool :=
  if is_byte 224 a then in_range 160 191 b
  else if is_byte 237 a then in_range 128 159 b
  else is_cont b.

(** The second byte after a lead byte [F0..F4]. *)
Definition second_of_four (a b : ascii) : bool :=
  if is_byte 240 a then in_range 144 191 b
  else if is_byte 244 a then in_range 128 143 b
  else is_cont b.

Fixpoint valid_utf8 (s : string) : bool :=
  match s with
  | EmptyString => true
  | String a r =>
      if (code a <? 128)%N then valid_utf8 r
      else
        match r with
        | EmptyString => false
        | String b r1 =>
            if in_range 194 223 a then is_cont b && valid_utf8 r1
            else
              match r1 with
              | EmptyString => false
              | String c r2 =>
                  if in_range 224 239 a then
                    second_of_three a b && is_cont c && valid_utf8 r2
                  else
                    match r2 with
                    | EmptyString => false
                    | String d r3 =>
                        in_range 240 244 a && second_of_four a b
                        && is_cont c && is_cont d && valid_utf8 r3
                    end
              end
        end
  end.

End PyStr.

(** ** Exceptions and results *)

(** The classes the handlers of the sources tell apart.  [BaseOnly]
    stands for the exits that derive from [BaseException] without being
    an [Exception] ([KeyboardInterrupt], [SystemExit]). *)
Inductive exn_class : Type :=
| TimeoutExpired
| FileNotFoundError
| ValueError
| OtherException
| BaseOnly.

Record exn : Type := mk_exn {
  exn_cls : exn_class;
  exn_str : string          (* str(e) *)
}.

Definition exn_class_eqb (a b : exn_class) : bool :=
  match a, b with
  | TimeoutExpired, TimeoutExpired
  | FileNotFoundError, FileNotFoundError
  | ValueError, ValueError
  | OtherException, OtherException
  | BaseOnly, BaseOnly => true
  | _, _ => false
  end.

(** [isinstance(e, Exception)] *)
Definition is_Exception (e : exn) : bool :=
  negb (exn_class_eqb (exn_cls e) BaseOnly).

Definition is_TimeoutExpired (e : exn) : bool :=
  exn_class_eqb (exn_cls e) TimeoutExpired.

Definition is_FileNotFoundError (e : exn) : bool :=
  exn_class_eqb (exn_cls e) FileNotFoundError.

Inductive outcome (A : Type) : Type :=
| Returns (a : A)
| Raises (e : exn).
Arguments Returns {A} a.
Arguments Raises {A} e.

(** The [ValueError] of [int()]. *)
Definition invalid_literal (s : string) : exn :=
  mk_exn ValueError ("invalid literal for int() with base 10: '" ++ s ++ "'").

Definition int_of_str (s : string) : outcome Z :=
  match PyStr.py_int s with
  | Some n => Returns n
  | None => Raises (invalid_literal s)
  end.

(** ** plugins/hardware_key_emulator.py *)

Module HardwareKeyEmulator.

(** [bool(re.fullmatch(r"\d{1,3}", text.strip())) and 0 <= int(text) <= 255]:
    [int] is applied to the unstripped text, and only when the pattern
    matched. *)
Definition _is_valid_keycode (text : string) : outcome bool :=
  if PyStr.fullmatch_digits_1_3 (PyStr.strip text) then
    match int_of_str text with
    | Returns n => Returns ((0 <=? n) && (n <=? 255))
    | Raises e => Raises e
    end
  else Returns false.

(** The validator answered [True]. *)
Definition accepted (text : string) : bool :=
  match _is_valid_keycode text with
  | Returns true => true
  | _ => false
  end.

End HardwareKeyEmulator.

(** ** broken_plugins/rom_usage_progress.py *)

Module RomUsageProgress.

(** [int(a / b)] for integers [a >= 0], [b > 0] small enough for the
    float quotient to keep its integer part, as [255 * percent / 50] is
    for [0 <= percent <= 100]: the quotient truncated towards zero. *)
Definition int_of_quotient (a b : Z) : Z := Z.quot a b.

Definition _color_for_percent (percent : Z) : string :=
  let percent := if percent <? 0 then 0 else percent in
  let percent := if percent >? 100 then 100 else percent in
  let rg :=
    if percent <=? 50
    then (int_of_quotient (255 * percent) 50, 255)
    else (255, int_of_quotient (255 * (100 - percent)) 50) in
  "rgb(" ++ PyStr.str_int (fst rg) ++ "," ++ PyStr.str_int (snd rg) ++ ",0)".

End RomUsageProgress.

(** ** Python dictionaries

    A [dict] with [str] keys, in insertion order: assigning to a key that
    is present replaces its value in place, assigning to a new key appends
    it. *)

Module PyDict.

Definition dict (V : Type) : Type := list (string * V).

Fixpoint get {V} (d : dict V) (k : string) : option V :=
  match d with
  | [] => None
  | (k', v) :: r => if String.eqb k' k then Some v else get r k
  end.

(** [d[k] = v] *)
Fixpoint set {V} (d : dict V) (k : string) (v : V) : dict V :=
  match d with
  | [] => [(k, v)]
  | (k', v') :: r =>
      if String.eqb k' k then (k', v) :: r else (k', v') :: set r k v
  end.

(** [d.update(e)] *)
Definition update {V} (d e : dict V) : dict V :=
  fold_left (fun acc kv => set acc (fst kv) (snd kv)) e d.

Definition keys {V} (d : dict V) : list string := map fst d.

End PyDict.

(** ** plugins/battery_monitor_extended.py *)

Module BatteryMonitorExtended.

(** The dictionary returned by [_parse_battery_output].  The temperature
    is the quotient [int(t) / 10], kept as a rational. *)
Record battery : Type := mk_battery {
  level : Z;
  voltage : Z;
  temperature : Q;
  status : string
}.

(** What one line contributes: nothing without a colon, else the pair
    [key.strip().lower()], [val.strip()] cut at the first colon. *)
Definition entry_of_line (line : string) : option (string * string) :=
  match PyStr.split_once ":" line with
  | (_, None) => None
  | (key, Some val) => Some (PyStr.lower (PyStr.strip key), PyStr.strip val)
  end.

(** The loop over the lines. *)
Fixpoint collect (data : PyDict.dict string) (lines : list string)
  : PyDict.dict string :=
  match lines with
  | [] => data
  | line :: rest =>
      match entry_of_line line with
      | None => collect data rest
      | Some (k, v) => collect (PyDict.set data k v) rest
      end
  end.

(** [int(data.get(k, -1))] *)
Definition int_field (data : PyDict.dict string) (k : string) : outcome Z :=
  match PyDict.get data k with
  | Some v => int_of_str v
  | None => Returns (-1)
  end.

(** [data.get(k)] as a condition: the key is present with a non-empty
    value. *)
Definition has_value (data : PyDict.dict string) (k : string) : bool :=
  match PyDict.get data k with
  | Some v => PyStr.truthy v
  | None => false
  end.

Definition _parse_battery_output (output : string) : outcome battery :=
  let data := collect [] (PyStr.splitlines output) in
  match int_field data "level" with
  | Raises e => Raises e
  | Returns level =>
      match (if has_value data "voltage"
             then match int_field data "voltage" with
                  | Returns v => Returns (v / 1000)
                  | Raises e => Raises e
                  end
             else Returns (-1)) with
      | Raises e => Raises e
      | Returns voltage =>
          match (if has_value data "temperature"
                 then match int_field data "temperature" with
                      | Returns t => Returns (inject_Z t / 10)%Q
                      | Raises e => Raises e
                      end
                 else Returns (-1)%Q) with
          | Raises e => Raises e
          | Returns temperature =>
              let status := match PyDict.get data "status" with
                            | Some s => s
                            | None => "UNKNOWN"
                            end in
              Returns (mk_battery level voltage temperature status)
          end
      end
  end.

End BatteryMonitorExtended.

(** ** The battery line of the main windows

    [update_monitor] ([xHelper alpha 1.0.1.py]) and [update_device_info]
    ([unknown ver.py]) scan the output of [adb shell dumpsys battery] with
    the same loop: the first line that contains ["level:"] decides. *)

Definition index_error : exn := mk_exn OtherException "list index out of range".

(** [for line in lines: if "level:" in line: x = line.split(":")[1].strip(); break] *)
Fixpoint scan_level (lines : list string) (level : string) : outcome string :=
  match lines with
  | [] => Returns level
  | line :: rest =>
      if PyStr.contains "level:" line then
        match nth_error (PyStr.split ":" line) 1 with
        | Some part => Returns (PyStr.strip part)
        | None => Raises index_error
        end
      else scan_level rest level
  end.

(** ** JSON values and [json.dump]

    The values [json.load] produces and [json.dump] accepts, floats apart
    (their text form is the shortest decimal that reads back to the same
    double, which is outside this development). *)

#[local] Set Warnings "-register-all".

Inductive pyval : Type :=
| PNone
| PBool (b : bool)
| PInt (n : Z)
| PStr (s : string)
| PList (l : list pyval)
| PDict (d : list (string * pyval)).

Module Json.

Definition nl : string := String (ascii_of_nat 10) EmptyString.

Fixpoint spaces (n : nat) : string :=
  match n with O => EmptyString | S k => String " " (spaces k) end.

(** The line break and indentation written before an item at nesting
    depth [level] when [indent=4]. *)
Definition newline_indent (level : nat) : string := nl ++ spaces (4 * level).

Definition hex_digit (n : N) : ascii :=
  if (n <? 10)%N then ascii_of_N (48 + n) else ascii_of_N (87 + n).

(** What [ensure_ascii=False] writes for one byte of a string: the
    quote, the backslash and the control characters are escaped, the rest
    goes out as it is. *)
Definition escape_char (a : ascii) : string :=
  let c := PyStr.code a in
  if (c =? 34)%N then "\" ++ String a EmptyString
  else if (c =? 92)%N then "\\"
  else if (c =? 10)%N then "\n"
  else if (c =? 13)%N then "\r"
  else if (c =? 9)%N then "\t"
  else if (c =? 12)%N then "\f"
  else if (c =? 8)%N then "\b"
  else if (c <? 32)%N then
    "\u00" ++ String (hex_digit (c / 16)) (String (hex_digit (c mod 16)) EmptyString)
  else String a EmptyString.

Fixpoint escape (s : string) : string :=
  match s with
  | EmptyString => EmptyString
  | String a r => escape_char a ++ escape r
  end.

Definition quote : string := String (ascii_of_nat 34) EmptyString.

Definition encode_str (s : string) : string := quote ++ escape s ++ quote.

(** [json.dumps(v, ensure_ascii=False, indent=4)], started at nesting
    depth [level]. *)
Fixpoint encode (level : nat) (v : pyval) : string :=
  match v with
  | PNone => "null"
  | PBool true => "true"
  | PBool false => "false"
  | PInt n => PyStr.str_int n
  | PStr s => encode_str s
  | PList [] => "[]"
  | PList (x :: r) =>
      "[" ++ newline_indent (S level) ++ encode (S level) x
      ++ (fix items (l : list pyval) : string :=
            match l with
            | [] => EmptyString
            | y :: l' =>
                "," ++ newline_indent (S level) ++ encode (S level) y ++ items l'
            end) r
      ++ newline_indent level ++ "]"
  | PDict [] => "{}"
  | PDict ((k, x) :: r) =>
      "{" ++ newline_indent (S level) ++ encode_str k ++ ": " ++ encode (S level) x
      ++ (fix items (l : list (string * pyval)) : string :=
            match l with
            | [] => EmptyString
            | (k', y) :: l' =>
                "," ++ newline_indent (S level) ++ encode_str k' ++ ": "
                ++ encode (S level) y ++ items l'
            end) r
      ++ newline_indent level ++ "}"
  end.

Definition dumps (v : pyval) : string := encode 0 v.

(** The items of a list after the first, and the members of a
    dictionary after the first, as [encode] writes them. *)
Fixpoint encode_items (level : nat) (l : list pyval) : string :=
  match l with
  | [] => EmptyString
  | y :: l' => "," ++ newline_indent level ++ encode level y ++ encode_items level l'
  end.

Fixpoint encode_members (level : nat) (d : list (string * pyval)) : string :=
  match d with
  | [] => EmptyString
  | (k, y) :: d' =>
      "," ++ newline_indent level ++ encode_str k ++ ": " ++ encode level y
      ++ encode_members level d'
  end.

(** *** [json.load]

    The scanner of CPython's [json] module on the encoded text: white
    space is blank, TAB, LF and CR; a string ends at the first quote that
    is not escaped and must hold no raw control character.  A number with
    a fraction or an exponent, [NaN] and the infinities are floats, which
    the values of this development do not hold: the scanner has no result
    for them, as it has none for a text that is not JSON. *)

Definition is_ws (a : ascii) : bool :=
  PyStr.is_byte 32 a || PyStr.is_byte 9 a || PyStr.is_byte 10 a || PyStr.is_byte 13 a.

Fixpoint skip_ws (s : string) : string :=
  match s with
  | EmptyString => s
  | String a r => if is_ws a then skip_ws r else s
  end.

Definition hex_value (a : ascii) : option N :=
  let c := PyStr.code a in
  if PyStr.in_range 48 57 a then Some (c - 48)%N
  else if PyStr.in_range 97 102 a then Some (c - 87)%N
  else if PyStr.in_range 65 70 a then Some (c - 55)%N
  else None.

Definition hex4 (a b c d : ascii) : option N :=
  match hex_value a, hex_value b, hex_value c, hex_value d with
  | Some x, Some y, Some z, Some t => Some (((x * 16 + y) * 16 + z) * 16 + t)%N
  | _, _, _, _ => None
  end.

(** The UTF-8 bytes of a code point, pushed last byte first on [acc]. *)
Definition push_utf8 (cp : N) (acc : string) : string :=
  let byte (n : N) := ascii_of_N n in
  (if cp <? 128 then String (byte cp) acc
   else if cp <? 2048 then
     String (byte (128 + cp mod 64)) (String (byte (192 + cp / 64)) acc)
   else if cp <? 65536 then
     String (byte (128 + cp mod 64))
       (String (byte (128 + (cp / 64) mod 64)) (String (byte (224 + cp / 4096)) acc))
   else
     String (byte (128 + cp mod 64))
       (String (byte (128 + (cp / 64) mod 64))
          (String (byte (128 + (cp / 4096) mod 64))
             (String (byte (240 + cp / 262144)) acc))))%N.

(** The character a one-letter escape stands for. *)
Definition unescape (b : ascii) : option ascii :=
  let c := PyStr.code b in
  if (c =? 34)%N || (c =? 92)%N || (c =? 47)%N then Some b
  else if (c =? 98)%N then Some (ascii_of_N 8)
  else if (c =? 102)%N then Some (ascii_of_N 12)
  else if (c =? 110)%N then Some (ascii_of_N 10)
  else if (c =? 114)%N then Some (ascii_of_N 13)
  else if (c =? 116)%N then Some (ascii_of_N 9)
  else None.

Definition is_high_surrogate (cp : N) : bool := ((55296 <=? cp) && (cp <=? 56319))%N.
Definition is_low_surrogate (cp : N) : bool := ((56320 <=? cp) && (cp <=? 57343))%N.

(** The text of a string, from just after its opening quote; [acc] holds
    what was read so far, last byte first.  The result is the string and
    the input after the closing quote. *)
Fixpoint scan_string (acc s : string) : option (string * string) :=
  match s with
  | EmptyString => None
  | String a r =>
      if PyStr.is_byte 34 a then Some (PyStr.rev acc, r)
      else if PyStr.is_byte 92 a then
        match r with
        | EmptyString => None
        | String b r1 =>
            if PyStr.is_byte 117 b then
              match r1 with
              | String h1 (String h2 (String h3 (String h4 r2))) =>
                  match hex4 h1 h2 h3 h4 with
                  | None => None
                  | Some cp =>
                      if is_high_surrogate cp then
                        match r2 with
                        | String b1 (String b2
                            (String l1 (String l2 (String l3 (String l4 r3))))) =>
                            if PyStr.is_byte 92 b1 && PyStr.is_byte 117 b2 then
                              match hex4 l1 l2 l3 l4 with
                              | None => None
                              | Some lo =>
                                  if is_low_surrogate lo then
                                    scan_string
                                      (push_utf8 (65536 + (cp - 55296) * 1024
                                                  + (lo - 56320))%N acc) r3
                                  else scan_string (push_utf8 cp acc) r2
                              end
                            else scan_string (push_utf8 cp acc) r2
                        | _ => scan_string (push_utf8 cp acc) r2
                        end
                      else scan_string (push_utf8 cp acc) r2
                  end
              | _ => None
              end
            else
              match unescape b with
              | Some c => scan_string (String c acc) r1
              | None => None
              end
        end
      else if (PyStr.code a <? 32)%N then None
      else scan_string (String a acc) r
  end.

(** The digits at the head of [s], read onto [acc]. *)
Fixpoint scan_digits (acc : Z) (s : string) : Z * string :=
  match s with
  | EmptyString => (acc, s)
  | String a r =>
      if PyStr.is_digit a then scan_digits (10 * acc + PyStr.digit_value a) r
      else (acc, s)
  end.

(** After the integer part: a fraction or an exponent makes a float. *)
Definition starts_fraction_or_exponent (s : string) : bool :=
  match s with
  | String a (String b r) =>
      (PyStr.is_byte 46 a && PyStr.is_digit b)
      || ((PyStr.is_byte 101 a || PyStr.is_byte 69 a)
          && (PyStr.is_digit b
              || ((PyStr.is_byte 43 b || PyStr.is_byte 45 b)
                  && match r with String c _ => PyStr.is_digit c | _ => false end)))
  | _ => false
  end.

(** [0] or a non-zero digit followed by digits. *)
Definition scan_natural (s : string) : option (Z * string) :=
  match s with
  | String a r =>
      if PyStr.is_byte 48 a then Some (0, r)
      else if PyStr.is_digit a then Some (scan_digits 0 s)
      else None
  | EmptyString => None
  end.

Definition scan_number (s : string) : option (pyval * string) :=
  let signed :=
    match s with
    | String a r =>
        if PyStr.is_byte 45 a
        then match scan_natural r with
             | Some (n, rest) => Some (- n, rest)
             | None => None
             end
        else scan_natural s
    | EmptyString => None
    end in
  match signed with
  | Some (n, rest) =>
      if starts_fraction_or_exponent rest then None else Some (PInt n, rest)
  | None => None
  end.

Fixpoint drop (n : nat) (s : string) : string :=
  match n, s with
  | S k, String _ r => drop k r
  | _, _ => s
  end.

(** A value at the head of [s]; [fuel] bounds the number of values and
    items that may still be opened. *)
Fixpoint scan_value (fuel : nat) (s : string) : option (pyval * string) :=
  match fuel with
  | O => None
  | S f =>
      match s with
      | EmptyString => None
      | String a r =>
          if PyStr.is_byte 34 a then
            match scan_string EmptyString r with
            | Some (text, rest) => Some (PStr text, rest)
            | None => None
            end
          else if PyStr.is_byte 123 a then
            match skip_ws r with
            | String b r1 =>
                if PyStr.is_byte 125 b then Some (PDict [], r1)
                else scan_members f [] (String b r1)
            | EmptyString => None
            end
          else if PyStr.is_byte 91 a then
            match skip_ws r with
            | String b r1 =>
                if PyStr.is_byte 93 b then Some (PList [], r1)
                else scan_items f [] (String b r1)
            | EmptyString => None
            end
          else if PyStr.startswith s "null" then Some (PNone, drop 4 s)
          else if PyStr.startswith s "true" then Some (PBool true, drop 4 s)
          else if PyStr.startswith s "false" then Some (PBool false, drop 5 s)
          else scan_number s
      end
  end

(** The items of an array, from the start of an item to the closing
    bracket. *)
with scan_items (fuel : nat) (acc : list pyval) (s : string)
  : option (pyval * string) :=
  match fuel with
  | O => None
  | S f =>
      match scan_value f s with
      | Some (v, rest) =>
          match skip_ws rest with
          | String c r =>
              if PyStr.is_byte 44 c then scan_items f (acc ++ [v]) (skip_ws r)
              else if PyStr.is_byte 93 c then Some (PList (acc ++ [v]), r)
              else None
          | EmptyString => None
          end
      | None => None
      end
  end

(** The members of an object, from the quote of a key to the closing
    brace; [acc] holds the members read so far.  Of a repeated key [json]
    keeps the last value and drops the values before it unseen by the
    caller; the scanner has no result for such an object. *)
with scan_members (fuel : nat) (acc : list (string * pyval)) (s : string)
  : option (pyval * string) :=
  match fuel with
  | O => None
  | S f =>
      match s with
      | String q r =>
          if PyStr.is_byte 34 q then
            match scan_string EmptyString r with
            | Some (k, rest) =>
                if existsb (String.eqb k) (map fst acc) then None else
                match skip_ws rest with
                | String c r1 =>
                    if PyStr.is_byte 58 c then
                      match scan_value f (skip_ws r1) with
                      | Some (v, rest1) =>
                          match skip_ws rest1 with
                          | String d r2 =>
                              if PyStr.is_byte 44 d
                              then scan_members f (acc ++ [(k, v)]) (skip_ws r2)
                              else if PyStr.is_byte 125 d
                              then Some (PDict (acc ++ [(k, v)]), r2)
                              else None
                          | EmptyString => None
                          end
                      | None => None
                      end
                    else None
                | EmptyString => None
                end
            | None => None
            end
          else None
      | EmptyString => None
      end
  end.

(** Nesting: 0 for a scalar, one more than its deepest item for a list
    or a dictionary. *)
Fixpoint depth (v : pyval) : nat :=
  match v with
  | PList l => S (fold_right (fun x n => Nat.max (depth x) n) O l)
  | PDict d => S (fold_right (fun kv n => Nat.max (depth (snd kv)) n) O d)
  | _ => O
  end.

(** The strings of [v], keys included, are UTF-8 text and its integers
    have at most 4300 digits. *)
Fixpoint plain (v : pyval) : bool :=
  match v with
  | PInt n => PyStr.int_str_ok n
  | PStr s => PyStr.valid_utf8 s
  | PList l => forallb plain l
  | PDict d => forallb (fun kv => PyStr.valid_utf8 (fst kv) && plain (snd kv)) d
  | _ => true
  end.

(** Both [json.load] and [json.dump] walk a value by recursion and stop
    with a [RecursionError] near the interpreter's recursion limit, 1000
    by default.  This development keeps to values nested far less. *)
Definition max_depth : nat := 100.

(** The values of type [pyval] that stand for a Python value [json] reads
    and writes. *)
Definition representable (v : pyval) : bool :=
  plain v && (depth v <=? max_depth)%nat.

(** [json.load] on the text of a file, where it returns a value that is
    [representable].  There is no answer ([None]) in the other cases, in
    which [json.load] raises or returns a value this development does not
    hold: a text that is not JSON, one with a float, with an integer of
    more than 4300 digits, with a lone surrogate escape, with an object
    that repeats a key, or nested too deep, and a file that is not UTF-8
    text. *)
Definition load (s : string) : option pyval :=
  if PyStr.valid_utf8 s then
    match scan_value (S (String.length s)) (skip_ws s) with
    | Some (v, rest) =>
        if PyStr.is_empty (skip_ws rest) && representable v then Some v else None
    | None => None
    end
  else None.

End Json.

(** ** Well-formed values

    A Python dictionary holds each key once; the association lists that
    stand for dictionaries must do the same, at every depth. *)

Fixpoint distinct (keys : list string) : bool :=
  match keys with
  | [] => true
  | k :: rest => negb (existsb (String.eqb k) rest) && distinct rest
  end.

Fixpoint well_formed (v : pyval) : bool :=
  match v with
  | PList l => forallb well_formed l
  | PDict d =>
      distinct (map fst d) && forallb (fun kv => well_formed (snd kv)) d
  | _ => true
  end.

(** The values that stand for a Python value [json.dump] writes and
    [json.load] reads. *)
Definition storable (v : pyval) : bool := well_formed v && Json.representable v.

(** ** Effects

    The methods of the main window run in a small state-and-exception
    monad: a computation takes the state and gives back either a value or
    a raised exception, together with the state it leaves behind.  What a
    computation did before it raised stays done, as in Python. *)

Definition M (S A : Type) : Type := S -> outcome A * S.

Definition ret {S A : Type} (a : A) : M S A := fun s => (Returns a, s).

Definition bind {S A B : Type} (m : M S A) (k : A -> M S B) : M S B :=
  fun s =>
    match m s with
    | (Returns a, s') => k a s'
    | (Raises e, s') => (Raises e, s')
    end.

Definition raise {S A : Type} (e : exn) : M S A := fun s => (Raises e, s).

Definition get_state {S : Type} : M S S := fun s => (Returns s, s).

Definition modify {S : Type} (f : S -> S) : M S unit := fun s => (Returns tt, f s).

Notation "x <- m ;; k" := (bind m (fun x => k))
  (at level 61, m at next level, right associativity).
Notation "m ;; k" := (bind m (fun _ => k))
  (at level 61, right associativity).

(** [if c: m] *)
Definition when {S : Type} (c : bool) (m : M S unit) : M S unit :=
  if c then m else ret tt.

(** One [except] clause: the test [isinstance(e, cls)] and the handler. *)
Definition clause (S A : Type) : Type := ((exn -> bool) * (exn -> M S A))%type.

(** The first clause whose class matches handles the exception. *)
Fixpoint select_handler {S A : Type} (clauses : list (clause S A)) (e : exn)
  : option (M S A) :=
  match clauses with
  | [] => None
  | (test, handler) :: rest =>
      if test e then Some (handler e) else select_handler rest e
  end.

(** [try: body  except ...: ...], without [else] or [finally]: an
    exception no clause matches goes on to the caller. *)
Definition try_except {S A : Type} (body : M S A) (clauses : list (clause S A))
  : M S A :=
  fun s =>
    match body s with
    | (Returns a, s') => (Returns a, s')
    | (Raises e, s') =>
        match select_handler clauses e with
        | Some handler => handler s'
        | None => (Raises e, s')
        end
    end.

(** [try: body  finally: final] *)
Definition try_finally {S A : Type} (body : M S A) (final : M S unit) : M S A :=
  fun s =>
    match body s with
    | (r, s') =>
        match final s' with
        | (Returns _, s'') => (r, s'')
        | (Raises e, s'') => (Raises e, s'')
        end
    end.

(** How the body of a [for] loop ends: it falls through to the next
    item, or it leaves the loop with [break]. *)
Inductive flow : Type := Next | Break.

Fixpoint for_each {S A : Type} (l : list A) (body : A -> M S flow) : M S unit :=
  match l with
  | [] => ret tt
  | x :: rest =>
      c <- body x ;;
      match c with
      | Next => for_each rest body
      | Break => ret tt
      end
  end.

(** A computation on the window, run where local variables are carried
    along as a first component of the state. *)
Definition lift {L W A : Type} (m : M W A) : M (L * W) A :=
  fun s => match m (snd s) with (r, w') => (r, (fst s, w')) end.

Definition get_local {L W : Type} : M (L * W) L := fun s => (Returns (fst s), s).

Definition modify_local {L W : Type} (f : L -> L) : M (L * W) unit :=
  fun s => (Returns tt, (f (fst s), snd s)).

(** Runs [m] with fresh locals [l] and forgets them at the end. *)
Definition with_locals {L W A : Type} (l : L) (m : M (L * W) A) : M W A :=
  fun w => match m (l, w) with (r, s') => (r, snd s') end.

(** [enumerate(l)] *)
Fixpoint enumerate_from {A : Type} (i : Z) (l : list A) : list (Z * A) :=
  match l with
  | [] => []
  | x :: rest => (i, x) :: enumerate_from (i + 1) rest
  end.

Definition enumerate {A : Type} (l : list A) : list (Z * A) := enumerate_from 0 l.

(** ** The outside world *)

(** One [subprocess.run(argv, capture_output=True, text=True, timeout=t)]. *)
Record invocation : Type := mk_invocation {
  argv : list string;
  timeout : option Z            (* seconds; [None] when no timeout is passed *)
}.

(** [subprocess.CompletedProcess] *)
Record completed : Type := mk_completed {
  returncode : Z;
  stdout : string;
  stderr : string
}.

(** The renderings of [datetime.now()] the sources use. *)
Inductive time_format : Type :=
| HMS          (* strftime("%H:%M:%S") *)
| Compact      (* %Y%m%d_%H%M%S *)
| Long         (* %Y-%m-%d %H:%M:%S *)
| Iso          (* isoformat() *)
| Plain.       (* str() *)

(** What the program cannot decide: the clock, what each launched process
    does, what the worker reads in [self.stop_installation] (the UI thread
    writes it while the worker runs), and which file operations fail.
    Each is indexed by how many readings, launches, loop iterations or
    file operations came before. *)
Record env : Type := mk_env {
  clock : nat -> time_format -> string;
  process : nat -> invocation -> outcome completed;
  stop_read : nat -> bool;
  file_fault : nat -> option exn
}.

Inductive icon : Type := Information | Warning.

(** A [QMessageBox.information] or [QMessageBox.warning] shown to the user. *)
Record dialog : Type := mk_dialog {
  dialog_icon : icon;
  dialog_title : string;
  dialog_text : string
}.

(** A line of the console, [f"[{ts}] {message}"], kept as its two parts. *)
Record log_line : Type := mk_line {
  stamp : string;
  message : string
}.

Definition render (l : log_line) : string := "[" ++ stamp l ++ "] " ++ message l.

(** ** The main window of [xHelper alpha 1.0.1.py]

    The attributes and widgets the modelled methods read or write, and a
    record of what has gone out to the world. *)

Record window : Type := mk_window {
  console : list log_line;          (* self.console, oldest line first *)
  selected_devices : list string;   (* texts of device_list.selectedItems() *)
  run_all_checkbox : bool;          (* run_all_checkbox.isChecked() *)
  apk_files : list string;
  install_in_progress : bool;
  stop_installation : bool;
  progress_visible : bool;          (* progress_bar *)
  progress_maximum : Z;
  progress_value : Z;
  progress_connected : nat;         (* progress_signal -> progress_bar.setValue *)
  start_install_btn : bool;         (* enabled? *)
  stop_install_btn : bool;
  worker_threads : nat;             (* started workers that have not finished *)
  ticks : nat;                      (* readings of the clock so far *)
  spawned : list invocation;        (* processes launched so far *)
  dialogs : list dialog;            (* message boxes shown so far *)
  files : PyDict.dict string;       (* files written, by path *)
  file_ops : nat                    (* file operations so far *)
}.

Definition set_console (v : list log_line) (w : window) : window :=
  mk_window v (selected_devices w) (run_all_checkbox w) (apk_files w)
    (install_in_progress w) (stop_installation w) (progress_visible w)
    (progress_maximum w) (progress_value w) (progress_connected w)
    (start_install_btn w) (stop_install_btn w) (worker_threads w) (ticks w)
    (spawned w) (dialogs w) (files w) (file_ops w).

Definition set_apk_files (v : list string) (w : window) : window :=
  mk_window (console w) (selected_devices w) (run_all_checkbox w) v
    (install_in_progress w) (stop_installation w) (progress_visible w)
    (progress_maximum w) (progress_value w) (progress_connected w)
    (start_install_btn w) (stop_install_btn w) (worker_threads w) (ticks w)
    (spawned w) (dialogs w) (files w) (file_ops w).

Definition set_install_in_progress (v : bool) (w : window) : window :=
  mk_window (console w) (selected_devices w) (run_all_checkbox w) (apk_files w)
    v (stop_installation w) (progress_visible w)
    (progress_maximum w) (progress_value w) (progress_connected w)
    (start_install_btn w) (stop_install_btn w) (worker_threads w) (ticks w)
    (spawned w) (dialogs w) (files w) (file_ops w).

Definition set_stop_installation (v : bool) (w : window) : window :=
  mk_window (console w) (selected_devices w) (run_all_checkbox w) (apk_files w)
    (install_in_progress w) v (progress_visible w)
    (progress_maximum w) (progress_value w) (progress_connected w)
    (start_install_btn w) (stop_install_btn w) (worker_threads w) (ticks w)
    (spawned w) (dialogs w) (files w) (file_ops w).

Definition set_progress_visible (v : bool) (w : window) : window :=
  mk_window (console w) (selected_devices w) (run_all_checkbox w) (apk_files w)
    (install_in_progress w) (stop_installation w) v
    (progress_maximum w) (progress_value w) (progress_connected w)
    (start_install_btn w) (stop_install_btn w) (worker_threads w) (ticks w)
    (spawned w) (dialogs w) (files w) (file_ops w).

Definition set_progress_maximum (v : Z) (w : window) : window :=
  mk_window (console w) (selected_devices w) (run_all_checkbox w) (apk_files w)
    (install_in_progress w) (stop_installation w) (progress_visible w)
    v (progress_value w) (progress_connected w)
    (start_install_btn w) (stop_install_btn w) (worker_threads w) (ticks w)
    (spawned w) (dialogs w) (files w) (file_ops w).

Definition set_progress_value (v : Z) (w : window) : window :=
  mk_window (console w) (selected_devices w) (run_all_checkbox w) (apk_files w)
    (install_in_progress w) (stop_installation w) (progress_visible w)
    (progress_maximum w) v (progress_connected w)
    (start_install_btn w) (stop_install_btn w) (worker_threads w) (ticks w)
    (spawned w) (dialogs w) (files w) (file_ops w).

Definition set_progress_connected (v : nat) (w : window) : window :=
  mk_window (console w) (selected_devices w) (run_all_checkbox w) (apk_files w)
    (install_in_progress w) (stop_installation w) (progress_visible w)
    (progress_maximum w) (progress_value w) v
    (start_install_btn w) (stop_install_btn w) (worker_threads w) (ticks w)
    (spawned w) (dialogs w) (files w) (file_ops w).

Definition set_start_install_btn (v : bool) (w : window) : window :=
  mk_window (console w) (selected_devices w) (run_all_checkbox w) (apk_files w)
    (install_in_progress w) (stop_installation w) (progress_visible w)
    (progress_maximum w) (progress_value w) (progress_connected w)
    v (stop_install_btn w) (worker_threads w) (ticks w)
    (spawned w) (dialogs w) (files w) (file_ops w).

Definition set_stop_install_btn (v : bool) (w : window) : window :=
  mk_window (console w) (selected_devices w) (run_all_checkbox w) (apk_files w)
    (install_in_progress w) (stop_installation w) (progress_visible w)
    (progress_maximum w) (progress_value w) (progress_connected w)
    (start_install_btn w) v (worker_threads w) (ticks w)
    (spawned w) (dialogs w) (files w) (file_ops w).

Definition set_worker_threads (v : nat) (w : window) : window :=
  mk_window (console w) (selected_devices w) (run_all_checkbox w) (apk_files w)
    (install_in_progress w) (stop_installation w) (progress_visible w)
    (progress_maximum w) (progress_value w) (progress_connected w)
    (start_install_btn w) (stop_install_btn w) v (ticks w)
    (spawned w) (dialogs w) (files w) (file_ops w).

Definition set_ticks (v : nat) (w : window) : window :=
  mk_window (console w) (selected_devices w) (run_all_checkbox w) (apk_files w)
    (install_in_progress w) (stop_installation w) (progress_visible w)
    (progress_maximum w) (progress_value w) (progress_connected w)
    (start_install_btn w) (stop_install_btn w) (worker_threads w) v
    (spawned w) (dialogs w) (files w) (file_ops w).

Definition set_spawned (v : list invocation) (w : window) : window :=
  mk_window (console w) (selected_devices w) (run_all_checkbox w) (apk_files w)
    (install_in_progress w) (stop_installation w) (progress_visible w)
    (progress_maximum w) (progress_value w) (progress_connected w)
    (start_install_btn w) (stop_install_btn w) (worker_threads w) (ticks w)
    v (dialogs w) (files w) (file_ops w).

Definition set_dialogs (v : list dialog) (w : window) : window :=
  mk_window (console w) (selected_devices w) (run_all_checkbox w) (apk_files w)
    (install_in_progress w) (stop_installation w) (progress_visible w)
    (progress_maximum w) (progress_value w) (progress_connected w)
    (start_install_btn w) (stop_install_btn w) (worker_threads w) (ticks w)
    (spawned w) v (files w) (file_ops w).

Definition set_files (v : PyDict.dict string) (w : window) : window :=
  mk_window (console w) (selected_devices w) (run_all_checkbox w) (apk_files w)
    (install_in_progress w) (stop_installation w) (progress_visible w)
    (progress_maximum w) (progress_value w) (progress_connected w)
    (start_install_btn w) (stop_install_btn w) (worker_threads w) (ticks w)
    (spawned w) (dialogs w) v (file_ops w).

Definition set_file_ops (v : nat) (w : window) : window :=
  mk_window (console w) (selected_devices w) (run_all_checkbox w) (apk_files w)
    (install_in_progress w) (stop_installation w) (progress_visible w)
    (progress_maximum w) (progress_value w) (progress_connected w)
    (start_install_btn w) (stop_install_btn w) (worker_threads w) (ticks w)
    (spawned w) (dialogs w) (files w) v.

(** A window as [__init__] builds it: nothing selected, no installation
    under way, the progress bar hidden, and nothing logged yet. *)
Definition initial_window : window :=
  mk_window [] [] false [] false false false 100 (-1) 0%nat true false 0%nat
    0%nat [] [] [] 0%nat.

(** ** [xHelper alpha 1.0.1.py] *)

Module Alpha.

Section Methods.

Variable E : env.

(** [datetime.now()] rendered with [fmt]. *)
Definition now (fmt : time_format) : M window string :=
  fun w => (Returns (clock E (ticks w) fmt), set_ticks (S (ticks w)) w).

(** [log_message]: one line more on the console, with its time stamp.
    [log_signal] is connected to it in [__init__], so an emission of the
    signal is modelled by the same call. *)
Definition log_message (text : string) : M window unit :=
  ts <- now HMS ;;
  modify (fun w => set_console (console w ++ [mk_line ts text]) w).

(** [subprocess.run(args, capture_output=True, text=True, timeout=t)] *)
Definition subprocess_run (args : list string) (t : option Z) : M window completed :=
  fun w =>
    let inv := mk_invocation args t in
    (process E (length (spawned w)) inv, set_spawned (spawned w ++ [inv]) w).

Definition show_dialog (i : icon) (title text : string) : M window unit :=
  modify (fun w => set_dialogs (dialogs w ++ [mk_dialog i title text]) w).

(** A file operation either fails, as the environment says, or goes on. *)
Definition file_op : M window unit :=
  fun w =>
    let w' := set_file_ops (S (file_ops w)) w in
    match file_fault E (file_ops w) with
    | Some e => (Raises e, w')
    | None => (Returns tt, w')
    end.

(** [open(path, "w", encoding="utf-8")] *)
Definition open_w (path : string) : M window unit :=
  file_op ;;
  modify (fun w => set_files (PyDict.set (files w) path EmptyString) w).

(** [f.write(text)] on the file opened at [path] *)
Definition write (path text : string) : M window unit :=
  file_op ;;
  modify (fun w =>
    let old := match PyDict.get (files w) path with
               | Some c => c
               | None => EmptyString
               end in
    set_files (PyDict.set (files w) path (old ++ text)) w).

(** *** Plugins *)

(** What importing a plugin file gives: a module that has a [register]
    function or not.  The function receives the whole main window, so its
    call is any computation on the window. *)
Record module : Type := mk_module {
  register : option (M window unit)
}.

(** An entry of the plugins directory: its name, whether
    [spec_from_file_location] gave a specification with a loader, and what
    [exec_module] does. *)
Record plugin_file : Type := mk_plugin_file {
  fn : string;
  spec_found : bool;
  exec_module : M window module
}.

(** The texts of the loader, which are all that differs between the
    [alpha] and the [alpha_on_english] copies. *)
Record loader_texts : Type := mk_loader_texts {
  text_no_folder : string;
  text_loaded : string;
  text_failed : string
}.

Definition texts_alpha : loader_texts :=
  mk_loader_texts "Папка plugins не найдена – плагины не загружены." "Плагин загружен: " "Ошибка загрузки плагина ".

Definition texts_alpha_on_english : loader_texts :=
  mk_loader_texts "Plugins folder not found â€“ no plugins loaded." "Plugin loaded: " "Error loading plugin ".

(** The [try] block of the loop body. *)
Definition load_module (T : loader_texts) (p : plugin_file) : M window unit :=
  mod_ <- exec_module p ;;
  match register mod_ with
  | Some entry_point =>
      entry_point ;;
      log_message (text_loaded T ++ fn p)
  | None => ret tt
  end.

(** The body of the loop over [os.listdir(plugins_dir)]. *)
Definition load_plugin (T : loader_texts) (p : plugin_file) : M window flow :=
  if negb (PyStr.endswith (fn p) ".py") then ret Next
  else if spec_found p then
    try_except (load_module T p)
      [(is_Exception,
        fun e => log_message (text_failed T ++ fn p ++ ": " ++ exn_str e))] ;;
    ret Next
  else ret Next.

(** [load_plugins]; [plugins_dir] is [None] when the folder is missing. *)
Definition load_plugins_in (T : loader_texts)
    (plugins_dir : option (list plugin_file)) : M window unit :=
  match plugins_dir with
  | None => log_message (text_no_folder T)
  | Some listing => for_each listing (load_plugin T)
  end.

Definition load_plugins := load_plugins_in texts_alpha.

(** *** ADB commands *)

(** [full_cmd] for an item of [devices], which is a device name or
    [None]: [if dev:] holds for a name that is not empty. *)
Definition adb_full_cmd (command : string) (dev : option string) : list string :=
  match dev with
  | Some name =>
      if PyStr.truthy name
      then (["adb"; "-s"; name] ++ PyStr.split_ws command)%list
      else (["adb"] ++ PyStr.split_ws command)%list
  | None => (["adb"] ++ PyStr.split_ws command)%list
  end.

(** The body of the loop over [devices]. *)
Definition run_adb_on (command : string) (dev : option string) : M window flow :=
  let full_cmd := adb_full_cmd command dev in
  try_except
    (log_message ("Выполняем: " ++ PyStr.join " " full_cmd) ;;
     result <- subprocess_run full_cmd (Some 30) ;;
     when (PyStr.truthy (stdout result))
       (log_message "Результат:" ;; log_message (stdout result)) ;;
     when (PyStr.truthy (stderr result))
       (log_message "Ошибки:" ;; log_message (stderr result)) ;;
     when (negb (returncode result =? 0))
       (log_message ("Команда завершилась с кодом: " ++ PyStr.str_int (returncode result))))
    [(is_TimeoutExpired, fun _ => log_message "Команда превысила таймаут (30 сек.)");
     (is_Exception, fun e => log_message ("Ошибка выполнения команды: " ++ exn_str e))] ;;
  ret Next.

(** The list [devices] the loop runs over, or [None] when the method
    returns early because no device is selected. *)
Definition adb_devices (device_specific : bool) (w : window)
  : option (list (option string)) :=
  if device_specific then
    match selected_devices w with
    | [] => None
    | first :: others =>
        if negb (run_all_checkbox w) then Some [Some first]
        else Some (map Some (first :: others))
    end
  else Some [None].

Definition run_adb_command (command : string) (device_specific : bool)
  : M window unit :=
  w <- get_state ;;
  match adb_devices device_specific w with
  | None => log_message "Не выбрано устройство"
  | Some devices => for_each devices (run_adb_on command)
  end.

(** *** Fastboot commands *)

Definition run_fastboot_command (command : string) : M window unit :=
  try_except
    (let full_cmd := (["fastboot"] ++ PyStr.split_ws command)%list in
     log_message ("Fastboot: " ++ PyStr.join " " full_cmd) ;;
     result <- subprocess_run full_cmd (Some 60) ;;
     when (PyStr.truthy (stdout result)) (log_message (stdout result)) ;;
     when (PyStr.truthy (stderr result)) (log_message (stderr result)))
    [(is_TimeoutExpired, fun _ => log_message "Fastboot‑команда превысила таймаут");
     (is_FileNotFoundError, fun _ => log_message "fastboot не найден в PATH");
     (is_Exception, fun e => log_message ("Ошибка fastboot: " ++ exn_str e))].

(** *** Reports *)

(** One item of a report's [entries]. *)
Record entry : Type := mk_entry {
  package : string;
  status : string;
  details : string
}.

(** The dictionary [install_apks_thread] hands to [save_report]. *)
Record report : Type := mk_report {
  report_type : string;
  timestamp : string;
  total : Z;
  success : Z;
  failed : Z;
  entries : list entry
}.

Definition entry_value (e : entry) : pyval :=
  PDict [("package", PStr (package e)); ("status", PStr (status e));
         ("details", PStr (details e))].

Definition report_value (r : report) : pyval :=
  PDict [("type", PStr (report_type r)); ("timestamp", PStr (timestamp r));
         ("total", PInt (total r)); ("success", PInt (success r));
         ("failed", PInt (failed r));
         ("entries", PList (map entry_value (entries r)))].

Definition html_row (e : entry) : string :=
  "<tr><td>" ++ package e ++ "</td><td>" ++ status e ++ "</td><td>"
  ++ details e ++ "</td></tr>" ++ Json.nl.

Definition html_page (base_name stamp rows : string) : string :=
  let nl := Json.nl in
  let quote := Json.quote in
  "<!DOCTYPE html>" ++ nl ++ "<html>" ++ nl ++ "<head>" ++ nl ++
  "<meta charset=" ++ quote ++ "utf-8" ++ quote ++ ">" ++ nl ++ "<title>" ++
  base_name ++ " report</title>" ++ nl ++ "<style>" ++ nl ++
  "body {font-family:Arial,sans-serif;}" ++ nl ++
  "table {border-collapse:collapse;width:100%;}" ++ nl ++
  "th,td {border:1px solid #ddd;padding:8px;}" ++ nl ++
  "th {background:#f2f2f2;}" ++ nl ++ "</style>" ++ nl ++ "</head>" ++ nl ++
  "<body>" ++ nl ++ "<h2>" ++ base_name ++ " report – " ++ stamp ++
  "</h2>" ++ nl ++ "<table>" ++ nl ++
  "<tr><th>Пакет</th><th>Статус</th><th>Подробности</th></tr>" ++ nl ++
  rows ++ nl ++ "</table>" ++ nl ++ "</body>" ++ nl ++ "</html>".

(** [save_report(data, base_name)]: each of the two files is written in
    a [try] of its own. *)
Definition save_report (data : report) (base_name : string) : M window unit :=
  ts <- now Compact ;;
  let json_path := base_name ++ "_" ++ ts ++ ".json" in
  let html_path := base_name ++ "_" ++ ts ++ ".html" in
  try_except
    (open_w json_path ;;
     write json_path (Json.dumps (report_value data)) ;;
     log_message ("JSON‑отчёт сохранён: " ++ json_path))
    [(is_Exception, fun e => log_message ("Не удалось сохранить JSON‑отчёт: " ++ exn_str e))] ;;
  try_except
    (let rows := String.concat EmptyString (map html_row (entries data)) in
     stamp <- now Long ;;
     let html := html_page base_name stamp rows in
     open_w html_path ;;
     write html_path html ;;
     log_message ("HTML‑отчёт сохранён: " ++ html_path))
    [(is_Exception, fun e => log_message ("Не удалось сохранить HTML‑отчёт: " ++ exn_str e))].

(** *** Mass installation: the worker *)

(** The local variables of [install_apks_thread] that the loop updates. *)
Record install_locals : Type := mk_locals {
  l_success : Z;
  l_failed : Z;
  l_entries : list entry;
  l_status : string;
  l_details : string
}.

Definition count_success (l : install_locals) : install_locals :=
  mk_locals (l_success l + 1) (l_failed l) (l_entries l) (l_status l) (l_details l).

Definition count_failed (l : install_locals) : install_locals :=
  mk_locals (l_success l) (l_failed l + 1) (l_entries l) (l_status l) (l_details l).

Definition set_outcome (st det : string) (l : install_locals) : install_locals :=
  mk_locals (l_success l) (l_failed l) (l_entries l) st det.

Definition append_entry (pkg : string) (l : install_locals) : install_locals :=
  mk_locals (l_success l) (l_failed l)
    (l_entries l ++ [mk_entry pkg (l_status l) (l_details l)])
    (l_status l) (l_details l).

(** [os.path.basename] with the POSIX separator. *)
Definition basename (path : string) : string :=
  last (PyStr.split "/" path) EmptyString.

(** [self.stop_installation] as the worker reads it at iteration [i]. *)
Definition read_stop (i : Z) : M window bool :=
  ret (stop_read E (Z.to_nat i)).

(** [progress_signal.emit(v)]: the bar of the mass-installation tab
    follows while [start_mass_installation] has it connected. *)
Definition emit_progress (v : Z) : M window unit :=
  modify (fun w =>
    if (0 <? progress_connected w)%nat then set_progress_value v w else w).

(** The body of the loop over [enumerate(self.apk_files)]. *)
Definition install_one (n_total : Z) (log_file : string) (item : Z * string)
  : M (install_locals * window) flow :=
  let i := fst item in
  let apk_path := snd item in
  stop <- lift (read_stop i) ;;
  if (stop : bool) then
    lift (log_message "Установка остановлена пользователем") ;;
    ret Break
  else
    lift (log_message ("[" ++ PyStr.str_int (i + 1) ++ "/"
                       ++ PyStr.str_int n_total ++ "] Устанавливаем " ++ apk_path)) ;;
    try_except
      (result <- lift (subprocess_run ["adb"; "install"; "-r"; apk_path] (Some 360)) ;;
       if returncode result =? 0 then
         modify_local count_success ;;
         modify_local (set_outcome "success" "Installed") ;;
         let msg := "УСПЕХ: " ++ apk_path in
         lift (log_message msg) ;;
         lift (write log_file (msg ++ Json.nl))
       else
         modify_local count_failed ;;
         let det := PyStr.strip (stderr result) in
         modify_local (set_outcome "failed" det) ;;
         let msg := "ОШИБКА: " ++ apk_path ++ Json.nl ++ det in
         lift (log_message msg) ;;
         lift (write log_file (msg ++ Json.nl)))
      [(is_TimeoutExpired,
        fun _ =>
          modify_local count_failed ;;
          modify_local (set_outcome "timeout" "Превышен таймаут (6 мин.)") ;;
          let msg := "ТАЙМАУТ: " ++ apk_path in
          lift (log_message msg) ;;
          lift (write log_file (msg ++ Json.nl)));
       (is_Exception,
        fun e =>
          modify_local count_failed ;;
          let det := exn_str e in
          modify_local (set_outcome "exception" det) ;;
          let msg := "ИСКЛЮЧЕНИЕ: " ++ apk_path ++ " – " ++ det in
          lift (log_message msg) ;;
          lift (write log_file (msg ++ Json.nl)))] ;;
    modify_local (append_entry (basename apk_path)) ;;
    lift (emit_progress (i + 1)) ;;
    ret Next.

Fixpoint repeat_string (s : string) (n : nat) : string :=
  match n with O => EmptyString | S k => s ++ repeat_string s k end.

(** The [with open(log_file, 'w')] block; its value is the locals at the
    end of the block. *)
Definition install_logged (apks : list string) (n_total : Z) (log_file : string)
  : M (install_locals * window) install_locals :=
  lift (open_w log_file) ;;
  started <- lift (now Plain) ;;
  lift (write log_file ("Лог массовой установки – " ++ started ++ Json.nl)) ;;
  lift (write log_file (repeat_string "=" 50 ++ Json.nl)) ;;
  for_each (enumerate apks) (install_one n_total log_file) ;;
  lift (write log_file (repeat_string "=" 50 ++ Json.nl)) ;;
  l <- get_local ;;
  lift (write log_file ("Успешно: " ++ PyStr.str_int (l_success l) ++ Json.nl)) ;;
  lift (write log_file ("Не удалось: " ++ PyStr.str_int (l_failed l) ++ Json.nl)) ;;
  lift (write log_file ("Всего обработано: " ++ PyStr.str_int (l_success l + l_failed l)
                        ++ Json.nl)) ;;
  ret l.

(** The report built after the block. *)
Definition install_report (n_total : Z) (l : install_locals) : M window report :=
  ts <- now Iso ;;
  ret (mk_report "mass_install" ts n_total (l_success l) (l_failed l) (l_entries l)).

(** [install_apks_thread] up to the dictionary [report]. *)
Definition install_apks_report : M window report :=
  w <- get_state ;;
  let n_total := Z.of_nat (length (apk_files w)) in
  log_message ("Начало массовой установки " ++ PyStr.str_int n_total ++ " APK‑файлов") ;;
  stamp <- now Compact ;;
  let log_file := "install_log_" ++ stamp ++ ".txt" in
  l <- with_locals (mk_locals 0 0 [] EmptyString EmptyString)
         (install_logged (apk_files w) n_total log_file) ;;
  install_report n_total l.

(** The rest of it: the report is saved and the result announced. *)
Definition install_apks_thread : M window unit :=
  data <- install_apks_report ;;
  save_report data "mass_install_report" ;;
  log_message ("Установка завершена! Успешно: " ++ PyStr.str_int (success data) ++ ", Ошибки: "
               ++ PyStr.str_int (failed data)) ;;
  if failed data =? 0 then
    show_dialog Information "Готово" "Все APK‑файлы установлены успешно!"
  else
    show_dialog Warning "Готово"
      ("Установка завершена с ошибками." ++ Json.nl ++ "Успешно: " ++ PyStr.str_int (success data)
       ++ Json.nl ++ "Ошибки: " ++ PyStr.str_int (failed data)).

(** *** Mass installation: the handlers of the UI thread *)

(** [os.path.join(folder, name)] with the POSIX separator. *)
Definition path_join (folder name : string) : string :=
  if PyStr.startswith name "/" then name
  else if PyStr.is_empty folder || PyStr.endswith folder "/" then folder ++ name
  else folder ++ "/" ++ name.

(** [select_apk_folder], for the folder the dialog returned and the
    names [os.listdir] found in it.  The texts of the line edit and of the
    counter label are not tracked. *)
Definition select_apk_folder (folder : string) (listing : list string)
  : M window unit :=
  when (PyStr.truthy folder)
    (modify (set_apk_files
       (map (path_join folder)
          (filter (fun f => PyStr.endswith (PyStr.lower f) ".apk") listing)))).

Definition start_mass_installation : M window unit :=
  w <- get_state ;;
  match apk_files w with
  | [] => show_dialog Warning "Ошибка" "Сначала выберите папку с APK‑файлами"
  | _ :: _ =>
      if install_in_progress w then
        show_dialog Information "Информация" "Установка уже запущена"
      else
        modify (set_install_in_progress true) ;;
        modify (set_stop_installation false) ;;
        modify (set_progress_visible true) ;;
        modify (set_progress_maximum (Z.of_nat (length (apk_files w)))) ;;
        modify (set_progress_value 0) ;;
        modify (fun w => set_progress_connected (S (progress_connected w)) w) ;;
        modify (set_start_install_btn false) ;;
        modify (set_stop_install_btn true) ;;
        (* WorkerThread(self.install_apks_thread).start() *)
        modify (fun w => set_worker_threads (S (worker_threads w)) w)
  end.

Definition stop_mass_installation : M window unit :=
  w <- get_state ;;
  when (install_in_progress w)
    (modify (set_stop_installation true) ;;
     log_message "Установка прервана пользователем" ;;
     modify (set_stop_install_btn false)).

(** The [disconnect] raises [TypeError] when nothing is connected, which
    the method swallows. *)
Definition mass_installation_finished : M window unit :=
  modify (set_install_in_progress false) ;;
  modify (set_progress_visible false) ;;
  modify (fun w => set_progress_connected (pred (progress_connected w)) w) ;;
  modify (set_start_install_btn true) ;;
  modify (set_stop_install_btn false).

(** The [finished_signal] of a worker reaches the window: the thread is
    over and the slot connected to the signal runs. *)
Definition worker_finished : M window unit :=
  modify (fun w => set_worker_threads (pred (worker_threads w)) w) ;;
  mass_installation_finished.

(** [WorkerThread.run] for the function the thread was given. *)
Definition worker_run (function : M window unit) : M window unit :=
  try_finally
    (try_except function
       [(is_Exception, fun e => log_message ("Ошибка в потоке: " ++ exn_str e))])
    worker_finished.

(** What can happen to the mass-installation tab: the three handlers of
    the UI thread, and the two signals of a running worker. *)
Inductive event : Type :=
| Folder_selected (folder : string) (listing : list string)
| Start_clicked
| Stop_clicked
| Progress_emitted (v : Z)
| Worker_finished.

(** The signals of a worker need a worker that runs. *)
Definition enabled (ev : event) (w : window) : bool :=
  match ev with
  | Progress_emitted _ | Worker_finished => (0 <? worker_threads w)%nat
  | _ => true
  end.

Definition handle (ev : event) : M window unit :=
  match ev with
  | Folder_selected folder listing => select_apk_folder folder listing
  | Start_clicked => start_mass_installation
  | Stop_clicked => stop_mass_installation
  | Progress_emitted v => emit_progress v
  | Worker_finished => worker_finished
  end.

(** One step of the tab: an enabled event, handled without an exception. *)
Definition step (w : window) (ev : event) (w' : window) : Prop :=
  enabled ev w = true /\ handle ev w = (Returns tt, w').

Inductive reachable : window -> Prop :=
| reachable_initial : reachable initial_window
| reachable_step w ev w' : reachable w -> step w ev w' -> reachable w'.

End Methods.

(** *** The battery line of [update_monitor] *)

Definition monitor_battery_level (bat : string) : outcome string :=
  scan_level (PyStr.splitlines bat) "?".

(** The text set on the label. *)
Definition monitor_battery_text (bat : string) : outcome string :=
  match monitor_battery_level bat with
  | Returns level => Returns ("Battery: " ++ level ++ "%")
  | Raises e => Raises e
  end.

End Alpha.

(** ** [alpha_on_english/xHelper alpha 1.0.1.py]

    The same loader with the texts of the English copy. *)

Module AlphaOnEnglish.

Definition load_plugins (E : env) := Alpha.load_plugins_in E Alpha.texts_alpha_on_english.

End AlphaOnEnglish.

(** ** [unknown ver.py] *)

Module UnknownVer.

(** *** The battery line of [update_device_info]

    [out] is what [subprocess.check_output] gave: its output text, or
    the exception it raised.  The [try] swallows every [Exception] and
    leaves [bat] at ["N/A"]. *)
Definition device_info_battery (out : outcome string) : outcome string :=
  let guarded :=
    match out with
    | Returns text => scan_level (PyStr.splitlines text) "N/A"
    | Raises e => Raises e
    end in
  match guarded with
  | Returns bat => Returns bat
  | Raises e => if is_Exception e then Returns "N/A" else Raises e
  end.

(** The text set on the label. *)
Definition device_info_battery_text (out : outcome string) : outcome string :=
  match device_info_battery out with
  | Returns bat => Returns (bat ++ "%")
  | Raises e => Raises e
  end.

(** *** The settings file

    The attributes of the window that [load_settings] and
    [save_settings] touch: the dictionary [self.settings], the text of the
    file at [CONFIG_PATH] ([None] while it is not a file), and the
    messages logged.  The window is one whose console exists, as it does
    once [__init__] has run: [log_message] appends to it.

    The two methods are partial functions of the window: they have no
    answer ([None]) where [json] meets a value or a text that this
    development does not hold (see [Json.load] and [storable]). *)
Record main_window : Type := mk_main_window {
  settings : PyDict.dict pyval;
  config_file : option string;
  logged : list string
}.

(** Which of the file operations fail: opening for writing, writing
    (after how many bytes went out), opening for reading. *)
Record io : Type := mk_io {
  open_w_fault : option exn;
  write_fault : option (nat * exn);
  open_r_fault : option exn
}.

Definition no_fault : io := mk_io None None None.

Definition set_settings (v : PyDict.dict pyval) (w : main_window) : main_window :=
  mk_main_window v (config_file w) (logged w).

Definition set_config_file (v : option string) (w : main_window) : main_window :=
  mk_main_window (settings w) v (logged w).

(** [log_message], the messages kept without their time stamps. *)
Definition log_message (text : string) : M main_window unit :=
  modify (fun w => mk_main_window (settings w) (config_file w) (logged w ++ [text])).

Definition fail_if (fault : option exn) : M main_window unit :=
  match fault with
  | Some e => raise e
  | None => ret tt
  end.

(** The [TypeError] of [dict.update] for a value that cannot be iterated. *)
Definition not_iterable (type_name : string) : exn :=
  mk_exn OtherException ("'" ++ type_name ++ "' object is not iterable").

(** [dict.update] for a list: every item is taken as a key and a value.
    The items [[key, value]] with a [str] key are the ones this
    development follows; any other item leaves the function without an
    answer. *)
Fixpoint update_pairs (items : list pyval) (d : PyDict.dict pyval)
  : option (PyDict.dict pyval) :=
  match items with
  | [] => Some d
  | PList [PStr k; v] :: rest => update_pairs rest (PyDict.set d k v)
  | _ => None
  end.

(** [self.settings.update(value)] for what [json.load] returned: the
    dictionary afterwards, or the exception raised.  An object is merged;
    an empty list or string changes nothing; a string that is not empty
    fails at its first character, which is no pair; [None], a boolean and
    an integer cannot be iterated. *)
Definition update_settings (value : pyval) (d : PyDict.dict pyval)
  : option (outcome (PyDict.dict pyval)) :=
  match value with
  | PDict loaded => Some (Returns (PyDict.update d loaded))
  | PList items => option_map Returns (update_pairs items d)
  | PStr EmptyString => Some (Returns d)
  | PStr _ =>
      Some (Raises (mk_exn ValueError
                      "dictionary update sequence element #0 has length 1; 2 is required"))
  | PNone => Some (Raises (not_iterable "NoneType"))
  | PBool _ => Some (Raises (not_iterable "bool"))
  | PInt _ => Some (Raises (not_iterable "int"))
  end.

Section Settings.

Variable I : io.

Definition load_settings (w : main_window) : option (outcome unit * main_window) :=
  match config_file w with
  | None => Some (Returns tt, w)
  | Some text =>
      let handlers :=
        [(is_Exception,
          fun e => log_message ("[SETTINGS] Не удалось загрузить: " ++ exn_str e))] in
      match open_r_fault I with
      | Some e => Some (try_except (raise e) handlers w)
      | None =>
          match Json.load text with
          | None => None
          | Some value =>
              match update_settings value (settings w) with
              | None => None
              | Some (Returns d) =>
                  Some (try_except (modify (set_settings d)) handlers w)
              | Some (Raises e) => Some (try_except (raise e) handlers w)
              end
          end
      end
  end.

Definition save_settings (w : main_window) : option (outcome unit * main_window) :=
  if storable (PDict (settings w)) then
    Some
      (try_except
         (fail_if (open_w_fault I) ;;
          modify (set_config_file (Some EmptyString)) ;;
          w <- get_state ;;
          let text := Json.dumps (PDict (settings w)) in
          match write_fault I with
          | Some (n, e) =>
              modify (set_config_file (Some (substring 0 n text))) ;;
              raise e
          | None => modify (set_config_file (Some text))
          end)
         [(is_Exception,
           fun e => log_message ("[SETTINGS] Не удалось сохранить: " ++ exn_str e))]
         w)
  else None.

End Settings.

(** The dictionary [__init__] starts from, for a home directory [home]. *)
Definition default_settings (home : string) : PyDict.dict pyval :=
  [("adb_path", PStr "adb");
   ("theme_dark", PBool false);
   ("auto_update", PBool false);
   ("log_to_file", PBool false);
   ("log_file_path", PStr (home ++ "/xHelper_log.txt"));
   ("language", PStr "ru");
   ("hotkeys", PDict [("RefreshDevices", PStr "F5");
                      ("OpenLogcat", PStr "Ctrl+L");
                      ("StartScrcpy", PStr "Ctrl+S");
                      ("TakeScreenshot", PStr "Ctrl+Shift+S")])].

End UnknownVer.

(** ** What the console is expected to show

    The messages one pass of the loop of [run_adb_command] leaves on the
    console, as a function of what the launched process did. *)

Definition adb_transcript (command : string) (dev : option string)
    (r : outcome completed) : list string :=
  let announce := "Выполняем: " ++ PyStr.join " " (Alpha.adb_full_cmd command dev) in
  announce ::
  match r with
  | Returns result =>
      let code_line := "Команда завершилась с кодом: " ++ PyStr.str_int (returncode result) in
      List.app (if PyStr.truthy (stdout result) then ["Результат:"; stdout result] else [])
     (List.app (if PyStr.truthy (stderr result) then ["Ошибки:"; stderr result] else [])
          (if returncode result =? 0 then [] else [code_line]))
  | Raises e =>
      let error_line := "Ошибка выполнения команды: " ++ exn_str e in
      if is_TimeoutExpired e then ["Команда превысила таймаут (30 сек.)"]
      else if is_Exception e then [error_line]
      else []
  end.

(** The processes of the environment raise nothing but instances of
    [Exception]: no launch is cut short by a [KeyboardInterrupt] or a
    [SystemExit]. *)
Definition only_Exceptions (E : env) : Prop :=
  forall k inv e, process E k inv = Raises e -> is_Exception e = true.

(** No file operation fails. *)
Definition no_file_fault (E : env) : Prop :=
  forall k, file_fault E k = None.

(** The worker never reads a stop request. *)
Definition never_stopped (E : env) : Prop :=
  forall i, stop_read E i = false.

(** The messages of the console, without their time stamps. *)
Definition messages (w : window) : list string := map message (console w).

(** The launch of the loop of [run_adb_command] for one device. *)
Definition adb_invocation (command : string) (dev : option string) : invocation :=
  mk_invocation (Alpha.adb_full_cmd command dev) (Some 30).

(** The messages of the whole loop, when the first launch is the [k]-th
    of the session. *)
Fixpoint adb_loop_transcript (E : env) (command : string) (k : nat)
    (devices : list (option string)) : list string :=
  match devices with
  | [] => []
  | dev :: rest =>
      List.app
        (adb_transcript command dev (process E k (adb_invocation command dev)))
        (adb_loop_transcript E command (S k) rest)
  end.

(** ** Sample windows and environments, for the concrete cases *)

Definition set_selected_devices (v : list string) (w : window) : window :=
  mk_window (console w) v (run_all_checkbox w) (apk_files w)
    (install_in_progress w) (stop_installation w) (progress_visible w)
    (progress_maximum w) (progress_value w) (progress_connected w)
    (start_install_btn w) (stop_install_btn w) (worker_threads w) (ticks w)
    (spawned w) (dialogs w) (files w) (file_ops w).

Definition set_run_all_checkbox (v : bool) (w : window) : window :=
  mk_window (console w) (selected_devices w) v (apk_files w)
    (install_in_progress w) (stop_installation w) (progress_visible w)
    (progress_maximum w) (progress_value w) (progress_connected w)
    (start_install_btn w) (stop_install_btn w) (worker_threads w) (ticks w)
    (spawned w) (dialogs w) (files w) (file_ops w).

(** A clock that stands still. *)
Definition still_clock (k : nat) (fmt : time_format) : string :=
  match fmt with
  | HMS => "12:00:00"
  | Compact => "20250101_120000"
  | Long => "2025-01-01 12:00:00"
  | Iso => "2025-01-01T12:00:00"
  | Plain => "2025-01-01 12:00:00"
  end.

(** Every process ends at once with the exit code [rc] and no output. *)
Definition env_exit (rc : Z) : env :=
  mk_env still_clock
    (fun _ _ => Returns (mk_completed rc EmptyString EmptyString))
    (fun _ => false) (fun _ => None).

(** Every process runs into its timeout. *)
Definition env_timeout : env :=
  mk_env still_clock
    (fun _ inv =>
       Raises (mk_exn TimeoutExpired
                 ("Command '" ++ PyStr.join " " (argv inv) ++ "' timed out")))
    (fun _ => false) (fun _ => None).

(** [KeyboardInterrupt()], whose text is empty. *)
Definition keyboard_interrupt : exn := mk_exn BaseOnly EmptyString.

(** The user interrupts the program while its first process runs; every
    later process ends at once with the exit code 0 and no output. *)
Definition env_interrupted : env :=
  mk_env still_clock
    (fun k _ =>
       match k with
       | O => Raises keyboard_interrupt
       | S _ => Returns (mk_completed 0 EmptyString EmptyString)
       end)
    (fun _ => false) (fun _ => None).

(** ** Launch discipline

    [launches proj P m]: whatever state [m] starts in and however it
    ends, the processes it launched are added at the end of [spawned], and
    each of them satisfies [P].  [proj] finds the window in the state. *)

Definition launches {S A : Type} (proj : S -> window) (P : invocation -> Prop)
    (m : M S A) : Prop :=
  forall s, exists new,
    spawned (proj (snd (m s))) = (spawned (proj s) ++ new)%list /\ Forall P new.

Definition has_timeout (t : Z) (inv : invocation) : Prop := timeout inv = Some t.

(** ** Counting the entries of a report *)

(** The number of entries whose status is [st]. *)
Definition count_status (st : string) (es : list Alpha.entry) : Z :=
  Z.of_nat (length (filter (fun e => String.eqb (Alpha.status e) st) es)).

(** What one pass of the installation loop does to the local variables,
    as a function of what the launched [adb install] did. *)
Definition tally (apk_path : string) (r : outcome completed)
    (l : Alpha.install_locals) : Alpha.install_locals :=
  Alpha.append_entry (Alpha.basename apk_path)
    match r with
    | Returns result =>
        if returncode result =? 0
        then Alpha.set_outcome "success" "Installed" (Alpha.count_success l)
        else Alpha.set_outcome "failed" (PyStr.strip (stderr result))
               (Alpha.count_failed l)
    | Raises e =>
        if is_TimeoutExpired e
        then Alpha.set_outcome "timeout" "Превышен таймаут (6 мин.)" (Alpha.count_failed l)
        else Alpha.set_outcome "exception" (exn_str e) (Alpha.count_failed l)
    end.

(** The counters agree with the entries written so far. *)
Definition counters_agree (l : Alpha.install_locals) : Prop :=
  Alpha.l_success l = count_status "success" (Alpha.l_entries l) /\
  Alpha.l_failed l =
    count_status "failed" (Alpha.l_entries l)
    + count_status "timeout" (Alpha.l_entries l)
    + count_status "exception" (Alpha.l_entries l) /\
  Alpha.l_success l + Alpha.l_failed l = Z.of_nat (length (Alpha.l_entries l)).

(** The first installation succeeds, the second is refused by the
    device, the third runs into its timeout, and every later launch fails
    with an [OSError]. *)
Definition env_mixed : env :=
  mk_env still_clock
    (fun k _ =>
       match k with
       | O => Returns (mk_completed 0 "Success" EmptyString)
       | S O => Returns (mk_completed 1 EmptyString
                           "Failure [INSTALL_FAILED_INVALID_APK]")
       | S (S O) => Raises (mk_exn TimeoutExpired "timed out after 360 seconds")
       | _ => Raises (mk_exn OtherException "[Errno 12] Cannot allocate memory")
       end)
    (fun _ => false) (fun _ => None).

(** ** Failing plugins *)

(** The import of [p], or the call of its [register], started in [w],
    raises [e] and leaves the window as [w']. *)
Definition plugin_fails (p : Alpha.plugin_file) (w : window) (e : exn)
    (w' : window) : Prop :=
  Alpha.exec_module p w = (Raises e, w') \/
  exists mod_ entry_point w1,
    Alpha.exec_module p w = (Returns mod_, w1) /\
    Alpha.register mod_ = Some entry_point /\
    entry_point w1 = (Raises e, w').

(** Whatever [p] raises, at import or in [register], is an [Exception]. *)
Definition raises_only_Exceptions (p : Alpha.plugin_file) : Prop :=
  forall w e w', plugin_fails p w e w' -> is_Exception e = true.

(** A plugin that registers and logs a greeting of its own. *)
Definition plugin_greeting (E : env) (name : string) : Alpha.plugin_file :=
  Alpha.mk_plugin_file name true
    (ret (Alpha.mk_module (Some (Alpha.log_message E ("[" ++ name ++ "] ready"))))).

(** A plugin whose import raises. *)
Definition plugin_bad_import (name : string) : Alpha.plugin_file :=
  Alpha.mk_plugin_file name true
    (raise (mk_exn OtherException "No module named 'PyQt5'")).

(** A plugin whose [register] logs a line and then raises. *)
Definition plugin_bad_register (E : env) (name : string) : Alpha.plugin_file :=
  Alpha.mk_plugin_file name true
    (ret (Alpha.mk_module
            (Some (Alpha.log_message E "adding tab" ;;
                   raise (mk_exn OtherException
                            "'XHelperMainWindow' object has no attribute 'settings'"))))).

(** A plugin whose import ends in [sys.exit(1)]: a [SystemExit], whose
    text is [1]. *)
Definition plugin_exits (name : string) : Alpha.plugin_file :=
  Alpha.mk_plugin_file name true (raise (mk_exn BaseOnly "1")).

(** An entry of the folder that is not a Python file. *)
Definition not_a_plugin (name : string) : Alpha.plugin_file :=
  Alpha.mk_plugin_file name false (raise (mk_exn OtherException "not imported")).

(** ** One installation at a time *)

(** A worker runs exactly when [install_in_progress] is set. *)
Definition one_worker (w : window) : Prop :=
  worker_threads w = if install_in_progress w then 1%nat else 0%nat.

(** The message boxes of [start_mass_installation]. *)
Definition dialog_no_files : dialog := mk_dialog Warning "Ошибка" "Сначала выберите папку с APK‑файлами".

Definition dialog_already_running : dialog :=
  mk_dialog Information "Информация" "Установка уже запущена".

(** The tab after a folder with one APK was chosen and the installation
    started, and the same after a folder without APKs was chosen while the
    worker runs. *)
Definition window_installing (E : env) : window :=
  snd (Alpha.handle E Alpha.Start_clicked
         (snd (Alpha.handle E (Alpha.Folder_selected "/sdcard/apks" ["a.apk"])
                 initial_window))).

Definition window_installing_no_files (E : env) : window :=
  snd (Alpha.handle E (Alpha.Folder_selected "/sdcard/empty" ["notes.txt"])
         (window_installing E)).

(** ** Reading back what was written *)

(** The number of values and items in [v]: the fuel the scanner needs. *)
Fixpoint weight (v : pyval) : nat :=
  match v with
  | PList l => S (fold_right (fun x n => S (weight x + n)) O l)
  | PDict d => S (fold_right (fun kv n => S (weight (snd kv) + n)) O d)
  | _ => 1%nat
  end.

Definition items_weight (l : list pyval) : nat :=
  fold_right (fun x n => S (weight x + n)) O l.

Definition members_weight (d : list (string * pyval)) : nat :=
  fold_right (fun kv n => S (weight (snd kv) + n)) O d.

(** What may follow a value in the text [json.dump] writes: the end, a
    comma or a line break. *)
Definition ends_value (rest : string) : bool :=
  match rest with
  | EmptyString => true
  | String a _ => PyStr.is_byte 44 a || PyStr.is_byte 10 a
  end.

(** [json.loads] reads [v] back from the text [json.dumps] wrote for it,
    at any depth and whatever follows the value. *)
Definition reads_back (v : pyval) : Prop :=
  forall (level fuel : nat) (rest : string),
    (weight v <= fuel)%nat ->
    ends_value rest = true ->
    Json.scan_value fuel (Json.encode level v ++ rest) = Some (v, rest).


(** What a value's text starts with: neither white space nor a closing
    bracket or brace. *)
Definition opens_value (a : ascii) : bool :=
  negb (Json.is_ws a) && negb (PyStr.is_byte 93 a) && negb (PyStr.is_byte 125 a).

(* ===================================================================== *)
(** * Part II: lemmas and theorems                                        *)
(* ===================================================================== *)

Example splitlines_ex :
  PyStr.splitlines ("a" ++ String (ascii_of_nat 13) Json.nl ++ "b"
                    ++ Json.nl) = ["a"; "b"].
Proof. reflexivity. Qed.

Example split_ws_ex : PyStr.split_ws "  shell  pm list " = ["shell"; "pm"; "list"].
Proof. reflexivity. Qed.

Example strip_ex : PyStr.strip "  76 " = "76".
Proof. reflexivity. Qed.

Example py_int_ex :
  (PyStr.py_int " 7_6 ", PyStr.py_int "-1", PyStr.py_int "abc", PyStr.py_int "1__0")
  = (Some 76, Some (-1), None, None).
Proof. reflexivity. Qed.

(** C8: the ROM-usage colour is pure green at 0, pure yellow at 50 and
    pure red at 100. *)
Theorem color_for_percent_anchors :
  RomUsageProgress._color_for_percent 0 = "rgb(0,255,0)" /\
  RomUsageProgress._color_for_percent 50 = "rgb(255,255,0)" /\
  RomUsageProgress._color_for_percent 100 = "rgb(255,0,0)".
Proof. repeat split; reflexivity. Qed.

Example dumps_ex :
  let q := Json.quote in
  Json.dumps (PDict [("a", PList [PInt 1; PDict [("b", PNone); ("c", PList [])]]);
                     ("d", PDict []); ("e", PBool true)])
  = "{" ++ Json.nl ++ "    " ++ q ++ "a" ++ q ++ ": [" ++ Json.nl
    ++ "        1," ++ Json.nl
    ++ "        {" ++ Json.nl
    ++ "            " ++ q ++ "b" ++ q ++ ": null," ++ Json.nl
    ++ "            " ++ q ++ "c" ++ q ++ ": []" ++ Json.nl
    ++ "        }" ++ Json.nl ++ "    ]," ++ Json.nl
    ++ "    " ++ q ++ "d" ++ q ++ ": {}," ++ Json.nl
    ++ "    " ++ q ++ "e" ++ q ++ ": true" ++ Json.nl ++ "}".
Proof. reflexivity. Qed.

(** ** The keycode validator *)

Lemma keycodes_accepted_upto_255 :
  forallb (fun k => HardwareKeyEmulator.accepted (PyStr.str_int (Z.of_nat k))) (seq 0 256) = true.
Proof. vm_compute. reflexivity. Qed.

(** C7: [_is_valid_keycode] accepts the decimal text of every number from
    0 to 255 and rejects ["256"], ["-1"] and ["abc"]. *)
Theorem is_valid_keycode_0_255 :
  (forall n : Z, 0 <= n <= 255 ->
     HardwareKeyEmulator._is_valid_keycode (PyStr.str_int n) = Returns true) /\
  HardwareKeyEmulator._is_valid_keycode "256" = Returns false /\
  HardwareKeyEmulator._is_valid_keycode "-1" = Returns false /\
  HardwareKeyEmulator._is_valid_keycode "abc" = Returns false.
Proof.
  split; [| repeat split; reflexivity].
  intros n Hn.
  pose proof keycodes_accepted_upto_255 as Hall.
  rewrite forallb_forall in Hall.
  specialize (Hall (Z.to_nat n)).
  rewrite Z2Nat.id in Hall by lia.
  assert (Hin : In (Z.to_nat n) (seq 0 256)) by (apply in_seq; lia).
  apply Hall in Hin. unfold HardwareKeyEmulator.accepted in Hin.
  destruct (HardwareKeyEmulator._is_valid_keycode (PyStr.str_int n)) as [[|]|];
    congruence.
Qed.

Lemma is_valid_keycode_0_255_witness :
  0 <= 200 <= 255 /\
  HardwareKeyEmulator._is_valid_keycode (PyStr.str_int 200) = Returns true.
Proof.
  split; [lia |].
  apply (proj1 is_valid_keycode_0_255 200). lia.
Defined.

(** ** The battery parsers *)

Lemma scan_level_skip (pre rest : list string) (d : string) :
  (forall l, In l pre -> PyStr.contains "level:" l = false) ->
  scan_level (pre ++ rest) d = scan_level rest d.
Proof.
  induction pre as [| l pre IH]; intros Hpre; simpl; [reflexivity |].
  rewrite (Hpre l (or_introl eq_refl)).
  apply IH. intros l' Hl'. apply Hpre. right. exact Hl'.
Qed.

Lemma dict_get_set {V : Type} (d : PyDict.dict V) (k k' : string) (v : V) :
  PyDict.get (PyDict.set d k v) k' =
  if String.eqb k k' then Some v else PyDict.get d k'.
Proof.
  induction d as [| [k0 v0] d IH]; simpl.
  - reflexivity.
  - destruct (String.eqb k0 k) eqn:E0; simpl.
    + apply String.eqb_eq in E0. subst k0.
      destruct (String.eqb k k'); reflexivity.
    + destruct (String.eqb k0 k') eqn:E1.
      * apply String.eqb_eq in E1. subst k0.
        rewrite String.eqb_sym, E0. reflexivity.
      * exact IH.
Qed.

(** What the dictionary holds for a key after the loop: the value of the
    last line that carries the key, if there is one. *)
Lemma get_collect_app (lines : list string) :
  forall (data : PyDict.dict string) (k : string),
    (forall l v, In l lines -> BatteryMonitorExtended.entry_of_line l <> Some (k, v)) ->
    PyDict.get (BatteryMonitorExtended.collect data lines) k = PyDict.get data k.
Proof.
  induction lines as [| l lines IH]; intros data k Hno; simpl; [reflexivity |].
  destruct (BatteryMonitorExtended.entry_of_line l) as [[k0 v0] |] eqn:El.
  - rewrite IH by (intros l' v' Hl'; apply Hno; right; exact Hl').
    rewrite dict_get_set.
    destruct (String.eqb k0 k) eqn:Ek; [| reflexivity].
    apply String.eqb_eq in Ek. subst k0.
    exfalso. apply (Hno l v0 (or_introl eq_refl)). exact El.
  - apply IH. intros l' v' Hl'. apply Hno. right. exact Hl'.
Qed.

Lemma collect_app (pre post : list string) (data : PyDict.dict string) :
  BatteryMonitorExtended.collect data (pre ++ post) =
  BatteryMonitorExtended.collect (BatteryMonitorExtended.collect data pre) post.
Proof.
  revert data. induction pre as [| l pre IH]; intros data; simpl; [reflexivity |].
  destruct (BatteryMonitorExtended.entry_of_line l) as [[k v] |]; apply IH.
Qed.

(** A value found after the loop was put there by one of the lines. *)
Lemma get_collect_origin (lines : list string) :
  forall (data : PyDict.dict string) (k v : string),
    PyDict.get (BatteryMonitorExtended.collect data lines) k = Some v ->
    PyDict.get data k = Some v \/
    exists l, In l lines /\ BatteryMonitorExtended.entry_of_line l = Some (k, v).
Proof.
  induction lines as [| l lines IH]; intros data k v Hget; simpl in *.
  - left. exact Hget.
  - destruct (BatteryMonitorExtended.entry_of_line l) as [[k0 v0] |] eqn:El.
    + apply IH in Hget. destruct Hget as [Hget | [l' [Hin Hl']]].
      * rewrite dict_get_set in Hget.
        destruct (String.eqb k0 k) eqn:Ek.
        -- apply String.eqb_eq in Ek. subst k0. injection Hget as ->.
           right. exists l. split; [left; reflexivity | exact El].
        -- left. exact Hget.
      * right. exists l'. split; [right; exact Hin | exact Hl'].
    + apply IH in Hget. destruct Hget as [Hget | [l' [Hin Hl']]].
      * left. exact Hget.
      * right. exists l'. split; [right; exact Hin | exact Hl'].
Qed.

Lemma entry_of_level_76 :
  BatteryMonitorExtended.entry_of_line "level: 76" = Some ("level", "76").
Proof. reflexivity. Qed.

Lemma int_field_optional (data : PyDict.dict string) (k : string) :
  (forall v, PyDict.get data k = Some v -> v = EmptyString \/ PyStr.py_int v <> None) ->
  BatteryMonitorExtended.has_value data k = false \/
  exists n, BatteryMonitorExtended.int_field data k = Returns n.
Proof.
  intros Hk.
  unfold BatteryMonitorExtended.has_value, BatteryMonitorExtended.int_field.
  destruct (PyDict.get data k) as [v |]; [| left; reflexivity].
  destruct (Hk v eq_refl) as [-> | Hint]; [left; reflexivity |].
  right. unfold int_of_str.
  destruct (PyStr.py_int v) as [n |]; [exists n; reflexivity | congruence].
Qed.

(** C9, as the parsers have it: when [level: 76] is the first line of
    the output that contains [level:], the two parsers of the main windows
    extract the text [76]; when no later line has the key [level] and the
    voltage and temperature values, where present, are empty or integer
    literals, [_parse_battery_output] returns with [level] equal to 76. *)
Theorem battery_level_76 (out : string) (pre post : list string) :
  PyStr.splitlines out = (pre ++ "level: 76" :: post)%list ->
  ((forall l, In l pre -> PyStr.contains "level:" l = false) ->
   Alpha.monitor_battery_level out = Returns "76" /\
   UnknownVer.device_info_battery (Returns out) = Returns "76")
  /\
  ((forall l v, In l post ->
      BatteryMonitorExtended.entry_of_line l <> Some ("level", v)) ->
   (forall l v, In l (pre ++ post)%list ->
      BatteryMonitorExtended.entry_of_line l = Some ("voltage", v) ->
      v = EmptyString \/ PyStr.py_int v <> None) ->
   (forall l v, In l (pre ++ post)%list ->
      BatteryMonitorExtended.entry_of_line l = Some ("temperature", v) ->
      v = EmptyString \/ PyStr.py_int v <> None) ->
   exists b, BatteryMonitorExtended._parse_battery_output out = Returns b /\
             BatteryMonitorExtended.level b = 76).
Proof.
  intros Hlines. split.
  - intros Hpre.
    unfold Alpha.monitor_battery_level, UnknownVer.device_info_battery.
    rewrite Hlines, !scan_level_skip by exact Hpre.
    split; reflexivity.
  - intros Hpost Hvolt Htemp.
    unfold BatteryMonitorExtended._parse_battery_output.
    rewrite Hlines.
    set (data := BatteryMonitorExtended.collect [] (pre ++ "level: 76" :: post)).
    assert (Hlevel : PyDict.get data "level" = Some "76").
    { unfold data. rewrite collect_app. simpl.
      rewrite get_collect_app by exact Hpost.
      rewrite dict_get_set. reflexivity. }
    assert (Horigin : forall k v, k <> "level" -> PyDict.get data k = Some v ->
              exists l, In l (pre ++ post)%list /\
                        BatteryMonitorExtended.entry_of_line l = Some (k, v)).
    { intros k v Hk Hget. unfold data in Hget.
      apply get_collect_origin in Hget.
      destruct Hget as [Hget | [l [Hin Hl]]]; [discriminate |].
      exists l. split; [| exact Hl].
      apply in_app_or in Hin. apply in_or_app.
      destruct Hin as [Hin | [<- | Hin]]; [left; exact Hin | | right; exact Hin].
      rewrite entry_of_level_76 in Hl. congruence. }
    assert (Hv := int_field_optional data "voltage").
    assert (Ht := int_field_optional data "temperature").
    destruct Hv as [Hv | [v Hv]].
    { intros v Hget. apply Horigin in Hget; [| discriminate].
      destruct Hget as [l [Hin Hl]]. exact (Hvolt l v Hin Hl). }
    all: destruct Ht as [Ht | [t Ht]];
      try (intros v' Hget; apply Horigin in Hget; [| discriminate];
           destruct Hget as [l [Hin Hl]]; exact (Htemp l v' Hin Hl)).
    all: unfold BatteryMonitorExtended.int_field at 1; rewrite Hlevel;
      change (int_of_str "76") with (@Returns Z 76);
      rewrite ?Hv, ?Ht;
      repeat match goal with
             | |- context [if ?c then _ else _] => destruct c
             end;
      eexists; split; reflexivity.
Qed.

Lemma battery_level_76_witness :
  let out := "status: 2" ++ Json.nl ++ "level: 76" ++ Json.nl ++ "scale: 100"
             ++ Json.nl ++ "voltage: 4123" ++ Json.nl ++ "temperature: 301" in
  (Alpha.monitor_battery_level out = Returns "76" /\
   UnknownVer.device_info_battery (Returns out) = Returns "76") /\
  exists b, BatteryMonitorExtended._parse_battery_output out = Returns b /\
            BatteryMonitorExtended.level b = 76.
Proof.
  intros out.
  destruct (battery_level_76 out ["status: 2"]
              ["scale: 100"; "voltage: 4123"; "temperature: 301"] eq_refl)
    as [Hmain Hplugin].
  split.
  - apply Hmain. intros l [<- | []]. reflexivity.
  - apply Hplugin.
    + intros l v [<- | [<- | [<- | []]]]; vm_compute; discriminate.
    + intros l v [<- | [<- | [<- | [<- | []]]]] Hl; vm_compute in Hl;
        try discriminate; injection Hl as <-; right; vm_compute; discriminate.
    + intros l v [<- | [<- | [<- | [<- | []]]]] Hl; vm_compute in Hl;
        try discriminate; injection Hl as <-; right; vm_compute; discriminate.
Defined.

(** C9 as it is worded fails: an output that contains the line
    [level: 76] after a line that also contains [level:], and before a
    line whose key is [LEVEL], yields 3 in the main windows and 9 in
    [_parse_battery_output]. *)
Lemma battery_level_76_counterexample :
  let out := "charge level: 3" ++ Json.nl ++ "level: 76" ++ Json.nl ++ "LEVEL: 9" in
  In "level: 76" (PyStr.splitlines out) /\
  Alpha.monitor_battery_level out = Returns "3" /\
  UnknownVer.device_info_battery (Returns out) = Returns "3" /\
  BatteryMonitorExtended._parse_battery_output out
  = Returns (BatteryMonitorExtended.mk_battery 9 (-1) (-1) "UNKNOWN").
Proof.
  cbv zeta. repeat split; try reflexivity.
  right. left. reflexivity.
Qed.

(** ** The ADB command runner *)

Lemma log_message_run (E : env) (text : string) (w : window) :
  Alpha.log_message E text w =
  (Returns tt,
   set_console (console w ++ [mk_line (clock E (ticks w) HMS) text])
     (set_ticks (S (ticks w)) w)).
Proof. reflexivity. Qed.

(** One pass of the loop: it ends normally whatever the process did, it
    launched the process once, and it left the expected messages. *)
Lemma run_adb_on_spec (E : env) (command : string) (dev : option string)
    (w : window) :
  only_Exceptions E ->
  exists w',
    Alpha.run_adb_on E command dev w = (Returns Next, w') /\
    spawned w' = (spawned w ++ [adb_invocation command dev])%list /\
    messages w' =
      (messages w ++
       adb_transcript command dev
         (process E (length (spawned w)) (adb_invocation command dev)))%list.
Proof.
  intros HE.
  unfold Alpha.run_adb_on, try_except, bind, adb_transcript, messages,
    adb_invocation.
  rewrite log_message_run.
  unfold Alpha.subprocess_run. cbn [spawned set_console set_ticks].
  destruct (process E _ _) as [result | e] eqn:Hp.
  - unfold when.
    destruct (PyStr.truthy (stdout result)), (PyStr.truthy (stderr result)),
      (returncode result =? 0); cbn.
    all: eexists; split; [reflexivity |].
    all: cbn; rewrite ?map_app; cbn; rewrite <- ?app_assoc; split; reflexivity.
  - apply HE in Hp. cbn.
    destruct (is_TimeoutExpired e); cbn; rewrite ?Hp; cbn.
    all: eexists; split; [reflexivity |].
    all: cbn; rewrite ?map_app; cbn; rewrite <- ?app_assoc; split; reflexivity.
Qed.

Lemma adb_loop_spec (E : env) (command : string) (devices : list (option string)) :
  only_Exceptions E ->
  forall w, exists w',
    for_each devices (Alpha.run_adb_on E command) w = (Returns tt, w') /\
    spawned w' = (spawned w ++ map (adb_invocation command) devices)%list /\
    messages w' =
      (messages w ++ adb_loop_transcript E command (length (spawned w)) devices)%list.
Proof.
  intros HE. induction devices as [| dev rest IH]; intros w.
  - exists w. cbn. rewrite !app_nil_r. repeat split.
  - destruct (run_adb_on_spec E command dev w HE) as [w1 [Hrun [Hsp Hmsg]]].
    destruct (IH w1) as [w' [Hloop [Hsp' Hmsg']]].
    exists w'. split; [| split].
    + cbn [for_each]. unfold bind. rewrite Hrun. exact Hloop.
    + rewrite Hsp', Hsp, <- app_assoc. reflexivity.
    + rewrite Hmsg', Hmsg, Hsp, <- app_assoc, length_app. cbn [length].
      rewrite Nat.add_1_r. reflexivity.
Qed.

(** Where the messages of the [i]-th device sit in the transcript. *)
Lemma adb_loop_transcript_nth (E : env) (command : string)
    (devices : list (option string)) :
  forall (k i : nat) (dev : option string) (m : string),
    nth_error devices i = Some dev ->
    In m (adb_transcript command dev
            (process E (k + i) (adb_invocation command dev))) ->
    In m (adb_loop_transcript E command k devices).
Proof.
  induction devices as [| d rest IH]; intros k i dev m Hnth Hin.
  - destruct i; discriminate.
  - cbn [adb_loop_transcript]. apply in_or_app. destruct i as [| i].
    + injection Hnth as ->. rewrite Nat.add_0_r in Hin. left. exact Hin.
    + right. apply (IH (S k) i dev m Hnth).
      rewrite Nat.add_succ_comm. exact Hin.
Qed.

(** The whole method: it returns normally; with no device to run on it
    only logs; otherwise the loop launches once per device. *)
Lemma run_adb_command_run (E : env) (command : string) (device_specific : bool)
    (w : window) :
  only_Exceptions E ->
  exists w',
    Alpha.run_adb_command E command device_specific w = (Returns tt, w') /\
    match Alpha.adb_devices device_specific w with
    | Some devices =>
        spawned w' = (spawned w ++ map (adb_invocation command) devices)%list /\
        messages w' =
          (messages w ++
           adb_loop_transcript E command (length (spawned w)) devices)%list
    | None =>
        spawned w' = spawned w /\
        messages w' = (messages w ++ ["Не выбрано устройство"])%list
    end.
Proof.
  intros HE.
  unfold Alpha.run_adb_command, bind, get_state.
  destruct (Alpha.adb_devices device_specific w) as [devices |] eqn:Hdev.
  - destruct (adb_loop_spec E command devices HE w) as [w' [Hloop [Hsp Hmsg]]].
    exists w'. repeat split; assumption.
  - rewrite log_message_run. eexists. split; [reflexivity |].
    unfold messages. cbn. rewrite map_app. split; reflexivity.
Qed.

(** C4, as the runner has it: whatever the launched processes do, short
    of an exit that is not an [Exception], [run_adb_command] returns
    normally; each target device gets exactly one launch, in order, so
    that a failure is neither retried nor stops the loop; a timeout and
    any other exception leave their message on the console, and so does
    an exit code other than zero. *)
Theorem run_adb_command_logs_errors (E : env) (command : string)
    (device_specific : bool) (w : window) :
  only_Exceptions E ->
  exists w',
    Alpha.run_adb_command E command device_specific w = (Returns tt, w') /\
    forall devices,
      Alpha.adb_devices device_specific w = Some devices ->
      spawned w' = (spawned w ++ map (adb_invocation command) devices)%list /\
      exists added,
        messages w' = (messages w ++ added)%list /\
        forall i dev,
          nth_error devices i = Some dev ->
          match process E (length (spawned w) + i) (adb_invocation command dev) with
          | Raises e =>
              In (if is_TimeoutExpired e then "Команда превысила таймаут (30 сек.)"
                  else "Ошибка выполнения команды: " ++ exn_str e) added
          | Returns result =>
              returncode result <> 0 ->
              In ("Команда завершилась с кодом: " ++ PyStr.str_int (returncode result)) added
          end.
Proof.
  intros HE.
  destruct (run_adb_command_run E command device_specific w HE) as [w' [Hrun Hw']].
  exists w'. split; [exact Hrun |].
  intros devices Hdev. rewrite Hdev in Hw'. destruct Hw' as [Hsp Hmsg].
  split; [exact Hsp |].
  exists (adb_loop_transcript E command (length (spawned w)) devices).
  split; [exact Hmsg |].
  intros i dev Hnth.
  destruct (process E (length (spawned w) + i) (adb_invocation command dev))
    as [result | e] eqn:Hp.
  - intros Hrc.
    apply (adb_loop_transcript_nth E command devices _ i dev _ Hnth).
    rewrite Hp. unfold adb_transcript. right.
    apply in_or_app. right. apply in_or_app. right.
    destruct (returncode result =? 0) eqn:Hz; [lia |].
    left. reflexivity.
  - apply (adb_loop_transcript_nth E command devices _ i dev _ Hnth).
    rewrite Hp. unfold adb_transcript. right.
    destruct (is_TimeoutExpired e); [left; reflexivity |].
    rewrite (HE _ _ _ Hp). left. reflexivity.
Qed.

Lemma env_timeout_only_Exceptions : only_Exceptions env_timeout.
Proof. intros k inv e H. injection H as <-. reflexivity. Qed.

Lemma env_exit_only_Exceptions (rc : Z) : only_Exceptions (env_exit rc).
Proof. intros k inv e H. discriminate. Qed.

Lemma run_adb_command_logs_errors_witness :
  let w := set_run_all_checkbox true
             (set_selected_devices ["emulator-5554"; "0123456789ABCDEF"]
                initial_window) in
  only_Exceptions env_timeout /\
  exists w',
    Alpha.run_adb_command env_timeout "shell pm list packages" true w
    = (Returns tt, w') /\
    length (spawned w') = 2%nat.
Proof.
  intros w. split; [exact env_timeout_only_Exceptions |].
  destruct (run_adb_command_logs_errors env_timeout "shell pm list packages"
              true w env_timeout_only_Exceptions) as [w' [Hrun Hdev]].
  exists w'. split; [exact Hrun |].
  destruct (Hdev _ eq_refl) as [Hsp _]. rewrite Hsp. reflexivity.
Defined.

(** C4 as it is worded fails for an exception that is not an
    [Exception]: a [KeyboardInterrupt] during the first launch is caught by
    neither handler.  It leaves [run_adb_command], nothing is logged for
    it, and the second selected device is not run. *)
Lemma run_adb_command_logs_errors_counterexample :
  let w := set_run_all_checkbox true
             (set_selected_devices ["emulator-5554"; "0123456789ABCDEF"]
                initial_window) in
  let run := Alpha.run_adb_command env_interrupted "shell pm list packages"
               true w in
  let announce := "Выполняем: " ++ "adb -s emulator-5554 shell pm list packages" in
  fst run = Raises keyboard_interrupt /\
  messages (snd run) = [announce] /\
  spawned (snd run) =
    [mk_invocation ["adb"; "-s"; "emulator-5554"; "shell"; "pm"; "list"; "packages"]
       (Some 30)].
Proof. cbv zeta. repeat split. Qed.

(** C6, as the runner has it: with no device selected the method logs one
    message and launches nothing; otherwise it launches
    [adb -s dev ...] once for every selected device when the box is
    checked, and once for the first selected device when it is not,
    provided the names of the devices concerned are not empty. *)
Theorem run_adb_command_targets (E : env) (command : string) (w : window) :
  only_Exceptions E ->
  (selected_devices w = [] ->
   exists w',
     Alpha.run_adb_command E command true w = (Returns tt, w') /\
     messages w' = (messages w ++ ["Не выбрано устройство"])%list /\
     spawned w' = spawned w) /\
  (forall first others,
     selected_devices w = first :: others ->
     let targets := if run_all_checkbox w then first :: others else [first] in
     (forall dev, In dev targets -> dev <> EmptyString) ->
     exists w',
       Alpha.run_adb_command E command true w = (Returns tt, w') /\
       spawned w' =
         (spawned w ++
          map (fun dev =>
                 mk_invocation (["adb"; "-s"; dev] ++ PyStr.split_ws command)
                   (Some 30)) targets)%list).
Proof.
  intros HE.
  destruct (run_adb_command_run E command true w HE) as [w' [Hrun Hw']].
  split.
  - intros Hsel. exists w'. split; [exact Hrun |].
    unfold Alpha.adb_devices in Hw'. rewrite Hsel in Hw'.
    destruct Hw' as [Hsp Hmsg]. split; assumption.
  - intros first others Hsel targets Hnames.
    exists w'. split; [exact Hrun |].
    assert (Hdev : Alpha.adb_devices true w = Some (map Some targets)).
    { unfold Alpha.adb_devices. rewrite Hsel. subst targets.
      destruct (run_all_checkbox w); reflexivity. }
    rewrite Hdev in Hw'. destruct Hw' as [Hsp _].
    rewrite Hsp, map_map. f_equal.
    apply map_ext_in. intros dev Hin.
    unfold adb_invocation, Alpha.adb_full_cmd.
    destruct dev as [| a dev]; [exfalso; exact (Hnames _ Hin eq_refl) |].
    reflexivity.
Qed.

Lemma run_adb_command_targets_witness :
  let w := set_run_all_checkbox true
             (set_selected_devices ["emulator-5554"; "0123456789ABCDEF"]
                initial_window) in
  exists w',
    Alpha.run_adb_command (env_exit 0) "reboot recovery" true w = (Returns tt, w') /\
    spawned w' =
      [mk_invocation ["adb"; "-s"; "emulator-5554"; "reboot"; "recovery"] (Some 30);
       mk_invocation ["adb"; "-s"; "0123456789ABCDEF"; "reboot"; "recovery"] (Some 30)].
Proof.
  intros w.
  apply (proj2 (run_adb_command_targets (env_exit 0) "reboot recovery" w
                  (env_exit_only_Exceptions 0))
           "emulator-5554" ["0123456789ABCDEF"] eq_refl).
  intros dev [<- | [<- | []]]; discriminate.
Defined.

(** C6 as it is worded fails when a launch is cut short by an exit that
    is not an [Exception]: with the box checked and two devices selected,
    a [KeyboardInterrupt] during the first launch ends the method, and the
    second device gets no invocation. *)
Lemma run_adb_command_targets_counterexample :
  let selected := ["emulator-5554"; "0123456789ABCDEF"] in
  let w := set_run_all_checkbox true (set_selected_devices selected initial_window) in
  let w' := snd (Alpha.run_adb_command env_interrupted "reboot" true w) in
  spawned w' = [mk_invocation ["adb"; "-s"; "emulator-5554"; "reboot"] (Some 30)] /\
  spawned w' <>
    map (fun dev =>
           mk_invocation (["adb"; "-s"; dev] ++ PyStr.split_ws "reboot") (Some 30))
      selected.
Proof. cbv zeta. split; [reflexivity | discriminate]. Qed.

(** ** Timeouts of the launches *)

Section Launches.

Context {S : Type} (proj : S -> window) (P : invocation -> Prop).

Lemma launches_same {A : Type} (m : M S A) :
  (forall s, spawned (proj (snd (m s))) = spawned (proj s)) ->
  launches proj P m.
Proof.
  intros H s. exists []. rewrite app_nil_r. split; [apply H | constructor].
Qed.

Lemma launches_ret {A : Type} (a : A) : launches proj P (ret a).
Proof. apply launches_same. reflexivity. Qed.

Lemma launches_bind {A B : Type} (m : M S A) (k : A -> M S B) :
  launches proj P m -> (forall a, launches proj P (k a)) ->
  launches proj P (bind m k).
Proof.
  intros Hm Hk s. unfold bind.
  destruct (Hm s) as [new1 [H1 F1]].
  destruct (m s) as [[a | e] s1]; cbn [snd] in *.
  - destruct (Hk a s1) as [new2 [H2 F2]].
    exists (new1 ++ new2)%list. rewrite H2, H1, app_assoc.
    split; [reflexivity | apply Forall_app; split; assumption].
  - exists new1. split; assumption.
Qed.

Lemma launches_try_except {A : Type} (body : M S A) (clauses : list (clause S A)) :
  launches proj P body ->
  (forall test handler e, In (test, handler) clauses -> launches proj P (handler e)) ->
  launches proj P (try_except body clauses).
Proof.
  intros Hb Hc s. unfold try_except.
  destruct (Hb s) as [new1 [H1 F1]].
  destruct (body s) as [[a | e] s1]; cbn [snd] in *.
  - exists new1. split; assumption.
  - assert (Hsel : forall h, select_handler clauses e = Some h -> launches proj P h).
    { clear -Hc. induction clauses as [| [test handler] rest IH]; intros h Hh.
      - discriminate.
      - cbn in Hh. destruct (test e).
        + injection Hh as <-. apply (Hc test handler e). left. reflexivity.
        + apply IH; [| exact Hh].
          intros t' h' e' Hin. apply (Hc t' h' e'). right. exact Hin. }
    destruct (select_handler clauses e) as [h |].
    + destruct (Hsel h eq_refl s1) as [new2 [H2 F2]].
      exists (new1 ++ new2)%list. rewrite H2, H1, app_assoc.
      split; [reflexivity | apply Forall_app; split; assumption].
    + exists new1. split; assumption.
Qed.

Lemma launches_for_each {A : Type} (l : list A) (body : A -> M S flow) :
  (forall x, launches proj P (body x)) -> launches proj P (for_each l body).
Proof.
  intros Hb. induction l as [| x rest IH]; cbn [for_each].
  - apply launches_ret.
  - apply launches_bind; [apply Hb |].
    intros [|]; [exact IH | apply launches_ret].
Qed.

Lemma launches_when (c : bool) (m : M S unit) :
  launches proj P m -> launches proj P (when c m).
Proof. intros Hm. destruct c; [exact Hm | apply launches_ret]. Qed.

End Launches.

Lemma launches_lift {L A : Type} (P : invocation -> Prop) (m : M window A) :
  launches (fun w => w) P m -> launches (@snd L window) P (lift m).
Proof.
  intros Hm [l w]. destruct (Hm w) as [new [H F]].
  exists new. unfold lift. cbn [snd fst] in *.
  destruct (m w) as [r w']. cbn [snd] in *. split; assumption.
Qed.

Lemma launches_with_locals {L A : Type} (P : invocation -> Prop) (l : L)
    (m : M (L * window) A) :
  launches (@snd L window) P m -> launches (fun w => w) P (with_locals l m).
Proof.
  intros Hm w. destruct (Hm (l, w)) as [new [H F]].
  exists new. unfold with_locals. cbn [snd fst] in *.
  destruct (m (l, w)) as [r s']. cbn [snd] in *. split; assumption.
Qed.

Lemma launches_local {L A : Type} (P : invocation -> Prop) (m : M (L * window) A) :
  (forall s, snd (snd (m s)) = snd s) -> launches (@snd L window) P m.
Proof. intros H. apply launches_same. intros s. rewrite H. reflexivity. Qed.

Section LaunchesOfMethods.

Variable E : env.
Variable P : invocation -> Prop.

Local Abbreviation quiet m := (launches (fun w : window => w) P m).

Lemma launches_now (fmt : time_format) : quiet (Alpha.now E fmt).
Proof. apply launches_same. reflexivity. Qed.

Lemma launches_log_message (text : string) : quiet (Alpha.log_message E text).
Proof. apply launches_same. reflexivity. Qed.

Lemma launches_show_dialog (i : icon) (title text : string) :
  quiet (Alpha.show_dialog i title text).
Proof. apply launches_same. reflexivity. Qed.

Lemma launches_write (path text : string) : quiet (Alpha.write E path text).
Proof.
  apply launches_same. intros w. unfold Alpha.write, Alpha.file_op, bind.
  destruct (file_fault E (file_ops w)); reflexivity.
Qed.

Lemma launches_open_w (path : string) : quiet (Alpha.open_w E path).
Proof.
  apply launches_same. intros w. unfold Alpha.open_w, Alpha.file_op, bind.
  destruct (file_fault E (file_ops w)); reflexivity.
Qed.

Lemma launches_subprocess_run (args : list string) (t : option Z) :
  P (mk_invocation args t) -> quiet (Alpha.subprocess_run E args t).
Proof.
  intros HP w. exists [mk_invocation args t].
  split; [reflexivity | constructor; [exact HP | constructor]].
Qed.

Lemma launches_emit_progress (v : Z) : quiet (Alpha.emit_progress v).
Proof.
  apply launches_same. intros w. unfold Alpha.emit_progress, modify. cbn [snd].
  destruct (0 <? progress_connected w)%nat; reflexivity.
Qed.

Lemma launches_get_state : quiet (@get_state window).
Proof. apply launches_same. reflexivity. Qed.

Lemma launches_modify (f : window -> window) :
  (forall w, spawned (f w) = spawned w) -> quiet (modify f).
Proof. intros H. apply launches_same. exact H. Qed.

End LaunchesOfMethods.

(** One clause of a handler list at a time. *)
Ltac launches_clauses :=
  let Hin := fresh "Hin" in
  intros ? ? ? Hin; cbn [In] in Hin;
  repeat (destruct Hin as [Hin | Hin]; [injection Hin as <- <- |]);
  [.. | contradiction].

Ltac launches_auto :=
  repeat first
    [ apply launches_ret
    | apply launches_log_message
    | apply launches_now
    | apply launches_show_dialog
    | apply launches_write
    | apply launches_open_w
    | apply launches_get_state
    | apply launches_emit_progress
    | apply launches_subprocess_run; reflexivity
    | apply launches_when
    | apply launches_lift
    | apply launches_local; reflexivity
    | apply launches_modify; intros ?; reflexivity
    | apply launches_for_each; intros ?
    | apply launches_bind; [| intros ?]
    | apply launches_try_except; [| launches_clauses]
    | match goal with
      | |- launches _ _ (if ?c then _ else _) => destruct c
      | |- launches _ _ (match ?x with _ => _ end) => destruct x
      end ].

Lemma run_adb_command_launches (E : env) (command : string) (device_specific : bool) :
  launches (fun w => w) (has_timeout 30)
    (Alpha.run_adb_command E command device_specific).
Proof.
  unfold Alpha.run_adb_command, Alpha.run_adb_on. launches_auto.
Qed.

Lemma run_fastboot_command_launches (E : env) (command : string) :
  launches (fun w => w) (has_timeout 60) (Alpha.run_fastboot_command E command).
Proof.
  unfold Alpha.run_fastboot_command. launches_auto.
Qed.

Lemma save_report_launches (E : env) (P : invocation -> Prop)
    (data : Alpha.report) (base_name : string) :
  launches (fun w => w) P (Alpha.save_report E data base_name).
Proof.
  unfold Alpha.save_report. launches_auto.
Qed.

Lemma install_apks_report_launches (E : env) :
  launches (fun w => w) (has_timeout 360) (Alpha.install_apks_report E).
Proof.
  unfold Alpha.install_apks_report.
  apply launches_bind; [apply launches_get_state | intros w].
  apply launches_bind; [apply launches_log_message | intros _].
  apply launches_bind; [apply launches_now | intros stamp].
  apply launches_bind.
  - apply launches_with_locals.
    unfold Alpha.install_logged, Alpha.install_one, Alpha.read_stop.
    launches_auto.
  - intros l. unfold Alpha.install_report. launches_auto.
Qed.

Lemma install_apks_thread_launches (E : env) :
  launches (fun w => w) (has_timeout 360) (Alpha.install_apks_thread E).
Proof.
  unfold Alpha.install_apks_thread.
  apply launches_bind; [apply install_apks_report_launches | intros data].
  apply launches_bind; [apply save_report_launches | intros _].
  launches_auto.
Qed.

(** C5, as the runners have it: each runner passes a fixed timeout to
    every process it launches, 30 seconds in [run_adb_command], 60 seconds
    in [run_fastboot_command] and 360 seconds in [install_apks_thread];
    this holds in every environment, also when the runner ends early. *)
Theorem command_runner_timeouts (E : env) :
  (forall command device_specific,
     launches (fun w => w) (has_timeout 30)
       (Alpha.run_adb_command E command device_specific)) /\
  (forall command,
     launches (fun w => w) (has_timeout 60) (Alpha.run_fastboot_command E command)) /\
  launches (fun w => w) (has_timeout 360) (Alpha.install_apks_thread E).
Proof.
  split; [| split].
  - intros command device_specific. apply run_adb_command_launches.
  - intros command. apply run_fastboot_command_launches.
  - apply install_apks_thread_launches.
Qed.

(** C5 as it is worded fails: the fastboot runner waits 60 seconds and
    the installer 360, both beyond the 5 to 30 seconds of the claim. *)
Lemma command_runner_timeouts_counterexample :
  let fastboot := Alpha.run_fastboot_command (env_exit 0) "devices" initial_window in
  let install :=
    Alpha.install_apks_thread (env_exit 0)
      (set_apk_files ["/sdcard/a.apk"] initial_window) in
  spawned (snd fastboot) = [mk_invocation ["fastboot"; "devices"] (Some 60)] /\
  spawned (snd install)
  = [mk_invocation ["adb"; "install"; "-r"; "/sdcard/a.apk"] (Some 360)] /\
  ~ (5 <= 60 <= 30) /\ ~ (5 <= 360 <= 30).
Proof.
  cbv zeta. repeat split; try (vm_compute; reflexivity); lia.
Qed.

(** ** The mass-installation report *)

Lemma count_status_app (st : string) (es : list Alpha.entry) (e : Alpha.entry) :
  count_status st (es ++ [e]) =
  count_status st es + (if String.eqb (Alpha.status e) st then 1 else 0).
Proof.
  unfold count_status. rewrite filter_app, length_app. cbn [filter].
  destruct (String.eqb (Alpha.status e) st); cbn [length]; lia.
Qed.

(** Every pass of the loop keeps the counters in step with the entries. *)
Lemma tally_counters_agree (apk_path : string) (r : outcome completed)
    (l : Alpha.install_locals) :
  counters_agree l -> counters_agree (tally apk_path r l).
Proof.
  unfold counters_agree, tally. intros [Hs [Hf Hsum]].
  destruct r as [result | e];
    [destruct (returncode result =? 0) | destruct (is_TimeoutExpired e)];
    cbn [Alpha.append_entry Alpha.set_outcome Alpha.count_success
         Alpha.count_failed Alpha.l_success Alpha.l_failed Alpha.l_entries
         Alpha.l_status Alpha.l_details];
    rewrite !count_status_app, length_app; cbn; lia.
Qed.

Lemma tally_length (apk_path : string) (r : outcome completed)
    (l : Alpha.install_locals) :
  length (Alpha.l_entries (tally apk_path r l)) = S (length (Alpha.l_entries l)).
Proof.
  unfold tally.
  destruct r as [result | e];
    [destruct (returncode result =? 0) | destruct (is_TimeoutExpired e)];
    cbn; rewrite length_app; cbn [length]; lia.
Qed.

Section InstallRuns.

Variable E : env.
Hypothesis processes_raise_Exceptions : only_Exceptions E.
Hypothesis files_work : no_file_fault E.

Lemma write_run (path text : string) (w : window) :
  exists w', Alpha.write E path text w = (Returns tt, w').
Proof.
  unfold Alpha.write, Alpha.file_op, bind. rewrite files_work.
  eexists. reflexivity.
Qed.

Lemma open_w_run (path : string) (w : window) :
  exists w', Alpha.open_w E path w = (Returns tt, w').
Proof.
  unfold Alpha.open_w, Alpha.file_op, bind. rewrite files_work.
  eexists. reflexivity.
Qed.

(** One pass of the loop, when no stop request is read: it ends with
    [Next], and the locals are those of [tally]. *)
Lemma install_one_run (n_total : Z) (log_file : string) (i : Z)
    (apk_path : string) (l : Alpha.install_locals) (w : window) :
  stop_read E (Z.to_nat i) = false ->
  exists r w',
    Alpha.install_one E n_total log_file (i, apk_path) (l, w)
    = (Returns Next, (tally apk_path r l, w')).
Proof.
  intros Hstop.
  unfold Alpha.install_one, Alpha.read_stop, bind, lift, ret.
  cbn [fst snd]. rewrite Hstop, log_message_run.
  unfold try_except, bind, lift, Alpha.subprocess_run. cbn [fst snd].
  match goal with
  | |- context [process E ?k ?inv] =>
      exists (process E k inv); destruct (process E k inv) as [result | e] eqn:Hp
  end.
  - destruct (returncode result =? 0) eqn:Hrc;
      unfold modify_local, bind; cbn [fst snd]; rewrite log_message_run;
      match goal with
      | |- context [Alpha.write E ?p ?t ?w0] =>
          destruct (write_run p t w0) as [w1 Hw1]; rewrite Hw1
      end;
      unfold Alpha.emit_progress, modify; cbn [fst snd];
      eexists; unfold tally; rewrite Hrc; reflexivity.
  - apply processes_raise_Exceptions in Hp.
    cbn [select_handler]. destruct (is_TimeoutExpired e) eqn:Ht.
    + unfold modify_local, bind; cbn [fst snd]; rewrite log_message_run.
      match goal with
      | |- context [Alpha.write E ?p ?t ?w0] =>
          destruct (write_run p t w0) as [w1 Hw1]; rewrite Hw1
      end.
      unfold Alpha.emit_progress, modify; cbn [fst snd].
      eexists; unfold tally; rewrite Ht; reflexivity.
    + rewrite Hp.
      unfold modify_local, bind; cbn [fst snd]; rewrite log_message_run.
      match goal with
      | |- context [Alpha.write E ?p ?t ?w0] =>
          destruct (write_run p t w0) as [w1 Hw1]; rewrite Hw1
      end.
      unfold Alpha.emit_progress, modify; cbn [fst snd].
      eexists; unfold tally; rewrite Ht; reflexivity.
Qed.

(** The loop over the files from position [i] on. *)
Lemma install_loop_run (n_total : Z) (log_file : string) (apks : list string) :
  forall (i : Z) (l : Alpha.install_locals) (w : window),
    0 <= i ->
    (forall j, (j < length apks)%nat -> stop_read E (Z.to_nat i + j) = false) ->
    counters_agree l ->
    exists l' w',
      for_each (enumerate_from i apks) (Alpha.install_one E n_total log_file) (l, w)
      = (Returns tt, (l', w')) /\
      counters_agree l' /\
      length (Alpha.l_entries l') = (length (Alpha.l_entries l) + length apks)%nat.
Proof.
  induction apks as [| apk rest IH]; intros i l w Hi Hstop Hl.
  - exists l, w. cbn. rewrite Nat.add_0_r. split; [reflexivity | split; auto].
  - cbn [enumerate_from for_each]. unfold bind at 1.
    destruct (install_one_run n_total log_file i apk l w) as [r [w1 Hone]].
    { specialize (Hstop 0%nat). rewrite Nat.add_0_r in Hstop.
      apply Hstop. cbn. lia. }
    rewrite Hone.
    destruct (IH (i + 1) (tally apk r l) w1) as [l' [w' [Hloop [Hagree Hlen]]]].
    + lia.
    + intros j Hj. replace (Z.to_nat (i + 1) + j)%nat with (Z.to_nat i + S j)%nat by lia.
      apply Hstop. cbn. lia.
    + apply tally_counters_agree. exact Hl.
    + exists l', w'. split; [exact Hloop | split; [exact Hagree |]].
      rewrite Hlen, tally_length. cbn [length]. lia.
Qed.

(** The [with] block: it ends normally with the locals of the loop. *)
Lemma install_logged_run (apks : list string) (n_total : Z) (log_file : string)
    (l0 : Alpha.install_locals) (w : window) :
  (forall j, (j < length apks)%nat -> stop_read E j = false) ->
  counters_agree l0 ->
  exists l s',
    Alpha.install_logged E apks n_total log_file (l0, w) = (Returns l, s') /\
    counters_agree l /\
    length (Alpha.l_entries l) = (length (Alpha.l_entries l0) + length apks)%nat.
Proof.
  intros Hstop Hl0.
  unfold Alpha.install_logged, bind at 1, lift at 1. cbn [fst snd].
  destruct (open_w_run log_file w) as [w1 ->].
  unfold bind at 1, lift at 1, Alpha.now. cbn [fst snd].
  unfold bind at 1, lift at 1. cbn [fst snd].
  match goal with
  | |- context [Alpha.write E ?p ?t ?w0] =>
      destruct (write_run p t w0) as [w2 ->]
  end.
  unfold bind at 1, lift at 1. cbn [fst snd].
  match goal with
  | |- context [Alpha.write E ?p ?t ?w0] =>
      destruct (write_run p t w0) as [w3 ->]
  end.
  unfold bind at 1, enumerate.
  destruct (install_loop_run n_total log_file apks 0 l0 w3)
    as [l [w4 [-> [Hagree Hlen]]]]; [lia | exact Hstop | exact Hl0 |].
  exists l.
  unfold bind at 1, lift at 1. cbn [fst snd].
  match goal with
  | |- context [Alpha.write E ?p ?t ?w0] =>
      destruct (write_run p t w0) as [w5 ->]
  end.
  unfold bind at 1, get_local at 1. cbn [fst snd].
  unfold bind at 1, lift at 1. cbn [fst snd].
  match goal with
  | |- context [Alpha.write E ?p ?t ?w0] =>
      destruct (write_run p t w0) as [w6 ->]
  end.
  unfold bind at 1, lift at 1. cbn [fst snd].
  match goal with
  | |- context [Alpha.write E ?p ?t ?w0] =>
      destruct (write_run p t w0) as [w7 ->]
  end.
  unfold bind at 1, lift at 1. cbn [fst snd].
  match goal with
  | |- context [Alpha.write E ?p ?t ?w0] =>
      destruct (write_run p t w0) as [w8 ->]
  end.
  eexists. split; [reflexivity | split; assumption].
Qed.

(** The report: its counters are those of the loop. *)
Lemma install_apks_report_run (w : window) :
  (forall j, (j < length (apk_files w))%nat -> stop_read E j = false) ->
  exists r w1,
    Alpha.install_apks_report E w = (Returns r, w1) /\
    Alpha.total r = Z.of_nat (length (apk_files w)) /\
    length (Alpha.entries r) = length (apk_files w) /\
    counters_agree
      (Alpha.mk_locals (Alpha.success r) (Alpha.failed r) (Alpha.entries r)
         EmptyString EmptyString).
Proof.
  intros Hstop.
  unfold Alpha.install_apks_report, bind at 1, get_state at 1.
  unfold bind at 1. rewrite log_message_run.
  unfold bind at 1, Alpha.now at 1.
  unfold bind at 1, with_locals at 1.
  match goal with
  | |- context [Alpha.install_logged E ?a ?n ?f (?l0, ?w0)] =>
      destruct (install_logged_run a n f l0 w0) as [l [s' [-> [Hagree Hlen]]]]
  end.
  - exact Hstop.
  - repeat split; reflexivity.
  - unfold Alpha.install_report, bind, Alpha.now, ret. cbn [snd].
    eexists. eexists. split; [reflexivity |].
    cbn [Alpha.total Alpha.success Alpha.failed Alpha.entries].
    split; [reflexivity | split; [exact Hlen |]].
    exact Hagree.
Qed.

Lemma eqb_append_same (p a b : string) :
  String.eqb (p ++ a) (p ++ b) = String.eqb a b.
Proof.
  induction p as [| c p IH]; cbn; [reflexivity |].
  rewrite Ascii.eqb_refl. exact IH.
Qed.

Lemma open_w_files (path : string) (w : window) :
  exists w',
    Alpha.open_w E path w = (Returns tt, w') /\
    files w' = PyDict.set (files w) path EmptyString.
Proof.
  unfold Alpha.open_w, Alpha.file_op, bind. rewrite files_work.
  eexists. split; reflexivity.
Qed.

Lemma write_files (path text : string) (w : window) :
  exists w',
    Alpha.write E path text w = (Returns tt, w') /\
    files w' =
      PyDict.set (files w) path
        (match PyDict.get (files w) path with
         | Some c => c
         | None => EmptyString
         end ++ text).
Proof.
  unfold Alpha.write, Alpha.file_op, bind. rewrite files_work.
  eexists. split; reflexivity.
Qed.

(** [save_report] ends normally and leaves the JSON text of the report
    in a file. *)
Lemma save_report_run (data : Alpha.report) (base_name : string) (w : window) :
  exists w' path,
    Alpha.save_report E data base_name w = (Returns tt, w') /\
    PyDict.get (files w') path = Some (Json.dumps (Alpha.report_value data)).
Proof.
  unfold Alpha.save_report, bind at 1, Alpha.now at 1.
  set (json_path := base_name ++ "_" ++ clock E (ticks w) Compact ++ ".json").
  set (html_path := base_name ++ "_" ++ clock E (ticks w) Compact ++ ".html").
  set (w0 := set_ticks (S (ticks w)) w).
  unfold bind at 1, try_except at 1, bind at 1.
  destruct (open_w_files json_path w0) as [w1 [-> Hf1]].
  unfold bind at 1.
  destruct (write_files json_path (Json.dumps (Alpha.report_value data)) w1)
    as [w2 [-> Hf2]].
  rewrite log_message_run.
  set (w3 := set_console _ _).
  assert (Hf3 : PyDict.get (files w3) json_path
                = Some (Json.dumps (Alpha.report_value data))).
  { subst w3. cbn [files set_console set_ticks].
    rewrite Hf2, Hf1, !dict_get_set, String.eqb_refl. reflexivity. }
  unfold try_except at 1, bind at 1, Alpha.now at 1, bind at 1.
  match goal with
  | |- context [Alpha.open_w E ?p ?w4] =>
      destruct (open_w_files p w4) as [w5 [-> Hf5]]
  end.
  unfold bind at 1.
  match goal with
  | |- context [Alpha.write E ?p ?t ?w6] =>
      destruct (write_files p t w6) as [w7 [-> Hf7]]
  end.
  rewrite log_message_run.
  eexists. exists json_path. split; [reflexivity |].
  cbn [files set_console set_ticks] in *.
  rewrite Hf7, Hf5, !dict_get_set.
  unfold html_path, json_path. rewrite !eqb_append_same.
  cbn. exact Hf3.
Qed.

End InstallRuns.

(** C2, as the installer has it: when every file is processed, no file
    operation fails and no launch is cut short by a non-[Exception] exit,
    [install_apks_thread] returns normally and the report it saves has
    [total] equal to the number of files, [success + failed == total],
    [success] equal to the number of entries with status [success], and
    [failed] equal to the number of entries whose status is [failed],
    [timeout] or [exception]. *)
Theorem mass_install_report_counts (E : env) (w : window) :
  only_Exceptions E ->
  no_file_fault E ->
  (forall i, (i < length (apk_files w))%nat -> stop_read E i = false) ->
  exists r w' path,
    Alpha.install_apks_thread E w = (Returns tt, w') /\
    PyDict.get (files w') path = Some (Json.dumps (Alpha.report_value r)) /\
    Alpha.total r = Z.of_nat (length (apk_files w)) /\
    length (Alpha.entries r) = length (apk_files w) /\
    Alpha.success r + Alpha.failed r = Alpha.total r /\
    Alpha.success r = count_status "success" (Alpha.entries r) /\
    Alpha.failed r =
      count_status "failed" (Alpha.entries r)
      + count_status "timeout" (Alpha.entries r)
      + count_status "exception" (Alpha.entries r).
Proof.
  intros HE HF Hstop.
  destruct (install_apks_report_run E HE HF w Hstop)
    as [r [w1 [Hreport [Htotal [Hlen [Hs [Hf Hsum]]]]]]].
  cbn [Alpha.l_success Alpha.l_failed Alpha.l_entries] in Hs, Hf, Hsum.
  destruct (save_report_run E HF r "mass_install_report" w1)
    as [w2 [path [Hsave Hfile]]].
  exists r.
  unfold Alpha.install_apks_thread, bind. rewrite Hreport, Hsave, log_message_run.
  assert (Hkeep : forall i t x, files (snd (Alpha.show_dialog i t x
            (set_console (console w2 ++ [mk_line (clock E (ticks w2) HMS)
               ("Установка завершена! Успешно: " ++ PyStr.str_int (Alpha.success r) ++ ", Ошибки: "
                ++ PyStr.str_int (Alpha.failed r))])
               (set_ticks (S (ticks w2)) w2)))) = files w2) by reflexivity.
  destruct (Alpha.failed r =? 0);
    (eexists; exists path; split; [reflexivity |]);
    (split; [cbn [files Alpha.show_dialog modify snd]; exact Hfile |]);
    rewrite Htotal, <- Hlen; repeat split; try assumption; lia.
Qed.

Lemma env_mixed_only_Exceptions : only_Exceptions env_mixed.
Proof.
  intros k inv e H. destruct k as [| [| [| k]]]; cbn in H;
    try discriminate; injection H as <-; reflexivity.
Qed.

Lemma mass_install_report_counts_witness :
  let w := set_apk_files ["a.apk"; "b.apk"; "c.apk"; "d.apk"] initial_window in
  exists r w' path,
    Alpha.install_apks_thread env_mixed w = (Returns tt, w') /\
    PyDict.get (files w') path = Some (Json.dumps (Alpha.report_value r)) /\
    Alpha.total r = 4 /\
    length (Alpha.entries r) = 4%nat /\
    Alpha.success r + Alpha.failed r = Alpha.total r /\
    Alpha.success r = count_status "success" (Alpha.entries r) /\
    Alpha.failed r =
      count_status "failed" (Alpha.entries r)
      + count_status "timeout" (Alpha.entries r)
      + count_status "exception" (Alpha.entries r).
Proof.
  intros w.
  apply (mass_install_report_counts env_mixed w env_mixed_only_Exceptions).
  - intros k. reflexivity.
  - intros i _. reflexivity.
Defined.

(** C2 as it is worded fails: an installation that runs into its timeout
    counts as failed, but its entry has the status [timeout], so [failed]
    is 1 while no entry has the status [failed]. *)
Lemma mass_install_report_counts_counterexample :
  let w := set_apk_files ["/sdcard/a.apk"] initial_window in
  let r := Alpha.mk_report "mass_install" "2025-01-01T12:00:00" 1 0 1
             [Alpha.mk_entry "a.apk" "timeout" "Превышен таймаут (6 мин.)"] in
  fst (Alpha.install_apks_report env_timeout w) = Returns r /\
  Alpha.success r + Alpha.failed r = Alpha.total r /\
  Alpha.failed r = 1 /\
  count_status "failed" (Alpha.entries r) = 0.
Proof. cbv zeta. repeat split; vm_compute; reflexivity. Qed.

(** ** The plugin loader *)

(** A loop whose body never leaves with [break] runs through a
    concatenation part after part. *)
Lemma for_each_app {S A : Type} (body : A -> M S flow) (l1 l2 : list A) :
  (forall x s s', body x s <> (Returns Break, s')) ->
  forall s,
    for_each (l1 ++ l2) body s =
    match for_each l1 body s with
    | (Returns _, s') => for_each l2 body s'
    | (Raises e, s') => (Raises e, s')
    end.
Proof.
  intros Hnext. induction l1 as [| x l1 IH]; intros s; cbn [List.app for_each].
  - reflexivity.
  - unfold bind. destruct (body x s) as [[[|] | e] s1] eqn:Hx.
    + apply IH.
    + exfalso. exact (Hnext x s s1 Hx).
    + reflexivity.
Qed.

Lemma load_plugin_never_breaks (E : env) (T : Alpha.loader_texts)
    (p : Alpha.plugin_file) (w w' : window) :
  Alpha.load_plugin E T p w <> (Returns Break, w').
Proof.
  unfold Alpha.load_plugin.
  destruct (negb (PyStr.endswith (Alpha.fn p) ".py")); [discriminate |].
  destruct (Alpha.spec_found p); [| discriminate].
  unfold bind. destruct (try_except _ _ w) as [[[] | e] s]; discriminate.
Qed.

(** The loader's own handling of a failing file. *)
Lemma load_plugin_catches (E : env) (T : Alpha.loader_texts)
    (p : Alpha.plugin_file) (w w2 : window) (e : exn) :
  PyStr.endswith (Alpha.fn p) ".py" = true ->
  Alpha.spec_found p = true ->
  plugin_fails p w e w2 ->
  is_Exception e = true ->
  Alpha.load_plugin E T p w =
  (Returns Next,
   snd (Alpha.log_message E
          (Alpha.text_failed T ++ Alpha.fn p ++ ": " ++ exn_str e) w2)).
Proof.
  intros Hpy Hspec Hfail He.
  unfold Alpha.load_plugin. rewrite Hpy, Hspec. cbn [negb].
  unfold bind at 1, try_except, Alpha.load_module, bind at 1.
  destruct Hfail as [Himport | [mod_ [entry_point [w1 [Himport [Hreg Hcall]]]]]].
  - rewrite Himport. cbn [select_handler]. rewrite He, log_message_run.
    reflexivity.
  - rewrite Himport, Hreg. unfold bind at 1. rewrite Hcall.
    cbn [select_handler]. rewrite He, log_message_run. reflexivity.
Qed.

(** A file that is skipped, or whose plugin loads or fails with an
    [Exception], lets the loop go on. *)
Lemma load_plugin_returns (E : env) (T : Alpha.loader_texts)
    (p : Alpha.plugin_file) (w : window) :
  raises_only_Exceptions p ->
  exists w', Alpha.load_plugin E T p w = (Returns Next, w').
Proof.
  intros Hp. unfold Alpha.load_plugin.
  destruct (negb (PyStr.endswith (Alpha.fn p) ".py")); [eexists; reflexivity |].
  destruct (Alpha.spec_found p); [| eexists; reflexivity].
  unfold bind at 1, try_except, Alpha.load_module, bind at 1.
  destruct (Alpha.exec_module p w) as [[mod_ | e] w1] eqn:Himport.
  - destruct (Alpha.register mod_) as [entry_point |] eqn:Hreg.
    + unfold bind at 1.
      destruct (entry_point w1) as [[[] | e] w2] eqn:Hcall.
      * rewrite log_message_run. eexists. reflexivity.
      * assert (He : is_Exception e = true).
        { apply (Hp w e w2). right. exists mod_, entry_point, w1. auto. }
        cbn [select_handler]. rewrite He, log_message_run.
        eexists. reflexivity.
    + eexists. reflexivity.
  - assert (He : is_Exception e = true).
    { apply (Hp w e w1). left. exact Himport. }
    cbn [select_handler]. rewrite He, log_message_run. eexists. reflexivity.
Qed.

(** C1, as the loader has it: a plugin file whose import or whose
    [register] call raises an [Exception] is caught by the loader, which
    adds exactly one message for that file to what the plugin left on the
    console and goes on with the remaining files; and when the plugins of
    a folder raise nothing but [Exception]s, [load_plugins] returns
    normally.  The statement holds for the texts of the [alpha] copy and
    of the [alpha_on_english] copy. *)
Theorem load_plugins_survives_failures (E : env) (T : Alpha.loader_texts) :
  (forall (before after : list Alpha.plugin_file) (p : Alpha.plugin_file)
          (w w1 w2 : window) (e : exn),
     for_each before (Alpha.load_plugin E T) w = (Returns tt, w1) ->
     PyStr.endswith (Alpha.fn p) ".py" = true ->
     Alpha.spec_found p = true ->
     plugin_fails p w1 e w2 ->
     is_Exception e = true ->
     let line := Alpha.text_failed T ++ Alpha.fn p ++ ": " ++ exn_str e in
     exists w3,
       Alpha.load_plugin E T p w1 = (Returns Next, w3) /\
       messages w3 = (messages w2 ++ [line])%list /\
       Alpha.load_plugins_in E T (Some (before ++ p :: after)%list) w =
       for_each after (Alpha.load_plugin E T) w3) /\
  (forall (listing : list Alpha.plugin_file) (w : window),
     Forall raises_only_Exceptions listing ->
     exists w', Alpha.load_plugins_in E T (Some listing) w = (Returns tt, w')).
Proof.
  split.
  - intros before after p w w1 w2 e Hbefore Hpy Hspec Hfail He line.
    eexists. split; [apply (load_plugin_catches E T p w1 w2 e); assumption |].
    split.
    + rewrite log_message_run. unfold messages. cbn [snd console set_console set_ticks].
      rewrite map_app. reflexivity.
    + unfold Alpha.load_plugins_in.
      rewrite for_each_app by (intros x s s'; apply load_plugin_never_breaks).
      rewrite Hbefore. cbn [for_each]. unfold bind at 1.
      rewrite (load_plugin_catches E T p w1 w2 e) by assumption.
      reflexivity.
  - intros listing. unfold Alpha.load_plugins_in.
    induction listing as [| p rest IH]; intros w Hall.
    + exists w. reflexivity.
    + inversion Hall as [| p' rest' Hp Hrest]; subst.
      destruct (load_plugin_returns E T p w Hp) as [w1 Hone].
      destruct (IH w1 Hrest) as [w' Hloop].
      exists w'. cbn [for_each]. unfold bind at 1. rewrite Hone. exact Hloop.
Qed.

Lemma load_plugins_survives_failures_witness :
  let E := env_exit 0 in
  let T := Alpha.texts_alpha in
  let before := [plugin_greeting E "viewer.py"; not_a_plugin "README.md"] in
  let p := plugin_bad_register E "gui_enhancer.py" in
  let after := [plugin_bad_import "wifi_manager.py"; plugin_greeting E "usb_tethering.py"] in
  let w1 := snd (for_each before (Alpha.load_plugin E T) initial_window) in
  let w2 := snd (Alpha.log_message E "adding tab" w1) in
  let e := mk_exn OtherException
             "'XHelperMainWindow' object has no attribute 'settings'" in
  let line := Alpha.text_failed T ++ Alpha.fn p ++ ": " ++ exn_str e in
  exists w3,
    Alpha.load_plugin E T p w1 = (Returns Next, w3) /\
    messages w3 = (messages w2 ++ [line])%list /\
    Alpha.load_plugins E (Some (before ++ p :: after)%list) initial_window =
    for_each after (Alpha.load_plugin E T) w3.
Proof.
  intros E T before p after w1 w2 e line.
  apply (proj1 (load_plugins_survives_failures E T)
           before after p initial_window w1 w2 e).
  - reflexivity.
  - reflexivity.
  - reflexivity.
  - right. eexists. eexists. eexists.
    split; [reflexivity | split; reflexivity].
  - reflexivity.
Defined.

(** C1 as it is worded fails for a plugin that ends in an exit that is
    not an [Exception]: a [sys.exit(1)] during the import is not caught.
    [load_plugins] ends with it, logs nothing for the file and does not
    reach the file after it, which loads when it stands alone. *)
Lemma load_plugins_survives_failures_counterexample :
  let E := env_exit 0 in
  let run := Alpha.load_plugins E
               (Some [plugin_exits "broken.py"; plugin_greeting E "viewer.py"])
               initial_window in
  let alone := Alpha.load_plugins E (Some [plugin_greeting E "viewer.py"])
                 initial_window in
  let loaded := "Плагин загружен: " ++ "viewer.py" in
  fst run = Raises (mk_exn BaseOnly "1") /\
  messages (snd run) = [] /\
  fst alone = Returns tt /\
  messages (snd alone) = ["[viewer.py] ready"; loaded].
Proof. cbv zeta. repeat split. Qed.

Example load_plugins_ex :
  let E := env_exit 0 in
  messages (snd (Alpha.load_plugins E
                   (Some [plugin_greeting E "viewer.py"; not_a_plugin "README.md";
                          plugin_bad_register E "gui_enhancer.py";
                          plugin_bad_import "wifi_manager.py";
                          plugin_greeting E "usb_tethering.py"])
                   initial_window))
  = ["[viewer.py] ready";
     "Плагин загружен: " ++ "viewer.py";
     "adding tab";
     "Ошибка загрузки плагина " ++ "gui_enhancer.py: 'XHelperMainWindow' object has no attribute 'settings'";
     "Ошибка загрузки плагина " ++ "wifi_manager.py: No module named 'PyQt5'";
     "[usb_tethering.py] ready";
     "Плагин загружен: " ++ "usb_tethering.py"].
Proof. vm_compute. reflexivity. Qed.

(** ** The mass-installation tab as a state machine *)

Lemma start_without_files (w : window) :
  apk_files w = [] ->
  Alpha.start_mass_installation w
  = (Returns tt, set_dialogs (dialogs w ++ [dialog_no_files]) w).
Proof.
  intros Hfiles. unfold Alpha.start_mass_installation, bind, get_state.
  rewrite Hfiles. reflexivity.
Qed.

Lemma start_while_running (w : window) :
  apk_files w <> [] ->
  install_in_progress w = true ->
  Alpha.start_mass_installation w
  = (Returns tt, set_dialogs (dialogs w ++ [dialog_already_running]) w).
Proof.
  intros Hfiles Hrun. unfold Alpha.start_mass_installation, bind, get_state.
  destruct (apk_files w); [contradiction |]. rewrite Hrun. reflexivity.
Qed.

Lemma start_when_idle (w : window) :
  apk_files w <> [] ->
  install_in_progress w = false ->
  exists w',
    Alpha.start_mass_installation w = (Returns tt, w') /\
    install_in_progress w' = true /\
    stop_installation w' = false /\
    worker_threads w' = S (worker_threads w) /\
    apk_files w' = apk_files w.
Proof.
  intros Hfiles Hidle. unfold Alpha.start_mass_installation, bind, get_state.
  destruct (apk_files w) eqn:Hf; [contradiction |]. rewrite Hidle.
  eexists. split; [reflexivity |]. cbn. rewrite Hf. repeat split.
Qed.

Lemma finished_clears (w : window) :
  exists w',
    Alpha.mass_installation_finished w = (Returns tt, w') /\
    install_in_progress w' = false /\
    worker_threads w' = worker_threads w.
Proof. eexists. split; [reflexivity |]. split; reflexivity. Qed.

Lemma step_keeps_one_worker (E : env) (w : window) (ev : Alpha.event) (w' : window) :
  one_worker w -> Alpha.step E w ev w' -> one_worker w'.
Proof.
  unfold one_worker, Alpha.step. intros Hw [Hen Hev].
  destruct ev as [folder listing | | | v |]; cbn [Alpha.handle Alpha.enabled] in *.
  - unfold Alpha.select_apk_folder, when in Hev.
    destruct (PyStr.truthy folder); injection Hev as <-; exact Hw.
  - destruct (apk_files w) eqn:Hf.
    + rewrite start_without_files in Hev by exact Hf.
      injection Hev as <-. exact Hw.
    + destruct (install_in_progress w) eqn:Hrun.
      * rewrite start_while_running in Hev by congruence.
        injection Hev as <-. cbn. rewrite Hrun. exact Hw.
      * destruct (start_when_idle w) as [w1 [Hs [Hp [_ [Hwk _]]]]];
          [congruence | exact Hrun |].
        rewrite Hs in Hev. injection Hev as <-. rewrite Hp, Hwk, Hw. reflexivity.
  - unfold Alpha.stop_mass_installation, bind, get_state, when in Hev.
    destruct (install_in_progress w) eqn:Hrun.
    + cbn in Hev. injection Hev as <-. cbn. rewrite Hrun. exact Hw.
    + injection Hev as <-. rewrite Hrun. exact Hw.
  - unfold Alpha.emit_progress, modify in Hev. injection Hev as <-.
    destruct (0 <? progress_connected w)%nat; exact Hw.
  - injection Hev as <-. cbn.
    apply Nat.ltb_lt in Hen. destruct (install_in_progress w); lia.
Qed.

Lemma reachable_one_worker (E : env) (w : window) :
  Alpha.reachable E w -> one_worker w.
Proof.
  induction 1 as [| w ev w' _ IH Hstep].
  - reflexivity.
  - exact (step_keeps_one_worker E w ev w' IH Hstep).
Qed.

(** C10, as the handlers have it: with APK files chosen,
    [start_mass_installation] only shows the information box when an
    installation is under way, and otherwise sets [install_in_progress],
    clears [stop_installation] and starts one worker; with no APK file
    chosen it only shows a warning; [mass_installation_finished] clears
    [install_in_progress]; every step of the tab keeps the invariant that a
    worker runs exactly when [install_in_progress] is set, so that at most
    one worker runs in any reachable state. *)
Theorem mass_install_one_at_a_time (E : env) :
  (forall w,
     apk_files w <> [] -> install_in_progress w = true ->
     Alpha.start_mass_installation w
     = (Returns tt, set_dialogs (dialogs w ++ [dialog_already_running]) w)) /\
  (forall w,
     apk_files w <> [] -> install_in_progress w = false ->
     exists w',
       Alpha.start_mass_installation w = (Returns tt, w') /\
       install_in_progress w' = true /\
       stop_installation w' = false /\
       worker_threads w' = S (worker_threads w)) /\
  (forall w,
     apk_files w = [] ->
     Alpha.start_mass_installation w
     = (Returns tt, set_dialogs (dialogs w ++ [dialog_no_files]) w)) /\
  (forall w,
     exists w',
       Alpha.mass_installation_finished w = (Returns tt, w') /\
       install_in_progress w' = false) /\
  (forall w ev w', one_worker w -> Alpha.step E w ev w' -> one_worker w') /\
  (forall w, Alpha.reachable E w -> one_worker w /\ (worker_threads w <= 1)%nat).
Proof.
  split; [exact start_while_running |].
  split.
  { intros w Hfiles Hidle.
    destruct (start_when_idle w Hfiles Hidle) as [w' [Hs [Hp [Hst [Hwk _]]]]].
    exists w'. auto. }
  split; [exact start_without_files |].
  split.
  { intros w. destruct (finished_clears w) as [w' [Hf [Hp _]]]. exists w'. auto. }
  split; [exact (step_keeps_one_worker E) |].
  intros w Hreach. pose proof (reachable_one_worker E w Hreach) as Hone.
  split; [exact Hone |]. unfold one_worker in Hone.
  destruct (install_in_progress w); lia.
Qed.

Lemma window_installing_reachable (E : env) :
  Alpha.reachable E (window_installing E).
Proof.
  unfold window_installing.
  set (w1 := snd (Alpha.handle E (Alpha.Folder_selected "/sdcard/apks" ["a.apk"])
                    initial_window)).
  apply (Alpha.reachable_step E w1 Alpha.Start_clicked).
  - apply (Alpha.reachable_step E initial_window
             (Alpha.Folder_selected "/sdcard/apks" ["a.apk"])).
    + apply Alpha.reachable_initial.
    + split; reflexivity.
  - split; reflexivity.
Qed.

Lemma window_installing_no_files_reachable (E : env) :
  Alpha.reachable E (window_installing_no_files E).
Proof.
  apply (Alpha.reachable_step E (window_installing E)
           (Alpha.Folder_selected "/sdcard/empty" ["notes.txt"])).
  - apply window_installing_reachable.
  - split; reflexivity.
Qed.

Lemma mass_install_one_at_a_time_witness :
  let w := window_installing (env_exit 0) in
  (install_in_progress w = true /\ worker_threads w = 1%nat) /\
  Alpha.start_mass_installation w
  = (Returns tt, set_dialogs (dialogs w ++ [dialog_already_running]) w) /\
  one_worker w /\ (worker_threads w <= 1)%nat.
Proof.
  intros w.
  destruct (mass_install_one_at_a_time (env_exit 0))
    as [Hrunning [_ [_ [_ [_ Hreach]]]]].
  split; [split; reflexivity |].
  split.
  - apply Hrunning; [discriminate | reflexivity].
  - apply Hreach. apply window_installing_reachable.
Defined.

(** C10 as it is worded fails where no APK file is chosen: on a fresh
    window, where [install_in_progress] is false, the start handler leaves
    it false and starts no worker; and in the reachable state where an
    installation runs and the chosen folder holds no APK, the handler shows
    the warning about the missing files, not the information box. *)
Lemma mass_install_one_at_a_time_counterexample :
  let E := env_exit 0 in
  let idle := snd (Alpha.start_mass_installation initial_window) in
  let busy := window_installing_no_files E in
  (install_in_progress initial_window = false /\
   install_in_progress idle = false /\ worker_threads idle = 0%nat) /\
  (Alpha.reachable E busy /\ install_in_progress busy = true /\
   dialogs (snd (Alpha.start_mass_installation busy)) = [dialog_no_files]).
Proof.
  cbv zeta. split; [repeat split |].
  split; [apply window_installing_no_files_reachable | split; reflexivity].
Qed.

(** ** The JSON round trip *)

Lemma append_assoc (a b c : string) : (a ++ b) ++ c = a ++ (b ++ c).
Proof. induction a as [| x a IH]; cbn; [reflexivity | rewrite IH; reflexivity]. Qed.

Lemma append_nil_r (a : string) : a ++ EmptyString = a.
Proof. induction a as [| x a IH]; cbn; [reflexivity | rewrite IH; reflexivity]. Qed.

Lemma length_append (a b : string) :
  String.length (a ++ b) = (String.length a + String.length b)%nat.
Proof. induction a as [| x a IH]; cbn; [reflexivity | rewrite IH; reflexivity]. Qed.

Lemma rev_onto_rev_onto (s acc t : string) :
  PyStr.rev_onto t (PyStr.rev_onto acc s) = PyStr.rev_onto (s ++ t) acc.
Proof.
  revert acc t. induction s as [| a s IH]; intros acc t; cbn; [reflexivity |].
  rewrite IH. reflexivity.
Qed.

Lemma rev_rev_onto (s : string) : PyStr.rev (PyStr.rev_onto EmptyString s) = s.
Proof. unfold PyStr.rev. rewrite rev_onto_rev_onto. cbn. apply append_nil_r. Qed.

(** *** Strings *)

(** Reading back what [escape_char] wrote for one byte. *)
Lemma scan_string_escape_char (a : ascii) (acc rest : string) :
  Json.scan_string acc (Json.escape_char a ++ rest)
  = Json.scan_string (String a acc) rest.
Proof.
  destruct a as [[|] [|] [|] [|] [|] [|] [|] [|]]; reflexivity.
Qed.

Lemma scan_string_escape (s acc rest : string) :
  Json.scan_string acc (Json.escape s ++ Json.quote ++ rest)
  = Some (PyStr.rev (PyStr.rev_onto acc s), rest).
Proof.
  revert acc. induction s as [| a s IH]; intros acc.
  - reflexivity.
  - cbn [Json.escape PyStr.rev_onto]. rewrite append_assoc, scan_string_escape_char.
    apply IH.
Qed.

Lemma scan_encode_str (s rest : string) :
  Json.scan_string EmptyString (Json.escape s ++ Json.quote ++ rest) = Some (s, rest).
Proof. rewrite scan_string_escape, rev_rev_onto. reflexivity. Qed.

(** *** Numbers *)

Lemma ends_value_no_digit (acc : Z) (rest : string) :
  ends_value rest = true -> Json.scan_digits acc rest = (acc, rest).
Proof.
  destruct rest as [| a rest]; [reflexivity |]. cbn [ends_value Json.scan_digits].
  intros H. destruct (PyStr.is_digit a) eqn:Hd; [| reflexivity].
  exfalso. revert H Hd.
  unfold PyStr.is_byte, PyStr.is_digit, PyStr.in_range, PyStr.code.
  destruct (N_of_ascii a =? 44)%N eqn:H1; [apply N.eqb_eq in H1; rewrite H1; discriminate |].
  destruct (N_of_ascii a =? 10)%N eqn:H2; [apply N.eqb_eq in H2; rewrite H2; discriminate |].
  discriminate.
Qed.

Lemma ends_value_no_fraction (rest : string) :
  ends_value rest = true -> Json.starts_fraction_or_exponent rest = false.
Proof.
  destruct rest as [| a [| b rest]]; try reflexivity.
  cbn [ends_value Json.starts_fraction_or_exponent].
  unfold PyStr.is_byte, PyStr.code.
  destruct (N_of_ascii a =? 44)%N eqn:H1; [apply N.eqb_eq in H1; rewrite H1; reflexivity |].
  destruct (N_of_ascii a =? 10)%N eqn:H2; [apply N.eqb_eq in H2; rewrite H2; reflexivity |].
  discriminate.
Qed.

Lemma scan_digits_uint (d : uint) :
  forall (q : positive) (rest : string),
    ends_value rest = true ->
    Json.scan_digits (Z.pos q) (NilEmpty.string_of_uint d ++ rest)
    = (Z.pos (Pos.of_uint_acc d q), rest).
Proof.
  induction d; intros q rest Hrest; cbn [NilEmpty.string_of_uint append];
    [apply ends_value_no_digit; exact Hrest | ..];
    cbn [Json.scan_digits Pos.of_uint_acc];
    match goal with
    | |- context [PyStr.is_digit ?c] =>
        change (PyStr.is_digit c) with true; cbv iota
    end;
    match goal with
    | |- Json.scan_digits ?v _ = (Z.pos (Pos.of_uint_acc _ ?q'), _) =>
        replace v with (Z.pos q'); [apply IHd; exact Hrest |]
    end;
    match goal with
    | |- context [PyStr.digit_value ?c] =>
        let v := eval vm_compute in (PyStr.digit_value c) in
        change (PyStr.digit_value c) with v
    end;
    lia.
Qed.

Lemma to_uint_head (p : positive) :
  match Pos.to_uint p with
  | Nil | D0 _ => False
  | _ => True
  end.
Proof.
  pose proof (DecimalPos.Unsigned.to_uint_nonnil p) as Hnil.
  pose proof (DecimalPos.Unsigned.to_uint_nonzero p) as Hzero.
  pose proof (DecimalPos.Unsigned.to_of (Pos.to_uint p)) as Hto.
  rewrite DecimalPos.Unsigned.of_to in Hto. cbn [N.to_uint] in Hto.
  destruct (Pos.to_uint p) as [| l | | | | | | | | |] eqn:Hd; try exact I.
  - congruence.
  - unfold unorm in Hto. rewrite DecimalFacts.nzhead_D0 in Hto.
    destruct (nzhead l) as [| u | | | | | | | | |] eqn:Hl; try congruence.
    exact (DecimalFacts.nzhead_nonzero l u Hl).
Qed.

Lemma scan_natural_pos (p : positive) (rest : string) :
  ends_value rest = true ->
  Json.scan_natural (NilZero.string_of_uint (Pos.to_uint p) ++ rest)
  = Some (Z.pos p, rest).
Proof.
  intros Hrest.
  pose proof (to_uint_head p) as Hhead.
  pose proof (DecimalPos.Unsigned.of_to p) as Hof.
  destruct (Pos.to_uint p) as [| l | l | l | l | l | l | l | l | l | l] eqn:Hd;
    try contradiction;
    cbn [NilZero.string_of_uint NilEmpty.string_of_uint append Json.scan_natural];
    match goal with
    | |- context [PyStr.is_byte 48 ?c] =>
        change (PyStr.is_byte 48 c) with false;
        change (PyStr.is_digit c) with true; cbv iota
    end;
    cbn [Json.scan_digits];
    match goal with
    | |- context [PyStr.is_digit ?c] =>
        change (PyStr.is_digit c) with true; cbv iota
    end;
    match goal with
    | |- context [PyStr.digit_value ?c] =>
        let v := eval vm_compute in (PyStr.digit_value c) in
        change (PyStr.digit_value c) with v
    end;
    cbn [Z.mul Z.add];
    rewrite scan_digits_uint by exact Hrest;
    cbn [Pos.of_uint] in Hof; injection Hof as ->; reflexivity.
Qed.

(** Reading back the text of an integer. *)
Lemma scan_number_str_int (n : Z) (rest : string) :
  ends_value rest = true ->
  Json.scan_number (PyStr.str_int n ++ rest) = Some (PInt n, rest).
Proof.
  intros Hrest. unfold PyStr.str_int, Json.scan_number.
  destruct n as [| p | p]; cbn [Z.to_int NilZero.string_of_int].
  - cbn. rewrite ends_value_no_fraction by exact Hrest. reflexivity.
  - pose proof (to_uint_head p) as Hhead.
    pose proof (scan_natural_pos p rest Hrest) as Hnat.
    destruct (NilZero.string_of_uint (Pos.to_uint p) ++ rest) as [| a r] eqn:Htext.
    + cbn in Hnat. discriminate.
    + assert (Ha : PyStr.is_byte 45 a = false).
      { destruct (Pos.to_uint p); try contradiction; cbn in Htext;
          injection Htext as <- _; reflexivity. }
      rewrite Ha, Hnat, ends_value_no_fraction by exact Hrest. reflexivity.
  - cbn [append]. change (PyStr.is_byte 45 "-") with true. cbv iota.
    rewrite scan_natural_pos, ends_value_no_fraction by exact Hrest.
    reflexivity.
Qed.

(** The text of an integer starts with a digit or a minus sign. *)
Lemma str_int_head (n : Z) :
  exists a r, PyStr.str_int n = String a r /\
              (PyStr.is_digit a = true \/ PyStr.is_byte 45 a = true).
Proof.
  unfold PyStr.str_int. destruct n as [| p | p]; cbn [Z.to_int NilZero.string_of_int].
  - eexists. eexists. split; [reflexivity | left; reflexivity].
  - pose proof (to_uint_head p) as Hhead.
    destruct (Pos.to_uint p); try contradiction; cbn;
      eexists; eexists; (split; [reflexivity | left; reflexivity]).
  - eexists. eexists. split; [reflexivity | right; reflexivity].
Qed.

Lemma scan_value_number (fuel : nat) (a : ascii) (r : string) :
  PyStr.is_digit a = true \/ PyStr.is_byte 45 a = true ->
  Json.scan_value (S fuel) (String a r) = Json.scan_number (String a r).
Proof.
  intros Ha. cbn [Json.scan_value].
  assert (H : PyStr.is_byte 34 a = false /\ PyStr.is_byte 123 a = false /\
              PyStr.is_byte 91 a = false /\
              PyStr.startswith (String a r) "null" = false /\
              PyStr.startswith (String a r) "true" = false /\
              PyStr.startswith (String a r) "false" = false).
  { revert Ha. unfold PyStr.is_digit, PyStr.is_byte, PyStr.in_range, PyStr.code.
    destruct a as [[|] [|] [|] [|] [|] [|] [|] [|]]; cbn;
      intros [H | H]; try discriminate; repeat split. }
  destruct H as [-> [-> [-> [-> [-> ->]]]]]. reflexivity.
Qed.

(** *** Values *)

(** Induction on values, with the items of a list and the values of a
    dictionary as smaller values. *)
Lemma pyval_nested_ind (P : pyval -> Prop) :
  P PNone ->
  (forall b, P (PBool b)) ->
  (forall n, P (PInt n)) ->
  (forall s, P (PStr s)) ->
  (forall l, Forall P l -> P (PList l)) ->
  (forall d, Forall (fun kv => P (snd kv)) d -> P (PDict d)) ->
  forall v, P v.
Proof.
  intros HNone HBool HInt HStr HList HDict.
  fix IH 1. intros [| b | n | s | l | d].
  - exact HNone.
  - apply HBool.
  - apply HInt.
  - apply HStr.
  - apply HList. induction l as [| x l IHl]; constructor; [apply IH | exact IHl].
  - apply HDict. induction d as [| [k x] d IHd]; constructor; [apply IH | exact IHd].
Qed.

Lemma encode_list_cons (level : nat) (x : pyval) (r : list pyval) :
  Json.encode level (PList (x :: r))
  = "[" ++ Json.newline_indent (S level) ++ Json.encode (S level) x
    ++ Json.encode_items (S level) r ++ Json.newline_indent level ++ "]".
Proof.
  cbn [Json.encode]. do 3 f_equal. f_equal.
  induction r as [| y r IHr]; cbn [Json.encode_items]; [reflexivity |].
  rewrite IHr. reflexivity.
Qed.

Lemma encode_dict_cons (level : nat) (k : string) (x : pyval)
    (r : list (string * pyval)) :
  Json.encode level (PDict ((k, x) :: r))
  = "{" ++ Json.newline_indent (S level) ++ Json.encode_str k ++ ": "
    ++ Json.encode (S level) x ++ Json.encode_members (S level) r
    ++ Json.newline_indent level ++ "}".
Proof.
  cbn [Json.encode]. do 5 f_equal. f_equal.
  induction r as [| [k' y] r IHr]; cbn [Json.encode_members]; [reflexivity |].
  rewrite IHr. reflexivity.
Qed.

Lemma skip_ws_spaces (n : nat) (s : string) :
  Json.skip_ws (Json.spaces n ++ s) = Json.skip_ws s.
Proof. induction n as [| n IH]; cbn; [reflexivity | exact IH]. Qed.

Lemma skip_ws_newline_indent (level : nat) (s : string) :
  Json.skip_ws (Json.newline_indent level ++ s) = Json.skip_ws s.
Proof.
  unfold Json.newline_indent. rewrite append_assoc. cbn. apply skip_ws_spaces.
Qed.

Lemma encode_head (level : nat) (v : pyval) :
  exists a r, Json.encode level v = String a r /\ opens_value a = true.
Proof.
  destruct v as [| [|] | n | s | [| x l] | [| [k x] d]];
    try (eexists; eexists; split; [reflexivity | reflexivity]).
  cbn [Json.encode]. destruct (str_int_head n) as [a [r [-> Ha]]].
  exists a, r. split; [reflexivity |].
  revert Ha. unfold opens_value, Json.is_ws, PyStr.is_digit, PyStr.is_byte,
    PyStr.in_range, PyStr.code.
  destruct a as [[|] [|] [|] [|] [|] [|] [|] [|]]; cbn;
    intros [H | H]; try discriminate; reflexivity.
Qed.

Lemma skip_ws_opens (a : ascii) (r : string) :
  opens_value a = true -> Json.skip_ws (String a r) = String a r.
Proof.
  unfold opens_value. intros H. cbn [Json.skip_ws].
  destruct (Json.is_ws a); [discriminate | reflexivity].
Qed.

Lemma skip_ws_encode (level : nat) (v : pyval) (s : string) :
  Json.skip_ws (Json.encode level v ++ s) = Json.encode level v ++ s.
Proof.
  destruct (encode_head level v) as [a [r [-> Ha]]].
  cbn [append]. apply skip_ws_opens. exact Ha.
Qed.

Lemma ends_value_items (L level : nat) (r : list pyval) (tail : string) :
  ends_value (Json.encode_items L r ++ Json.newline_indent level ++ tail) = true.
Proof. destruct r; reflexivity. Qed.

Lemma ends_value_members (L level : nat) (r : list (string * pyval))
    (tail : string) :
  ends_value (Json.encode_members L r ++ Json.newline_indent level ++ tail) = true.
Proof. destruct r as [| [k y] r]; reflexivity. Qed.

(** The items of a list, read back one after the other. *)
Lemma scan_items_encode (L level : nat) (rest : string) (r : list pyval) :
  forall (x : pyval) (acc : list pyval) (fuel : nat),
    reads_back x -> Forall reads_back r ->
    (items_weight (x :: r) <= fuel)%nat ->
    Json.scan_items fuel acc
      (Json.encode L x ++ Json.encode_items L r
       ++ Json.newline_indent level ++ "]" ++ rest)
    = Some (PList (acc ++ x :: r), rest).
Proof.
  induction r as [| y r IH]; intros x acc fuel Hx Hr Hfuel;
    (destruct fuel as [| f]; [cbn in Hfuel; lia |]);
    cbn [items_weight fold_right] in Hfuel; cbn [Json.scan_items].
  - rewrite Hx by (try apply ends_value_items; lia).
    cbn [Json.encode_items append]. rewrite skip_ws_newline_indent. reflexivity.
  - rewrite Hx by (try apply ends_value_items; lia).
    cbn [Json.encode_items append].
    rewrite skip_ws_opens by reflexivity.
    change (PyStr.is_byte 44 ",") with true. cbv iota.
    rewrite !append_assoc, skip_ws_newline_indent, skip_ws_encode.
    inversion Hr as [| y' r' Hy Hr']; subst.
    rewrite IH; [| exact Hy | exact Hr' |].
    + rewrite <- app_assoc. reflexivity.
    + unfold items_weight. cbn [fold_right]. lia.
Qed.

Lemma dict_set_fresh {V : Type} (d : PyDict.dict V) (k : string) (v : V) :
  existsb (String.eqb k) (map fst d) = false ->
  PyDict.set d k v = (d ++ [(k, v)])%list.
Proof.
  induction d as [| [k' v'] d IH]; cbn; [reflexivity |].
  rewrite String.eqb_sym. intros H. apply orb_false_elim in H.
  destruct H as [-> H]. rewrite IH by exact H. reflexivity.
Qed.

Lemma distinct_app_fresh (before : list string) (k : string) (after : list string) :
  distinct (before ++ k :: after) = true ->
  existsb (String.eqb k) before = false.
Proof.
  induction before as [| a before IH]; cbn; [reflexivity |].
  intros H. apply andb_prop in H. destruct H as [Ha H].
  rewrite (IH H), orb_false_r.
  apply negb_true_iff in Ha. rewrite existsb_app in Ha.
  apply orb_false_elim in Ha. destruct Ha as [_ Ha]. cbn in Ha.
  apply orb_false_elim in Ha. destruct Ha as [Ha _].
  rewrite String.eqb_sym. exact Ha.
Qed.

(** The members of a dictionary, read back one after the other. *)
Lemma scan_members_encode (L level : nat) (rest : string)
    (r : list (string * pyval)) :
  forall (k : string) (x : pyval) (acc : list (string * pyval)) (fuel : nat),
    reads_back x -> Forall (fun kv => reads_back (snd kv)) r ->
    distinct (map fst (acc ++ (k, x) :: r)) = true ->
    (members_weight ((k, x) :: r) <= fuel)%nat ->
    Json.scan_members fuel acc
      (Json.encode_str k ++ ": " ++ Json.encode L x ++ Json.encode_members L r
       ++ Json.newline_indent level ++ "}" ++ rest)
    = Some (PDict (acc ++ (k, x) :: r), rest).
Proof.
  induction r as [| [k' y] r IH]; intros k x acc fuel Hx Hr Hkeys Hfuel;
    (destruct fuel as [| f]; [cbn in Hfuel; lia |]);
    cbn [members_weight fold_right snd] in Hfuel;
    unfold Json.encode_str; rewrite !append_assoc;
    cbn [Json.scan_members Json.quote append];
    change (PyStr.is_byte 34 (ascii_of_nat 34)) with true; cbv iota;
    change (String (ascii_of_nat 34) ?s) with (Json.quote ++ s);
    rewrite scan_encode_str;
    cbn [append];
    rewrite skip_ws_opens by reflexivity;
    change (PyStr.is_byte 58 ":") with true; cbv iota;
    change (Json.skip_ws (String " " ?s)) with (Json.skip_ws s);
    rewrite skip_ws_encode;
    rewrite map_app in Hkeys; cbn [map fst] in Hkeys;
    pose proof (distinct_app_fresh _ _ _ Hkeys) as Hfresh;
    rewrite Hfresh.
  - rewrite Hx by (try apply ends_value_members; lia).
    cbn [Json.encode_members append]. rewrite skip_ws_newline_indent. reflexivity.
  - rewrite Hx by (try apply ends_value_members; lia).
    cbn [Json.encode_members append].
    rewrite skip_ws_opens by reflexivity.
    change (PyStr.is_byte 44 ",") with true. cbv iota.
    rewrite !append_assoc, skip_ws_newline_indent.
    unfold Json.encode_str at 1. rewrite !append_assoc.
    cbn [Json.quote append].
    rewrite skip_ws_opens by reflexivity.
    inversion Hr as [| kv r' Hy Hr']; subst. cbn [snd] in Hy.
    pose proof (IH k' y (acc ++ [(k, x)])%list f Hy Hr') as Hrec.
    unfold Json.encode_str in Hrec. rewrite !append_assoc in Hrec.
    cbn [Json.quote append] in Hrec.
    rewrite ?append_assoc. rewrite Hrec.
    + rewrite <- app_assoc. reflexivity.
    + rewrite <- app_assoc. rewrite map_app. exact Hkeys.
    + unfold members_weight. cbn [fold_right snd]. lia.
Qed.

Lemma forallb_Forall_reads_back (l : list pyval) :
  Forall (fun v => well_formed v = true -> reads_back v) l ->
  forallb well_formed l = true ->
  Forall reads_back l.
Proof.
  induction 1 as [| x l Hx _ IH]; cbn; intros Hwf; constructor.
  - apply Hx. apply andb_prop in Hwf. tauto.
  - apply IH. apply andb_prop in Hwf. tauto.
Qed.

Lemma forallb_Forall_reads_back_snd (d : list (string * pyval)) :
  Forall (fun kv => well_formed (snd kv) = true -> reads_back (snd kv)) d ->
  forallb (fun kv => well_formed (snd kv)) d = true ->
  Forall (fun kv => reads_back (snd kv)) d.
Proof.
  induction 1 as [| x l Hx _ IH]; cbn; intros Hwf; constructor.
  - apply Hx. apply andb_prop in Hwf. tauto.
  - apply IH. apply andb_prop in Hwf. tauto.
Qed.

(** Every well-formed value is read back from its text. *)
Lemma well_formed_reads_back (v : pyval) : well_formed v = true -> reads_back v.
Proof.
  induction v as [| b | n | s | l IHl | d IHd] using pyval_nested_ind;
    intros Hwf level fuel rest Hfuel Hrest;
    (destruct fuel as [| f]; [cbn in Hfuel; lia |]).
  - reflexivity.
  - destruct b; reflexivity.
  - cbn [Json.encode].
    destruct (str_int_head n) as [a [r [Hn Ha]]].
    pose proof (scan_number_str_int n rest Hrest) as Hscan.
    rewrite Hn in *. cbn [append] in *.
    rewrite scan_value_number by exact Ha. exact Hscan.
  - cbn [Json.encode]. unfold Json.encode_str. rewrite !append_assoc.
    cbn [Json.quote append Json.scan_value].
    change (PyStr.is_byte 34 (ascii_of_nat 34)) with true. cbv iota.
    change (String (ascii_of_nat 34) ?t) with (Json.quote ++ t).
    rewrite scan_encode_str. reflexivity.
  - destruct l as [| x r]; [reflexivity |].
    cbn [well_formed] in Hwf.
    pose proof (forallb_Forall_reads_back _ IHl Hwf) as Hall.
    inversion Hall as [| x' r' Hx Hr]; subst.
    rewrite encode_list_cons, !append_assoc.
    cbn [append Json.scan_value].
    change (PyStr.is_byte 34 "[") with false.
    change (PyStr.is_byte 123 "[") with false.
    change (PyStr.is_byte 91 "[") with true. cbv iota.
    rewrite skip_ws_newline_indent, skip_ws_encode.
    pose proof (scan_items_encode (S level) level rest r x [] f Hx Hr) as Hitems.
    destruct (encode_head (S level) x) as [a [t [Hhead Ha]]].
    rewrite Hhead in *. cbn [append] in *.
    assert (Hclose : PyStr.is_byte 93 a = false).
    { unfold opens_value in Ha. destruct (PyStr.is_byte 93 a); [| reflexivity].
      rewrite andb_false_r in Ha. cbn in Ha. discriminate. }
    rewrite Hclose. apply Hitems.
    cbn [weight] in Hfuel. unfold items_weight. lia.
  - destruct d as [| [k x] r]; [reflexivity |].
    cbn [well_formed] in Hwf. apply andb_prop in Hwf. destruct Hwf as [Hkeys Hwf].
    pose proof (forallb_Forall_reads_back_snd _ IHd Hwf) as Hall.
    inversion Hall as [| kv r' Hx Hr]; subst. cbn [snd] in Hx.
    rewrite encode_dict_cons, !append_assoc.
    cbn [append Json.scan_value].
    change (PyStr.is_byte 34 "{") with false.
    change (PyStr.is_byte 123 "{") with true. cbv iota.
    rewrite skip_ws_newline_indent.
    pose proof (scan_members_encode (S level) level rest r k x [] f Hx Hr Hkeys)
      as Hmembers.
    unfold Json.encode_str in *. rewrite !append_assoc in *.
    cbn [Json.quote append] in *.
    rewrite skip_ws_opens by reflexivity.
    change (PyStr.is_byte 125 (ascii_of_nat 34)) with false. cbv iota.
    apply Hmembers.
    cbn [weight] in Hfuel. unfold members_weight. lia.
Qed.

Lemma length_newline_indent (level : nat) :
  (1 <= String.length (Json.newline_indent level))%nat.
Proof. unfold Json.newline_indent. cbn. lia. Qed.

(** A value's text is at least as long as the value is heavy. *)
Lemma weight_le_length (v : pyval) :
  forall level, (weight v <= String.length (Json.encode level v))%nat.
Proof.
  induction v as [| b | n | s | l IHl | d IHd] using pyval_nested_ind; intros level.
  - cbn. lia.
  - destruct b; cbn; lia.
  - cbn [weight Json.encode]. destruct (str_int_head n) as [a [r [-> _]]]. cbn. lia.
  - cbn. lia.
  - destruct l as [| x r]; [cbn; lia |].
    rewrite encode_list_cons. cbn [weight]. inversion IHl as [| x' r' Hx Hr]; subst.
    cbn [append String.length fold_right]. rewrite !length_append.
    assert (Hitems : forall L, (fold_right (fun x n => S (weight x + n)) O r
                                <= String.length (Json.encode_items L r))%nat).
    { clear -Hr. induction Hr as [| y r Hy _ IH]; intros L;
        cbn [fold_right Json.encode_items append String.length]; [lia |].
      rewrite !length_append. specialize (Hy L). specialize (IH L). lia. }
    specialize (Hx (S level)). specialize (Hitems (S level)).
    pose proof (length_newline_indent (S level)). cbn [String.length]. lia.
  - destruct d as [| [k x] r]; [cbn; lia |].
    rewrite encode_dict_cons. cbn [weight]. inversion IHd as [| kv r' Hx Hr]; subst.
    cbn [snd] in Hx.
    cbn [append String.length fold_right snd].
    repeat (rewrite !length_append; cbn [append String.length]).
    assert (Hmembers : forall L, (fold_right (fun kv n => S (weight (snd kv) + n)) O r
                                  <= String.length (Json.encode_members L r))%nat).
    { clear -Hr. induction Hr as [| [k' y] r Hy _ IH]; intros L;
        cbn [fold_right Json.encode_members snd append String.length] in *; [lia |].
      repeat (rewrite !length_append; cbn [append String.length]).
      specialize (Hy L). specialize (IH L). lia. }
    specialize (Hx (S level)). specialize (Hmembers (S level)).
    pose proof (length_newline_indent (S level)). cbn [String.length]. lia.
Qed.

(** *** The text [json.dump] writes is UTF-8 text *)

Lemma valid_utf8_ascii (a : ascii) (s : string) :
  (PyStr.code a <? 128)%N = true ->
  PyStr.valid_utf8 (String a s) = PyStr.valid_utf8 s.
Proof. intros H. cbn [PyStr.valid_utf8]. rewrite H. reflexivity. Qed.

(** A text goes on after a text. *)
Lemma valid_utf8_app (a b : string) :
  PyStr.valid_utf8 a = true -> PyStr.valid_utf8 (a ++ b) = PyStr.valid_utf8 b.
Proof.
  assert (H : forall n a, (String.length a <= n)%nat ->
                PyStr.valid_utf8 a = true ->
                PyStr.valid_utf8 (a ++ b) = PyStr.valid_utf8 b).
  { induction n as [| n IH]; intros s Hlen Hs.
    - destruct s; [reflexivity | cbn in Hlen; lia].
    - destruct s as [| c s1]; [reflexivity |].
      cbn [append PyStr.valid_utf8] in *.
      destruct (PyStr.code c <? 128)%N.
      + apply IH; [cbn in Hlen; lia | exact Hs].
      + destruct s1 as [| d s2]; [discriminate |]. cbn [append] in *.
        destruct (PyStr.in_range 194 223 c).
        * apply andb_prop in Hs. destruct Hs as [-> Hs]. cbn [andb].
          apply IH; [cbn in Hlen; lia | exact Hs].
        * destruct s2 as [| e s3]; [discriminate |]. cbn [append] in *.
          destruct (PyStr.in_range 224 239 c).
          -- apply andb_prop in Hs. destruct Hs as [-> Hs]. cbn [andb].
             apply IH; [cbn in Hlen; lia | exact Hs].
          -- destruct s3 as [| f s4]; [discriminate |]. cbn [append] in *.
             apply andb_prop in Hs. destruct Hs as [-> Hs]. cbn [andb].
             apply IH; [cbn in Hlen; lia | exact Hs]. }
  exact (H (String.length a) a (le_n _)).
Qed.

Lemma valid_utf8_app_true (a b : string) :
  PyStr.valid_utf8 a = true -> PyStr.valid_utf8 b = true ->
  PyStr.valid_utf8 (a ++ b) = true.
Proof. intros Ha Hb. rewrite valid_utf8_app by exact Ha. exact Hb. Qed.

(** What the escape of one byte looks like: the byte itself when it is
    not ASCII, a text of ASCII characters when it is. *)
Lemma escape_char_high (a : ascii) :
  (PyStr.code a <? 128)%N = false -> Json.escape_char a = String a EmptyString.
Proof.
  intros H. apply N.ltb_ge in H. unfold Json.escape_char. cbv zeta.
  repeat match goal with
         | |- context [(PyStr.code a =? ?k)%N] =>
             destruct (N.eqb_spec (PyStr.code a) k); [lia |]
         end.
  destruct (N.ltb_spec (PyStr.code a) 32); [lia | reflexivity].
Qed.

Lemma escape_char_low (a : ascii) :
  (PyStr.code a <? 128)%N = true -> PyStr.valid_utf8 (Json.escape_char a) = true.
Proof.
  intros H.
  destruct a as [[] [] [] [] [] [] [] []]; try discriminate H; reflexivity.
Qed.

Lemma valid_utf8_escape (s : string) :
  PyStr.valid_utf8 s = true -> PyStr.valid_utf8 (Json.escape s) = true.
Proof.
  assert (H : forall n s, (String.length s <= n)%nat ->
                PyStr.valid_utf8 s = true -> PyStr.valid_utf8 (Json.escape s) = true).
  { induction n as [| n IH]; intros t Hlen Ht.
    - destruct t; [reflexivity | cbn in Hlen; lia].
    - destruct t as [| c t1]; [reflexivity |].
      cbn [Json.escape]. cbn [PyStr.valid_utf8] in Ht.
      destruct (PyStr.code c <? 128)%N eqn:Hc.
      + apply valid_utf8_app_true; [apply escape_char_low; exact Hc |].
        apply IH; [cbn in Hlen; lia | exact Ht].
      + rewrite (escape_char_high c Hc). cbn [append].
        destruct t1 as [| d t2]; [discriminate |].
        assert (Hhigh : forall x, PyStr.is_cont x = true ->
                          (PyStr.code x <? 128)%N = false).
        { intros x Hx. unfold PyStr.is_cont, PyStr.in_range in Hx.
          apply andb_prop in Hx. destruct Hx as [Hx _].
          apply N.leb_le in Hx. apply N.ltb_ge. lia. }
        assert (Hsecond3 : forall x, PyStr.second_of_three c x = true ->
                             (PyStr.code x <? 128)%N = false).
        { intros x Hx. unfold PyStr.second_of_three, PyStr.in_range in Hx.
          destruct (PyStr.is_byte 224 c); [| destruct (PyStr.is_byte 237 c)];
            try (apply Hhigh; exact Hx);
            apply andb_prop in Hx; destruct Hx as [Hx _];
            apply N.leb_le in Hx; apply N.ltb_ge; lia. }
        assert (Hsecond4 : forall x, PyStr.second_of_four c x = true ->
                             (PyStr.code x <? 128)%N = false).
        { intros x Hx. unfold PyStr.second_of_four, PyStr.in_range in Hx.
          destruct (PyStr.is_byte 240 c); [| destruct (PyStr.is_byte 244 c)];
            try (apply Hhigh; exact Hx);
            apply andb_prop in Hx; destruct Hx as [Hx _];
            apply N.leb_le in Hx; apply N.ltb_ge; lia. }
        cbn [Json.escape PyStr.valid_utf8]. rewrite Hc.
        destruct (PyStr.in_range 194 223 c).
        * apply andb_prop in Ht. destruct Ht as [Hd Ht].
          rewrite (escape_char_high d (Hhigh d Hd)). cbn [append].
          rewrite Hd. cbn [andb]. apply IH; [cbn in Hlen; lia | exact Ht].
        * destruct t2 as [| e t3]; [discriminate |].
          destruct (PyStr.in_range 224 239 c).
          -- apply andb_prop in Ht. destruct Ht as [Hde Ht].
             apply andb_prop in Hde. destruct Hde as [Hd He].
             rewrite (escape_char_high d (Hsecond3 d Hd)). cbn [append Json.escape].
             rewrite (escape_char_high e (Hhigh e He)). cbn [append].
             rewrite Hd, He. cbn [andb]. apply IH; [cbn in Hlen; lia | exact Ht].
          -- destruct t3 as [| f t4]; [discriminate |].
             apply andb_prop in Ht. destruct Ht as [Hdef Ht].
             apply andb_prop in Hdef. destruct Hdef as [Hde Hf].
             apply andb_prop in Hde. destruct Hde as [Hcd He].
             apply andb_prop in Hcd. destruct Hcd as [Hc4 Hd].
             rewrite (escape_char_high d (Hsecond4 d Hd)). cbn [append Json.escape].
             rewrite (escape_char_high e (Hhigh e He)). cbn [append Json.escape].
             rewrite (escape_char_high f (Hhigh f Hf)). cbn [append].
             rewrite Hc4, Hd, He, Hf. cbn [andb].
             apply IH; [cbn in Hlen; lia | exact Ht]. }
  exact (H (String.length s) s (le_n _)).
Qed.

Lemma valid_utf8_uint (d : Decimal.uint) :
  PyStr.valid_utf8 (NilEmpty.string_of_uint d) = true.
Proof. induction d; cbn [NilEmpty.string_of_uint]; try reflexivity; exact IHd. Qed.

Lemma valid_utf8_str_int (n : Z) : PyStr.valid_utf8 (PyStr.str_int n) = true.
Proof.
  unfold PyStr.str_int, NilZero.string_of_int.
  destruct (Z.to_int n) as [d | d]; unfold NilZero.string_of_uint.
  - destruct d; try reflexivity; apply (valid_utf8_uint (_ d)).
  - rewrite valid_utf8_ascii by reflexivity.
    destruct d; try reflexivity; apply (valid_utf8_uint (_ d)).
Qed.

Lemma valid_utf8_spaces (n : nat) : PyStr.valid_utf8 (Json.spaces n) = true.
Proof. induction n as [| n IH]; [reflexivity | exact IH]. Qed.

Lemma valid_utf8_newline_indent (level : nat) :
  PyStr.valid_utf8 (Json.newline_indent level) = true.
Proof. unfold Json.newline_indent. cbn [Json.nl append]. apply valid_utf8_spaces. Qed.

Lemma valid_utf8_encode_str (s : string) :
  PyStr.valid_utf8 s = true -> PyStr.valid_utf8 (Json.encode_str s) = true.
Proof.
  intros Hs. unfold Json.encode_str.
  apply valid_utf8_app_true; [reflexivity |].
  apply valid_utf8_app_true; [apply valid_utf8_escape; exact Hs | reflexivity].
Qed.

(** The text written for a value whose strings are UTF-8 text is UTF-8
    text. *)
Lemma valid_utf8_encode (v : pyval) :
  Json.plain v = true -> forall level, PyStr.valid_utf8 (Json.encode level v) = true.
Proof.
  induction v as [| b | n | s | l IHl | d IHd] using pyval_nested_ind;
    intros Hv level.
  - reflexivity.
  - destruct b; reflexivity.
  - apply valid_utf8_str_int.
  - apply valid_utf8_encode_str. exact Hv.
  - destruct l as [| x r]; [reflexivity |].
    rewrite encode_list_cons. cbn [Json.plain forallb] in Hv.
    apply andb_prop in Hv. destruct Hv as [Hx Hr].
    inversion IHl as [| x' r' IHx IHr]; subst.
    apply valid_utf8_app_true; [reflexivity |].
    apply valid_utf8_app_true; [apply valid_utf8_newline_indent |].
    apply valid_utf8_app_true; [apply IHx; exact Hx |].
    apply valid_utf8_app_true;
      [| apply valid_utf8_app_true; [apply valid_utf8_newline_indent | reflexivity]].
    clear -IHr Hr. induction IHr as [| y r IHy _ IH]; [reflexivity |].
    cbn [forallb] in Hr. apply andb_prop in Hr. destruct Hr as [Hy Hr].
    cbn [Json.encode_items].
    apply valid_utf8_app_true; [reflexivity |].
    apply valid_utf8_app_true; [apply valid_utf8_newline_indent |].
    apply valid_utf8_app_true; [apply IHy; exact Hy | apply IH; exact Hr].
  - destruct d as [| [k x] r]; [reflexivity |].
    rewrite encode_dict_cons. cbn [Json.plain forallb fst snd] in Hv.
    apply andb_prop in Hv. destruct Hv as [Hkx Hr].
    apply andb_prop in Hkx. destruct Hkx as [Hk Hx].
    inversion IHd as [| kv r' IHx IHr]; subst. cbn [snd] in IHx.
    apply valid_utf8_app_true; [reflexivity |].
    apply valid_utf8_app_true; [apply valid_utf8_newline_indent |].
    apply valid_utf8_app_true; [apply valid_utf8_encode_str; exact Hk |].
    apply valid_utf8_app_true; [reflexivity |].
    apply valid_utf8_app_true; [apply IHx; exact Hx |].
    apply valid_utf8_app_true;
      [| apply valid_utf8_app_true; [apply valid_utf8_newline_indent | reflexivity]].
    clear -IHr Hr. induction IHr as [| [k' y] r IHy _ IH]; [reflexivity |].
    cbn [forallb fst snd] in Hr, IHy. apply andb_prop in Hr. destruct Hr as [Hky Hr].
    apply andb_prop in Hky. destruct Hky as [Hk' Hy].
    cbn [Json.encode_members].
    apply valid_utf8_app_true; [reflexivity |].
    apply valid_utf8_app_true; [apply valid_utf8_newline_indent |].
    apply valid_utf8_app_true; [apply valid_utf8_encode_str; exact Hk' |].
    apply valid_utf8_app_true; [reflexivity |].
    apply valid_utf8_app_true; [apply IHy; exact Hy | apply IH; exact Hr].
Qed.

(** [json.load] gives back every storable value from the text
    [json.dump(v, f, ensure_ascii=False, indent=4)] wrote for it. *)
Lemma load_dumps (v : pyval) :
  storable v = true -> Json.load (Json.dumps v) = Some v.
Proof.
  intros Hv. unfold storable in Hv. apply andb_prop in Hv. destruct Hv as [Hwf Hrep].
  unfold Json.load, Json.dumps.
  assert (Hplain : Json.plain v = true).
  { unfold Json.representable in Hrep. apply andb_prop in Hrep. tauto. }
  rewrite (valid_utf8_encode v Hplain 0%nat).
  rewrite <- (append_nil_r (Json.encode 0 v)) at 2.
  rewrite skip_ws_encode.
  rewrite (well_formed_reads_back v Hwf 0%nat _ EmptyString);
    [cbn [Json.skip_ws PyStr.is_empty andb]; rewrite Hrep; reflexivity | | reflexivity].
  pose proof (weight_le_length v 0%nat). lia.
Qed.

(** ** The settings file *)

Lemma dict_set_same {V : Type} (d : PyDict.dict V) (k : string) (v : V) :
  PyDict.get d k = Some v -> PyDict.set d k v = d.
Proof.
  induction d as [| [k' v'] d IH]; cbn; [discriminate |].
  destruct (String.eqb k' k); intros H.
  - injection H as ->. reflexivity.
  - rewrite IH by exact H. reflexivity.
Qed.

Lemma dict_get_fresh {V : Type} (d : PyDict.dict V) (k : string) :
  existsb (String.eqb k) (map fst d) = false -> PyDict.get d k = None.
Proof.
  induction d as [| [k' v'] d IH]; cbn; [reflexivity |].
  rewrite String.eqb_sym. intros H. apply orb_false_elim in H.
  destruct H as [-> H]. exact (IH H).
Qed.

Lemma dict_get_distinct {V : Type} (d : PyDict.dict V) (k : string) (v : V) :
  distinct (map fst d) = true -> In (k, v) d -> PyDict.get d k = Some v.
Proof.
  induction d as [| [k' v'] d IH]; cbn; [contradiction |].
  intros Hd [Hhead | Htail].
  - injection Hhead as -> ->. rewrite String.eqb_refl. reflexivity.
  - apply andb_prop in Hd. destruct Hd as [Hfresh Hd].
    destruct (String.eqb k' k) eqn:Hk.
    + apply String.eqb_eq in Hk. subst k'. exfalso.
      apply negb_true_iff in Hfresh.
      assert (Hin : existsb (String.eqb k) (map fst d) = true).
      { apply existsb_exists. exists k. split; [| apply String.eqb_refl].
        apply in_map_iff. exists (k, v). split; [reflexivity | exact Htail]. }
      congruence.
    + apply IH; assumption.
Qed.

(** Merging into a dictionary what it already holds changes nothing. *)
Lemma dict_update_self {V : Type} (d : PyDict.dict V) :
  distinct (map fst d) = true -> PyDict.update d d = d.
Proof.
  intros Hd. unfold PyDict.update.
  assert (H : forall e, (forall k v, In (k, v) e -> PyDict.get d k = Some v) ->
                        fold_left (fun acc kv => PyDict.set acc (fst kv) (snd kv)) e d = d).
  { induction e as [| [k v] e IH]; intros He; cbn; [reflexivity |].
    rewrite dict_set_same by (apply He; left; reflexivity).
    apply IH. intros k' v' Hin. apply He. right. exact Hin. }
  apply H. intros k v Hin. apply dict_get_distinct; assumption.
Qed.

(** Merging a dictionary into an empty one gives the dictionary, in its
    order. *)
Lemma dict_update_nil {V : Type} (d : PyDict.dict V) :
  distinct (map fst d) = true -> PyDict.update [] d = d.
Proof.
  unfold PyDict.update.
  assert (H : forall e acc : PyDict.dict V,
            distinct (map fst (acc ++ e)) = true ->
            fold_left (fun acc kv => PyDict.set acc (fst kv) (snd kv)) e acc
            = (acc ++ e)%list).
  { induction e as [| [k v] e IH]; intros acc Hd; cbn [fold_left fst snd].
    - rewrite app_nil_r. reflexivity.
    - rewrite dict_set_fresh.
      + rewrite IH; rewrite <- app_assoc; [reflexivity | exact Hd].
      + rewrite map_app in Hd. cbn [map fst] in Hd.
        exact (distinct_app_fresh _ _ _ Hd). }
  intros Hd. exact (H d [] Hd).
Qed.

(** After a merge a key has the value merged in, or else the value it
    had. *)
Lemma dict_get_update {V : Type} (e : PyDict.dict V) :
  distinct (map fst e) = true ->
  forall (d : PyDict.dict V) (k : string),
    PyDict.get (PyDict.update d e) k =
    match PyDict.get e k with
    | Some v => Some v
    | None => PyDict.get d k
    end.
Proof.
  unfold PyDict.update.
  induction e as [| [k0 v0] e IH]; intros He d k; cbn [fold_left fst snd];
    [reflexivity |].
  cbn [map fst distinct] in He. apply andb_prop in He. destruct He as [Hfresh He].
  rewrite (IH He). cbn [PyDict.get]. rewrite dict_get_set.
  destruct (String.eqb k0 k) eqn:Hk; [| reflexivity].
  apply String.eqb_eq in Hk. subst k0.
  apply negb_true_iff in Hfresh. rewrite (dict_get_fresh e k Hfresh). reflexivity.
Qed.

Lemma storable_distinct (d : PyDict.dict pyval) :
  storable (PDict d) = true -> distinct (map fst d) = true.
Proof.
  unfold storable. cbn [well_formed]. intros H.
  apply andb_prop in H. destruct H as [H _].
  apply andb_prop in H. tauto.
Qed.

(** Saving, when the file can be opened and written. *)
Lemma save_settings_run (I : UnknownVer.io) (w : UnknownVer.main_window) :
  storable (PDict (UnknownVer.settings w)) = true ->
  UnknownVer.open_w_fault I = None ->
  UnknownVer.write_fault I = None ->
  UnknownVer.save_settings I w
  = Some (Returns tt,
          UnknownVer.mk_main_window (UnknownVer.settings w)
            (Some (Json.dumps (PDict (UnknownVer.settings w))))
            (UnknownVer.logged w)).
Proof.
  intros Hs Hopen Hwrite.
  unfold UnknownVer.save_settings, try_except, bind. rewrite Hs, Hopen, Hwrite.
  reflexivity.
Qed.

(** Loading a file that holds an object, when it can be opened. *)
Lemma load_settings_run (I : UnknownVer.io) (w : UnknownVer.main_window)
    (text : string) (loaded : PyDict.dict pyval) :
  UnknownVer.config_file w = Some text ->
  Json.load text = Some (PDict loaded) ->
  UnknownVer.open_r_fault I = None ->
  UnknownVer.load_settings I w
  = Some (Returns tt,
          UnknownVer.set_settings (PyDict.update (UnknownVer.settings w) loaded) w).
Proof.
  intros Hfile Hload Hopen.
  unfold UnknownVer.load_settings. rewrite Hfile, Hopen, Hload. reflexivity.
Qed.

(** C3, as the two methods have it: when the settings are values [json]
    writes and reads and the file can be opened for writing, written and
    opened for reading, [save_settings] returns without logging and leaves
    a file from which [json.load] gives the settings back.
    [load_settings] then leaves the window that saved with the same keys
    and the same values.  Any window that finds the file gets the saved
    value for every saved key and keeps its own value for the other keys;
    starting from an empty dictionary it ends with the saved settings, key
    for key in the same order. *)
Theorem settings_round_trip (I : UnknownVer.io) (w : UnknownVer.main_window) :
  storable (PDict (UnknownVer.settings w)) = true ->
  UnknownVer.open_w_fault I = None ->
  UnknownVer.write_fault I = None ->
  UnknownVer.open_r_fault I = None ->
  exists w1 text,
    UnknownVer.save_settings I w = Some (Returns tt, w1) /\
    UnknownVer.settings w1 = UnknownVer.settings w /\
    UnknownVer.logged w1 = UnknownVer.logged w /\
    UnknownVer.config_file w1 = Some text /\
    Json.load text = Some (PDict (UnknownVer.settings w)) /\
    (exists w2,
       UnknownVer.load_settings I w1 = Some (Returns tt, w2) /\
       UnknownVer.settings w2 = UnknownVer.settings w /\
       PyDict.keys (UnknownVer.settings w2) = PyDict.keys (UnknownVer.settings w) /\
       UnknownVer.logged w2 = UnknownVer.logged w) /\
    (forall w0,
       UnknownVer.config_file w0 = Some text ->
       exists w2,
         UnknownVer.load_settings I w0 = Some (Returns tt, w2) /\
         UnknownVer.logged w2 = UnknownVer.logged w0 /\
         UnknownVer.settings w2
         = PyDict.update (UnknownVer.settings w0) (UnknownVer.settings w) /\
         (forall k,
            PyDict.get (UnknownVer.settings w2) k =
            match PyDict.get (UnknownVer.settings w) k with
            | Some v => Some v
            | None => PyDict.get (UnknownVer.settings w0) k
            end) /\
         (UnknownVer.settings w0 = [] ->
          UnknownVer.settings w2 = UnknownVer.settings w)).
Proof.
  intros Hs Hopen Hwrite Hread.
  pose proof (storable_distinct _ Hs) as Hkeys.
  pose proof (load_dumps _ Hs) as Hload.
  set (text := Json.dumps (PDict (UnknownVer.settings w))) in *.
  set (w1 := UnknownVer.mk_main_window (UnknownVer.settings w) (Some text)
               (UnknownVer.logged w)).
  exists w1, text.
  split; [exact (save_settings_run I w Hs Hopen Hwrite) |].
  split; [reflexivity |]. split; [reflexivity |]. split; [reflexivity |].
  split; [exact Hload |]. split.
  - eexists. split.
    + apply (load_settings_run I w1 text _ eq_refl Hload Hread).
    + subst w1.
      cbn [UnknownVer.settings UnknownVer.set_settings UnknownVer.logged].
      rewrite (dict_update_self _ Hkeys). repeat split.
  - intros w0 Hfile. eexists. split.
    + apply (load_settings_run I w0 _ _ Hfile Hload Hread).
    + cbn [UnknownVer.settings UnknownVer.set_settings UnknownVer.logged].
      split; [reflexivity |]. split; [reflexivity |]. split.
      * intros k. apply dict_get_update. exact Hkeys.
      * intros ->. apply dict_update_nil. exact Hkeys.
Qed.

Lemma settings_round_trip_witness :
  let w := UnknownVer.mk_main_window
             (PyDict.set (UnknownVer.default_settings "/home/user")
                "theme_dark" (PBool true))
             None [] in
  exists w1 text,
    UnknownVer.save_settings UnknownVer.no_fault w = Some (Returns tt, w1) /\
    UnknownVer.config_file w1 = Some text /\
    Json.load text = Some (PDict (UnknownVer.settings w)) /\
    forall w0,
      UnknownVer.config_file w0 = Some text ->
      UnknownVer.settings w0 = [] ->
      exists w2,
        UnknownVer.load_settings UnknownVer.no_fault w0 = Some (Returns tt, w2) /\
        UnknownVer.settings w2 = UnknownVer.settings w.
Proof.
  intros w.
  destruct (settings_round_trip UnknownVer.no_fault w)
    as [w1 [text [Hsave [_ [_ [Hfile [Hload [_ Hany]]]]]]]]; try reflexivity.
  exists w1, text. split; [exact Hsave |]. split; [exact Hfile |].
  split; [exact Hload |].
  intros w0 Hw0 Hempty.
  destruct (Hany w0 Hw0) as [w2 [Hrun [_ [_ [_ Hfresh]]]]].
  exists w2. split; [exact Hrun | exact (Hfresh Hempty)].
Defined.

(** C3 as it is worded fails when the file cannot be written:
    [save_settings] logs the failure and returns, the file keeps what an
    earlier run wrote, and [load_settings] puts the old value of
    [theme_dark] in the place of the one that was to be saved. *)
Lemma settings_round_trip_counterexample :
  let q := Json.quote in
  let denied := mk_exn OtherException "[Errno 13] Permission denied" in
  let I := UnknownVer.mk_io (Some denied) None None in
  let w := UnknownVer.mk_main_window [("theme_dark", PBool true)]
             (Some ("{" ++ q ++ "theme_dark" ++ q ++ ": false}")) [] in
  exists w1 w2,
    UnknownVer.save_settings I w = Some (Returns tt, w1) /\
    UnknownVer.load_settings I w1 = Some (Returns tt, w2) /\
    UnknownVer.settings w = [("theme_dark", PBool true)] /\
    UnknownVer.settings w2 = [("theme_dark", PBool false)].
Proof. cbv zeta. do 2 eexists. repeat split. Qed.
